(** * pdf_paper_reader: a shallow embedding of [extract_pdf.py] and
      [citation_analyzer.py]

    The pipeline is: PDF path -> extracted text -> one chat-completion
    request with retry/backoff -> a paper record -> rows of a CSV table.

    Python values are modelled as the code manipulates them:
    - [str] is a list of Unicode code points ([list N]); [len] and slicing
      count code points, as in Python 3;
    - a decoded JSON value is the inductive [json]; a JSON object keeps its
      members as an association list in insertion order (Python dicts are
      insertion ordered, and the code iterates over them in two places);
    - the records [process_single_pdf] builds are dict literals that are only
      ever read by key: they are finite maps ([gmap]) from keys to values;
    - an exception is a value of [pyexc]; a computation that may raise
      returns [pyres];
    - the outside world (the PDF libraries, [json.loads], the HTTP
      transport, the folder of papers and the output file) is a set of
      section variables; HTTP requests and sleeps are recorded as a list of
      [event]s, and the table is the list of the rows written.
    Console output ([print]) is not part of any data contract and is left
    out. *)

From Stdlib Require Import ZArith NArith List Bool Lia.
From Corelib Require Import PrimFloat.
From stdpp Require Import gmap list strings.

Set Warnings "-register-all,-inexact-float".
Set Default Proof Using "Type".
Open Scope Z_scope.

(** ** Python strings *)

Module PyStr.

(** A Python [str]: a sequence of code points. *)
Abbreviation pystr := (list N).

(** The bytes of a literal of this file (which is UTF-8 encoded). *)
Fixpoint bytes_of (s : string) : list N :=
  match s with
  | EmptyString => []
  | String a s' => Ascii.N_of_ascii a :: bytes_of s'
  end.

Definition cont (b : N) : N := N.land b 63.

(** UTF-8 decoding of a well-formed byte sequence (the literals below). *)
Fixpoint utf8_decode (bs : list N) : pystr :=
  match bs with
  | [] => []
  | b0 :: r0 =>
    if (b0 <? 128)%N then b0 :: utf8_decode r0
    else if (b0 <? 224)%N then
      match r0 with
      | b1 :: r1 =>
        N.lor (N.shiftl (N.land b0 31) 6) (cont b1) :: utf8_decode r1
      | _ => []
      end
    else if (b0 <? 240)%N then
      match r0 with
      | b1 :: b2 :: r2 =>
        N.lor (N.shiftl (N.land b0 15) 12)
              (N.lor (N.shiftl (cont b1) 6) (cont b2)) :: utf8_decode r2
      | _ => []
      end
    else
      match r0 with
      | b1 :: b2 :: b3 :: r3 =>
        N.lor (N.shiftl (N.land b0 7) 18)
              (N.lor (N.shiftl (cont b1) 12)
                     (N.lor (N.shiftl (cont b2) 6) (cont b3))) :: utf8_decode r3
      | _ => []
      end
  end.

(** A string literal of the source, as a Python [str]. *)
Definition lit (s : string) : pystr := utf8_decode (bytes_of s).

Definition dquote : pystr := [34%N].
Definition newline : pystr := [10%N].

Definition str_eqb (a b : pystr) : bool := bool_decide (a = b).

(** [str.isspace] on one code point: the characters [str.strip()]
    removes when called without argument. *)
Definition isspace (c : N) : bool :=
  ((9 <=? c) && (c <=? 13) || (28 <=? c) && (c <=? 32)
   || (c =? 133) || (c =? 160) || (c =? 5760)
   || (8192 <=? c) && (c <=? 8202)
   || (c =? 8232) || (c =? 8233) || (c =? 8239) || (c =? 8287)
   || (c =? 12288))%N.

Fixpoint lstrip (s : pystr) : pystr :=
  match s with
  | c :: s' => if isspace c then lstrip s' else s
  | [] => []
  end.

Definition rstrip (s : pystr) : pystr := rev (lstrip (rev s)).

(** [s.strip()] *)
Definition strip (s : pystr) : pystr := rstrip (lstrip s).

(** [sep.join(parts)] *)
Fixpoint join (sep : pystr) (parts : list pystr) : pystr :=
  match parts with
  | [] => []
  | [p] => p
  | p :: rest => p ++ sep ++ join sep rest
  end.

(** What a run of characters matched by [X{2,}] becomes under [re.sub]:
    a run of one character is not a match and stays. *)
Definition flush_run (repl run : pystr) : pystr :=
  match run with
  | [] => []
  | [c] => [c]
  | _ => repl
  end.

(** [re.sub(r'[class]{2,}', repl, s)] for a character class [cls]: every
    maximal run of two or more class characters is replaced by [repl].
    [run] is the run read so far. *)
Fixpoint sub_runs (cls : N -> bool) (repl run s : pystr) : pystr :=
  match s with
  | [] => flush_run repl run
  | c :: s' =>
    if cls c then sub_runs cls repl (run ++ [c]) s'
    else flush_run repl run ++ c :: sub_runs cls repl [] s'
  end.

(** [os.path.basename] (POSIX): what follows the last slash. *)
Fixpoint basename_aux (cur p : pystr) : pystr :=
  match p with
  | [] => cur
  | c :: p' => if (c =? 47)%N then basename_aux [] p' else basename_aux (cur ++ [c]) p'
  end.

Definition basename (p : pystr) : pystr := basename_aux [] p.

(** [s.split(sep)] for a separator of one character [sep]: the pieces
    between the separators, empty pieces included. [cur] is the piece read
    so far. *)
Fixpoint split_on (sep : N) (cur s : pystr) : list pystr :=
  match s with
  | [] => [cur]
  | c :: s' =>
    if (c =? sep)%N then cur :: split_on sep [] s'
    else split_on sep (cur ++ [c]) s'
  end.

(** [s.endswith(suffix)] *)
Definition endswith (s suffix : pystr) : bool :=
  (length suffix <=? length s)%nat
  && str_eqb (drop (length s - length suffix) s) suffix.

(** [os.path.join(a, b)] (POSIX). *)
Definition path_join (a b : pystr) : pystr :=
  match b with
  | 47%N :: _ => b
  | _ =>
    match a with
    | [] => b
    | _ => if endswith a [47%N] then a ++ b else a ++ 47%N :: b
    end
  end.

End PyStr.
Export PyStr.

(** ** Python values, exceptions and the operations the code applies *)

Module Py.

(** The exception classes that can arise in the modelled code.
    [LibraryError name] is any other [Exception] subclass raised by an
    external library or by the operating system (pdfminer's
    [PDFSyntaxError], [FileNotFoundError], a [requests.RequestException]
    that is neither a timeout nor a connection error, ...). *)
Inductive pyexc : Type :=
| AttributeError
| TypeError
| KeyError
| IndexError
| UnboundLocalError
| JSONDecodeError
| ValueError
| UnicodeEncodeError
| RequestsTimeout
| RequestsConnectionError
| LibraryError (name : string).

(** The result of a computation that may raise. *)
Inductive pyres (A : Type) : Type :=
| Ret (a : A)
| Raise (e : pyexc).
Arguments Ret {A} a.
Arguments Raise {A} e.

Definition bind {A B} (m : pyres A) (k : A -> pyres B) : pyres B :=
  match m with
  | Ret a => k a
  | Raise e => Raise e
  end.

#[export] Instance pyres_ret : MRet pyres := fun A a => Ret a.
#[export] Instance pyres_bind : MBind pyres := fun A B k m => bind m k.

(** [bool(l)] for a sequence: non-empty. *)
Definition nonempty {A} (l : list A) : bool :=
  match l with
  | [] => false
  | _ :: _ => true
  end.

(** What [json.loads] can return. A mapping keeps its members in insertion
    order. A Python dict has no two members with one key; lookups below
    take the first member with the key, so what is proved for every list
    of members holds for every dict. *)
Inductive json : Type :=
| JNull
| JBool (b : bool)
| JInt (z : Z)
| JFloat (f : float)
| JStr (s : pystr)
| JList (l : list json)
| JDict (d : list (pystr * json)).

(** [d[key]] / [d.get(key)] on the members of a mapping. *)
Fixpoint assoc (key : pystr) (d : list (pystr * json)) : option json :=
  match d with
  | [] => None
  | (k, v) :: d' => if str_eqb k key then Some v else assoc key d'
  end.

(** [bool(v)]: the truth value [if not v] tests. *)
Definition truthy (v : json) : bool :=
  match v with
  | JNull => false
  | JBool b => b
  | JInt z => negb (z =? 0)
  | JFloat f => negb (PrimFloat.eqb f 0%float)
  | JStr s => nonempty s
  | JList l => nonempty l
  | JDict d => nonempty d
  end.

(** [v.get(key, default)]: only a dict has the method. *)
Definition py_get (v : json) (key : pystr) (default : json) : pyres json :=
  match v with
  | JDict d => Ret (from_option id default (assoc key d))
  | _ => Raise AttributeError
  end.

(** [v[key]] with a [str] key. *)
Definition getitem_key (v : json) (key : pystr) : pyres json :=
  match v with
  | JDict d => match assoc key d with Some x => Ret x | None => Raise KeyError end
  | _ => Raise TypeError
  end.

(** [v[0]]. *)
Definition getitem_0 (v : json) : pyres json :=
  match v with
  | JDict _ => Raise KeyError
  | JList (x :: _) => Ret x
  | JList [] => Raise IndexError
  | JStr (c :: _) => Ret (JStr [c])
  | JStr [] => Raise IndexError
  | _ => Raise TypeError
  end.

(** [len(v)]. *)
Definition py_len (v : json) : pyres Z :=
  match v with
  | JStr s => Ret (Z.of_nat (length s))
  | JList l => Ret (Z.of_nat (length l))
  | JDict d => Ret (Z.of_nat (length d))
  | _ => Raise TypeError
  end.

(** [v[:n]]. Slicing a dict raises ([TypeError] up to Python 3.11,
    [KeyError] from 3.12, where slices are hashable). *)
Definition py_slice_to (n : nat) (v : json) : pyres json :=
  match v with
  | JStr s => Ret (JStr (take n s))
  | JList l => Ret (JList (take n l))
  | _ => Raise TypeError
  end.

(** [a + b]: concatenation of two strings or of two lists, addition of
    numbers left aside (the code only adds a string literal). *)
Definition py_add_str (a : json) (b : pystr) : pyres json :=
  match a with
  | JStr s => Ret (JStr (s ++ b))
  | _ => Raise TypeError
  end.

(** [for x in v]: the items the loop visits. *)
Definition py_iter (v : json) : pyres (list json) :=
  match v with
  | JList l => Ret l
  | JStr s => Ret (map (fun c => JStr [c]) s)
  | JDict d => Ret (map (fun kv => JStr (fst kv)) d)
  | _ => Raise TypeError
  end.

(** The items of an iterable as strings, or [TypeError] at the first item
    that is not a [str] ([str.join] accepts nothing else). *)
Fixpoint all_str (l : list json) : pyres (list pystr) :=
  match l with
  | [] => Ret []
  | JStr s :: l' => r ← all_str l'; Ret (s :: r)
  | _ :: _ => Raise TypeError
  end.

(** [sep.join(v)]. *)
Definition py_join (sep : pystr) (v : json) : pyres json :=
  items ← py_iter v;
  parts ← all_str items;
  Ret (JStr (join sep parts)).

End Py.
Export Py.


(** ** extract_pdf.py *)

Module ExtractPdf.

(** What pdfminer's [extract_pages] yields for a page: layout elements,
    of which the code only looks at the text containers. *)
Inductive layout_element : Type :=
| LTTextContainer (text : pystr)
| LTOtherElement.

(** What a page's [extract_text] gives in PyPDF2 and pdfplumber: a string,
    [None], or an exception. *)
Abbreviation page_result := (pyres (option pystr)).

(** Module-level [clean_text]: [re.sub(r'[^\x20-\x7E]', '', text).strip()]. *)
Definition clean_text (text : pystr) : pystr :=
  strip (List.filter (fun c => (32 <=? c)%N && (c <=? 126)%N) text).

(** The [clean_text] nested in [extract_pdf]. *)
Definition is_blank (c : N) : bool := ((c =? 32) || (c =? 9) || (c =? 12))%N.
Definition is_newline (c : N) : bool := (c =? 10)%N.

Definition extract_pdf_clean_text (text : pystr) : pystr :=
  let text := sub_runs is_blank (lit " ") [] text in
  let text := sub_runs is_newline (newline ++ newline) [] text in
  strip text.

(** The text one page layout contributes in the pdfminer branch. *)
Definition layout_text (page_layout : list layout_element) : pystr :=
  flat_map (fun element =>
              match element with
              | LTTextContainer text => text ++ newline
              | LTOtherElement => []
              end) page_layout.

Section Engines.
(** [PdfReader(f).pages] with each page's [extract_text()], or the
    exception that opening or reading the file raises. *)
Variable pypdf2_pages : pystr -> pyres (list page_result).
(** [pdfplumber.open(path).pages] with each page's [extract_text(...)]. *)
Variable pdfplumber_pages : pystr -> pyres (list page_result).
(** [extract_pages(path, laparams)], consumed to the end, or the
    exception raised on the way. *)
Variable extract_pages : pystr -> pyres (list (list layout_element)).

(** The loop of [extract_text]: [text += clean_text(page_text) + "\n"]. *)
Fixpoint extract_text_loop (pages : list page_result) (text : pystr) : pyres pystr :=
  match pages with
  | [] => Ret text
  | page :: rest =>
    r ← page;
    let page_text := from_option id [] r in
    extract_text_loop rest (text ++ clean_text page_text ++ newline)
  end.

(** [extract_text]: everything is inside [try]; any exception gives the
    empty string. *)
Definition extract_text (pdf_path : pystr) : pystr :=
  match pages ← pypdf2_pages pdf_path; extract_text_loop pages [] with
  | Ret text => text
  | Raise _ => []
  end.

(** The loop of the pdfplumber branch: [text += page.extract_text(...) + "\n"];
    [None + "\n"] is a [TypeError]. *)
Fixpoint pdfplumber_loop (pages : list page_result) (text : pystr) : pyres pystr :=
  match pages with
  | [] => Ret text
  | page :: rest =>
    r ← page;
    match r with
    | Some t => pdfplumber_loop rest (text ++ t ++ newline)
    | None => Raise TypeError
    end
  end.

Definition default_engine : pystr := lit "pdfminer".

(** [extract_pdf(pdf_path, engine)]. Neither branch has a [try]. *)
Definition extract_pdf (pdf_path engine : pystr) : pyres pystr :=
  if str_eqb engine (lit "pdfplumber") then
    pages ← pdfplumber_pages pdf_path;
    text ← pdfplumber_loop pages [];
    Ret (extract_pdf_clean_text text)
  else
    layouts ← extract_pages pdf_path;
    Ret (extract_pdf_clean_text (flat_map layout_text layouts)).

End Engines.

(** *** Sentence segmentation *)

(** The class [[。！？；]]. *)
Definition is_cjk_terminator (c : N) : bool :=
  existsb (N.eqb c) (lit "。！？；").

(** The one-character alternatives [!], [\?] and [;] of the mixed pattern. *)
Definition is_ascii_terminator (c : N) : bool :=
  existsb (N.eqb c) (lit "!?;").

(** [re.split(r'([class])', text)]: the texts between the matches and,
    because of the group, the matched characters, alternating. *)
Fixpoint re_split_class (cls : N -> bool) (cur s : pystr) : list pystr :=
  match s with
  | [] => [cur]
  | c :: s' =>
    if cls c then cur :: [c] :: re_split_class cls [] s'
    else re_split_class cls (cur ++ [c]) s'
  end.

(** [[l[i] + l[i+1] for i in range(0, len(l)-1, 2)]] *)
Fixpoint pair_up (l : list pystr) : list pystr :=
  match l with
  | a :: b :: rest => (a ++ b) :: pair_up rest
  | _ => []
  end.

Definition split_chinese_sentences (text : pystr) : list pystr :=
  List.filter (fun s => (1 <? length s)%nat)
              (pair_up (re_split_class is_cjk_terminator [] text)).

(** [re.split(r'([。！？；]|\.[\s]|!|\?|;)', text)]: at each position the
    alternatives are tried in order; a full stop is a delimiter only
    together with a whitespace character that follows it. *)
Fixpoint re_split_mixed (cur s : pystr) : list pystr :=
  match s with
  | [] => [cur]
  | c :: s' =>
    if is_cjk_terminator c then cur :: [c] :: re_split_mixed [] s'
    else if (c =? 46)%N then
      match s' with
      | w :: s'' =>
        if isspace w then cur :: [c; w] :: re_split_mixed [] s''
        else re_split_mixed (cur ++ [c]) s'
      | [] => re_split_mixed (cur ++ [c]) s'
      end
    else if is_ascii_terminator c then cur :: [c] :: re_split_mixed [] s'
    else re_split_mixed (cur ++ [c]) s'
  end.

(** The loop of [split_mixed_sentences] over the pairs. *)
Fixpoint mixed_pairs (l : list pystr) : list pystr :=
  match l with
  | a :: b :: rest =>
    let combined := a ++ b in
    if (1 <? length (strip combined))%nat
    then strip combined :: mixed_pairs rest
    else mixed_pairs rest
  | _ => []
  end.

Definition split_mixed_sentences (text : pystr) : list pystr :=
  mixed_pairs (re_split_mixed [] text).

(** What one page adds to [full_text] in [extract_chinese_pdf]: for every
    paragraph its sentences joined by newlines, nothing between paragraphs. *)
Definition chinese_page_text (page_text : pystr) : pystr :=
  concat (map (fun para => join newline (split_chinese_sentences para))
              (split_on 10 [] page_text)).

(** The English branch of [extract_mixed_pdf]. *)
Definition english_paragraph (para : pystr) : pystr :=
  join (lit "." ++ newline)
       (map strip (List.filter nonempty (split_on 46 [] para)))
  ++ newline.

Section Segmenting.
(** [pdfplumber.open(path).pages] with each page's
    [extract_text(x_tolerance=t, y_tolerance=t)]. *)
Variable pdfplumber_text : Z -> pystr -> pyres (list page_result).
(** The language code [langid.classify] gives a paragraph. *)
Variable langid_classify : pystr -> pystr.

Fixpoint extract_chinese_loop (pages : list page_result) (full_text : pystr)
  : pyres pystr :=
  match pages with
  | [] => Ret full_text
  | page :: rest =>
    r ← page;
    match r with
    | Some (c :: t) => extract_chinese_loop rest (full_text ++ chinese_page_text (c :: t))
    | _ => extract_chinese_loop rest full_text
    end
  end.

(** [extract_chinese_pdf]: no [try]. *)
Definition extract_chinese_pdf (pdf_path : pystr) : pyres pystr :=
  pages ← pdfplumber_text 1 pdf_path;
  extract_chinese_loop pages [].

Definition mixed_paragraph (para : pystr) : pystr :=
  if str_eqb (langid_classify para) (lit "en") then english_paragraph para
  else join newline (split_mixed_sentences para) ++ newline.

Definition mixed_page_text (page_text : pystr) : pystr :=
  concat (map mixed_paragraph (split_on 10 [] page_text)).

Fixpoint extract_mixed_loop (pages : list page_result) (full_text : pystr)
  : pyres pystr :=
  match pages with
  | [] => Ret full_text
  | page :: rest =>
    r ← page;
    match r with
    | Some (c :: t) => extract_mixed_loop rest (full_text ++ mixed_page_text (c :: t))
    | _ => extract_mixed_loop rest full_text
    end
  end.

(** [extract_mixed_pdf]: no [try]. *)
Definition extract_mixed_pdf (pdf_path : pystr) : pyres pystr :=
  pages ← pdfplumber_text 3 pdf_path;
  extract_mixed_loop pages [].

End Segmenting.

End ExtractPdf.

(** ** citation_analyzer.py *)

Module CitationAnalyzer.

(** The configuration block at the top of the file. *)
Record config : Type := Config {
  API_ENDPOINT : pystr;
  API_KEY : pystr;
  PDF_FOLDER : pystr;
  OUTPUT_CSV : pystr;
  MAX_CONCURRENT : Z;
  YOUR_PAPER_TITLE : pystr
}.

(** The values the source ships with (key and title are left to fill in). *)
Definition shipped_config : config := {|
  API_ENDPOINT := lit "https://api.siliconflow.cn/v1/chat/completions";
  API_KEY := [];
  PDF_FOLDER := lit "./papers";
  OUTPUT_CSV := lit "results.csv";
  MAX_CONCURRENT := 4;
  YOUR_PAPER_TITLE := []
|}.

(** *** The request *)

Record payload : Type := Payload {
  model : pystr;
  messages : list (pystr * pystr);    (* role, content *)
  temperature : float;
  max_tokens : Z;
  response_format : pystr             (* the "type" of the format *)
}.

Record request : Type := Request {
  url : pystr;
  headers : list (pystr * pystr);
  body : payload;
  timeout : Z
}.

(** A [requests.Response] as the code reads it: [json_body] is what
    [response.json()] returns, [None] when it raises. *)
Record response : Type := Response {
  status_code : Z;
  json_body : option json;
  text : pystr
}.

(** What the process does to the outside world, in order. *)
Inductive event : Type :=
| EvPost (req : request)     (* requests.post(...) *)
| EvSleep (seconds : Z).     (* time.sleep(...) *)

Definition is_post (e : event) : bool :=
  match e with EvPost _ => true | EvSleep _ => false end.

(** The number of HTTP requests in a trace, and the delays slept. *)
Definition requests_made (tr : list event) : nat := length (List.filter is_post tr).

Fixpoint sleeps (tr : list event) : list Z :=
  match tr with
  | [] => []
  | EvSleep s :: tr' => s :: sleeps tr'
  | EvPost _ :: tr' => sleeps tr'
  end.

(** *** The prompt: the f-string of [call_llm_api], cut at its holes *)

Definition prompt_part1 : pystr := concat
  [ lit "请严格分析当前PDF文件内容，当前输入的pdf文件内容是一篇学术论文："; newline;
    lit "    ## 核心任务"; newline;
    lit "    1. 在论文正文中定位对参考文献《" ].

Definition prompt_part2 : pystr := concat
  [ lit "》的引用评价（✅正面/⚠️中性/❌负面）"; newline;
    lit "    2. 提取施引文献的标题和期刊名称"; newline;
    lit "    3. 提取所有作者姓名(按标准格式: Zhang et al. 或 Li, Y.)"; newline;
    newline;
    lit "    ## 输出要求"; newline;
    lit "    返回纯净JSON对象："; newline;
    lit "    {"; newline;
    lit "        "; dquote; lit "title"; dquote; lit ": "; dquote; lit "施引文献标题"; dquote; lit ","; newline;
    lit "        "; dquote; lit "journal"; dquote; lit ": "; dquote; lit "期刊名称"; dquote; lit ","; newline;
    lit "        "; dquote; lit "authors"; dquote; lit ": ["; dquote; lit "作者1"; dquote; lit ", "; dquote; lit "作者2"; dquote; lit "]，如果是中文名，请直接使用中文名,"; newline;
    lit "        "; dquote; lit "citations"; dquote; lit ": [{"; newline;
    lit "            "; dquote; lit "quote"; dquote; lit ": "; dquote; lit "寻找论文正文中对参考文献《" ].

Definition prompt_part3 : pystr := concat
  [ lit "》的引用评价原文"; dquote; lit ","; newline;
    lit "            "; dquote; lit "sentiment"; dquote; lit ": "; dquote; lit "评价性质"; dquote; lit ","; newline;
    lit "            "; dquote; lit "page"; dquote; lit ": "; dquote; lit "页码"; dquote; newline;
    lit "        }]"; newline;
    lit "    }"; newline;
    newline;
    lit "    ## 处理规则"; newline;
    lit "    - 忽略非引用内容的文本"; newline;
    lit "    - 无相关引用时返回空列表"; newline;
    lit "    - 保持JSON结构完整"; newline;
    newline;
    lit "    --- PDF内容(前30000字符) ---"; newline;
    lit "    " ].

(** Everything of the prompt that precedes the [{pdf_text}] hole. *)
Definition prompt_head (title : pystr) : pystr :=
  prompt_part1 ++ title ++ prompt_part2 ++ title ++ prompt_part3.

Definition build_prompt (title pdf_text : pystr) : pystr :=
  prompt_head title ++ pdf_text.

Definition max_retries : nat := 3.
Definition initial_wait_time : Z := 5.

(** *** Reading a 200 response *)

(** [response_data["choices"][0]["message"]["content"]] *)
Definition completion_content (response_data : json) : pyres json :=
  choices ← getitem_key response_data (lit "choices");
  first ← getitem_0 choices;
  message ← getitem_key first (lit "message");
  getitem_key message (lit "content").

(** Why an iteration of the loop goes on to the next one. *)
Inductive retry_reason : Type := RateLimited | Unavailable | NetworkError.

(** How one iteration of the retry loop ends: the function returns, or
    the loop sleeps and goes on. *)
Inductive attempt_end : Type :=
| Return (v : json)
| Retry (why : retry_reason).

(** The rows of the output table hold Python values ([csv.writer] turns
    them into text). *)
Abbreviation row := (list json).

Definition header_row : row :=
  map JStr [ lit "文件名"; lit "施引标题"; lit "期刊"; lit "作者";
             lit "引用原文"; lit "情感"; lit "页码" ].

(** The records [process_single_pdf] returns. *)
Definition error_record (filename error : pystr) : gmap pystr json :=
  <[ lit "filename" := JStr filename ]>
  (<[ lit "error" := JStr error ]> ∅).

Definition paper_record (filename : pystr) (title journal authors citations : json)
  : gmap pystr json :=
  <[ lit "filename" := JStr filename ]>
  (<[ lit "title" := title ]>
  (<[ lit "journal" := journal ]>
  (<[ lit "authors" := authors ]>
  (<[ lit "citations" := citations ]> ∅)))).

(** [d.get(key, default)] on a record. *)
Definition record_get (d : gmap pystr json) (key : pystr) (default : json) : json :=
  from_option id default (d !! key).

(** [d[key]] on a record. *)
Definition record_item (d : gmap pystr json) (key : pystr) : pyres json :=
  match d !! key with
  | Some v => Ret v
  | None => Raise KeyError
  end.

Section Pipeline.
Variable cfg : config.
(** [json.loads] on a string: the decoded value, [None] for a
    [JSONDecodeError]. *)
Variable json_loads : pystr -> option json.
(** What the [n]-th [requests.post] of one [call_llm_api] call meets:
    a response, or the exception the call raises. *)
Variable transport : nat -> pyres response.
(** pdfminer and pdfplumber, as in [ExtractPdf]. *)
Variable pdfplumber_pages : pystr -> pyres (list ExtractPdf.page_result).
Variable extract_pages : pystr -> pyres (list (list ExtractPdf.layout_element)).

Definition build_request (pdf_text : pystr) : request := {|
  url := API_ENDPOINT cfg;
  headers := [ (lit "Authorization", lit "Bearer " ++ API_KEY cfg);
               (lit "Content-Type", lit "application/json") ];
  body := {|
    model := lit "deepseek-ai/DeepSeek-R1-Distill-Qwen-32B";
    messages := [ (lit "user", build_prompt (YOUR_PAPER_TITLE cfg) pdf_text) ];
    temperature := 0.3%float;
    max_tokens := 2000;
    response_format := lit "json_object"
  |};
  timeout := 60
|}.

(** [json.loads(content)]: anything but a string is a [TypeError]. *)
Definition py_json_loads (content : json) : pyres json :=
  match content with
  | JStr s =>
    match json_loads s with
    | Some v => Ret v
    | None => Raise JSONDecodeError
    end
  | _ => Raise TypeError
  end.

(** The inner [try] of the 200 branch with its handler. The handler
    catches [KeyError] and [JSONDecodeError]; it prints [content], which
    is unbound when the subscripts raised the [KeyError]. *)
Definition read_completion (response_data : json) : pyres json :=
  match completion_content response_data with
  | Ret content =>
    match py_json_loads content with
    | Raise JSONDecodeError => Ret (JDict [])
    | r => r
    end
  | Raise KeyError => Raise UnboundLocalError
  | Raise e => Raise e
  end.

(** The body of the outer [try], once [requests.post] has returned. *)
Definition on_response (r : response) : pyres attempt_end :=
  if status_code r =? 200 then
    response_data ← from_option Ret (Raise JSONDecodeError) (json_body r);
    v ← read_completion response_data;
    Ret (Return v)
  else if status_code r =? 429 then Ret (Retry RateLimited)
  else if status_code r =? 503 then Ret (Retry Unavailable)
  else Ret (Return (JDict [])).

(** One iteration: the outer [try] with its two handlers. *)
Definition attempt_once (posted : pyres response) : attempt_end :=
  match r ← posted; on_response r with
  | Ret e => e
  | Raise RequestsTimeout | Raise RequestsConnectionError => Retry NetworkError
  | Raise _ => Return (JDict [])
  end.

(** [for attempt in range(max_retries)], from iteration [attempt] with
    [remaining] iterations left; the result and the trace of events. *)
Fixpoint retry_loop (req : request) (remaining attempt : nat) (wait_time : Z)
  : json * list event :=
  match remaining with
  | O => (JDict [], [])
  | S remaining' =>
    match attempt_once (transport attempt) with
    | Return v => (v, [EvPost req])
    | Retry _ =>
      let '(v, tr) := retry_loop req remaining' (S attempt) (wait_time * 2) in
      (v, EvPost req :: EvSleep wait_time :: tr)
    end
  end.

Definition call_llm_api (pdf_text : pystr) : json * list event :=
  retry_loop (build_request pdf_text) max_retries 0 initial_wait_time.

(** The record built from a truthy [result]; [result.get] exists on
    dicts only. *)
Definition record_of_result (filename : pystr) (result : json)
  : pyres (gmap pystr json) :=
  title ← py_get result (lit "title") (JStr []);
  journal ← py_get result (lit "journal") (JStr []);
  authors ← py_get result (lit "authors") (JList []);
  citations ← py_get result (lit "citations") (JList []);
  Ret (paper_record filename title journal authors citations).

Definition process_single_pdf (pdf_path : pystr)
  : pyres (gmap pystr json) * list event :=
  let filename := basename pdf_path in
  match ExtractPdf.extract_pdf pdfplumber_pages extract_pages pdf_path
                               ExtractPdf.default_engine with
  | Raise e => (Raise e, [])
  | Ret pdf_text =>
    if negb (nonempty pdf_text) then
      (Ret (error_record filename (lit "TEXT_EXTRACTION_FAILED")), [])
    else
      let '(result, tr) := call_llm_api pdf_text in
      if negb (truthy result) then
        (Ret (error_record filename (lit "API_CALL_FAILED")), tr)
      else (record_of_result filename result, tr)
  end.

End Pipeline.

(** *** [main]: collecting the results and writing the table *)

(** The [results] list after the [as_completed] loop: a task that raised
    is reported and leaves no record. *)
Fixpoint collect (outcomes : list (pyres (gmap pystr json))) : list (gmap pystr json) :=
  match outcomes with
  | [] => []
  | Ret result :: rest => result :: collect rest
  | Raise _ :: rest => collect rest
  end.

(** The quote column:
    [q[:200] + "..." if len(q) > 200 else q] with [q = cite.get("quote", "")]. *)
Definition quote_cell (q : json) : pyres json :=
  n ← py_len q;
  if 200 <? n then
    cut ← py_slice_to 200 q;
    py_add_str cut (lit "...")
  else Ret q.

(** The list passed to [writer.writerow] for one citation. *)
Definition row_of (res : gmap pystr json) (cite : json) : pyres row :=
  filename ← record_item res (lit "filename");
  let title := record_get res (lit "title") (JStr []) in
  let journal := record_get res (lit "journal") (JStr []) in
  authors ← py_join (lit "; ") (record_get res (lit "authors") (JList []));
  q ← py_get cite (lit "quote") (JStr []);
  quote ← quote_cell q;
  sentiment ← py_get cite (lit "sentiment") (JStr []);
  page ← py_get cite (lit "page") (JStr []);
  Ret [filename; title; journal; authors; quote; sentiment; page].

(** [writer.writerow(r)] on the file opened with [encoding="utf-8"]. A
    string cell is written as it is, [None] as the empty string, any other
    cell through [str] (or [repr] for a float), which gives ASCII digits
    and names for numbers and booleans and escapes the surrogates inside a
    list or a dict. The line is encoded when it is written, and a surrogate
    code point (U+D800 to U+DFFF) has no UTF-8 encoding: the call raises
    [UnicodeEncodeError] and the row is not written. [json.loads] returns
    such a string for an escape like [\ud800]. *)
Definition is_surrogate (c : N) : bool := ((0xD800 <=? c) && (c <=? 0xDFFF))%N.

Definition encodable (cell : json) : bool :=
  match cell with
  | JStr s => forallb (fun c => negb (is_surrogate c)) s
  | _ => true
  end.

Definition writerow (r : row) : pyres unit :=
  if forallb encodable r then Ret tt else Raise UnicodeEncodeError.

(** The writing loops: the rows written, and the exception that stopped
    the loop if one was raised (nothing in [main] catches it). *)
Fixpoint write_citations (res : gmap pystr json) (cites : list json)
  : list row * option pyexc :=
  match cites with
  | [] => ([], None)
  | cite :: rest =>
    match r ← row_of res cite; writerow r;; Ret r with
    | Raise e => ([], Some e)
    | Ret r =>
      let '(rows, err) := write_citations res rest in
      (r :: rows, err)
    end
  end.

Definition write_record (res : gmap pystr json) : list row * option pyexc :=
  match py_iter (record_get res (lit "citations") (JList [])) with
  | Raise e => ([], Some e)
  | Ret cites => write_citations res cites
  end.

Fixpoint write_records (results : list (gmap pystr json)) : list row * option pyexc :=
  match results with
  | [] => ([], None)
  | res :: rest =>
    match write_record res with
    | (rows, Some e) => (rows, Some e)
    | (rows, None) =>
      let '(rows', err) := write_records rest in
      (rows ++ rows', err)
    end
  end.

(** The table: the header row, then the data rows. *)
Definition write_csv (results : list (gmap pystr json)) : list row * option pyexc :=
  match writerow header_row with
  | Raise e => ([], Some e)
  | Ret _ =>
    let '(rows, err) := write_records results in
    (header_row :: rows, err)
  end.

(** *** [main]: from the folder to the table *)

Section Main.
Variable cfg : config.
Variable json_loads : pystr -> option json.
(** The transport each task meets, by the path of its document. *)
Variable transport_of : pystr -> nat -> pyres response.
Variable pdfplumber_pages : pystr -> pyres (list ExtractPdf.page_result).
Variable extract_pages : pystr -> pyres (list (list ExtractPdf.layout_element)).
(** [os.listdir]: the names in a folder, or the exception it raises. *)
Variable listdir : pystr -> pyres (list pystr).
(** [str.lower]. *)
Variable lower : pystr -> pystr.
(** The order in which the submitted tasks complete ([as_completed]). *)
Variable completion_order : list pystr -> list pystr.
(** [open(path, "w", ...)]: the exception it raises, [None] when the file
    is opened. *)
Variable open_w : pystr -> option pyexc.

(** The list comprehension that opens [main]. *)
Definition pdf_files : pyres (list pystr) :=
  names ← listdir (PDF_FOLDER cfg);
  Ret (map (path_join (PDF_FOLDER cfg))
           (List.filter (fun f => endswith (lower f) (lit ".pdf")) names)).

(** [ThreadPoolExecutor(max_workers=n)] refuses a pool without workers. *)
Definition thread_pool (n : Z) : pyres unit :=
  if n <=? 0 then Raise ValueError else Ret tt.

(** What the future of one document holds. *)
Definition run_task (pdf : pystr) : pyres (gmap pystr json) :=
  fst (process_single_pdf cfg json_loads (transport_of pdf)
                          pdfplumber_pages extract_pages pdf).

(** [main]: [Raise] when the folder cannot be listed, the pool cannot be
    made or the output file cannot be opened (nothing is written),
    otherwise the table written and the exception that stopped the writing,
    if any. *)
Definition main : pyres (list row * option pyexc) :=
  files ← pdf_files;
  thread_pool (MAX_CONCURRENT cfg);;
  let results := collect (map run_task (completion_order files)) in
  match open_w (OUTPUT_CSV cfg) with
  | Some e => Raise e
  | None => Ret (write_csv results)
  end.

End Main.

End CitationAnalyzer.

(** ** Notions used to state the properties *)

Module Vocabulary.
Import CitationAnalyzer.

(** What a prompt holds after the fixed head: the part that comes from
    the extracted text. *)
Definition embedded_text (title prompt : pystr) : pystr :=
  drop (length (prompt_head title)) prompt.

(** [isinstance(v, dict)] *)
Definition is_dict (v : json) : bool :=
  match v with JDict _ => true | _ => false end.

(** A Citation Record: a dict in which [quote], when present, is a string. *)
Definition citation_record (c : json) : Prop :=
  exists (d : list (pystr * json)) (q : pystr),
    c = JDict d /\ from_option id (JStr []) (assoc (lit "quote") d) = JStr q.

(** The Citation Records a record lists: the items of its [citations]
    field. A record without one (an error marker) lists none. *)
Definition citation_records (res : gmap pystr json) : list json :=
  match res !! lit "citations" with
  | Some (JList cites) => cites
  | _ => []
  end.

(** The Paper Records of the data model, read off the fields of a record.
    An error marker has an [error] field and no [citations]. The record
    of a classified paper has no [error] field, a list of author names and
    a list of Citation Records. Both name their file. *)
Definition error_marker (res : gmap pystr json) : Prop :=
  is_Some (res !! lit "error") /\ res !! lit "citations" = None.

Definition classified_paper (res : gmap pystr json) : Prop :=
  res !! lit "error" = None
  /\ (exists names : list pystr, res !! lit "authors" = Some (JList (map JStr names)))
  /\ (exists cites : list json,
        res !! lit "citations" = Some (JList cites) /\ Forall citation_record cites).

Definition PaperRecord (res : gmap pystr json) : Prop :=
  is_Some (res !! lit "filename") /\ (error_marker res \/ classified_paper res).

(** Text that UTF-8 can encode: no code point of it is a surrogate. *)
Definition utf8_text (s : pystr) : bool := forallb (fun c => negb (is_surrogate c)) s.

(** A value all of whose strings, at any depth, are such text. *)
Fixpoint utf8_json (v : json) : bool :=
  match v with
  | JStr s => utf8_text s
  | JList l => forallb utf8_json l
  | JDict d => forallb (fun kv => utf8_json (snd kv)) d
  | _ => true
  end.

(** A record that holds no other text. *)
Definition Utf8Record (res : gmap pystr json) : Prop :=
  map_Forall (fun _ v => utf8_json v = true) res.

(** A row [writer.writerow] can encode. *)
Definition encodable_row (r : row) : Prop := forallb encodable r = true.

(** What the writer makes of the rows it is given one after the other:
    all of them, or those before the first row that cannot be encoded,
    where [UnicodeEncodeError] ends the writing. *)
Definition written_of (rows written : list row) (err : option pyexc) : Prop :=
  (err = None /\ written = rows /\ Forall encodable_row rows)
  \/ (err = Some UnicodeEncodeError
      /\ Forall encodable_row written
      /\ exists (r : row) (rest : list row),
           rows = written ++ r :: rest /\ ~ encodable_row r).

(** What [requests.post] meets when the failure is transient: a 429 or a
    503 response, a timeout, or a connection error. *)
Definition transient (posted : pyres response) : Prop :=
  (exists r, posted = Ret r /\ (status_code r = 429 \/ status_code r = 503))
  \/ posted = Raise RequestsTimeout
  \/ posted = Raise RequestsConnectionError.

(** [v] is what [json.loads] decodes from the completion of the response
    to request number [n] (counted from 0): that response has status 200,
    its body holds a completion text, and the text decodes to [v]. *)
Definition decoded_completion (json_loads : pystr -> option json)
    (transport : nat -> pyres response) (n : nat) (v : json) : Prop :=
  exists (r : response) (data : json) (content : pystr),
    transport n = Ret r
    /\ status_code r = 200
    /\ json_body r = Some data
    /\ completion_content data = Ret (JStr content)
    /\ json_loads content = Some v.

(** A string in which two neighbours are both of the class [cls]. *)
Fixpoint has_run2 (cls : N -> bool) (s : pystr) : bool :=
  match s with
  | a :: s' =>
    match s' with
    | b :: _ => (cls a && cls b) || has_run2 cls s'
    | [] => false
    end
  | [] => false
  end.

(** A string in which three neighbours are all of the class [cls]. *)
Fixpoint has_run3 (cls : N -> bool) (s : pystr) : bool :=
  match s with
  | a :: s' =>
    match s' with
    | b :: c :: _ => (cls a && cls b && cls c) || has_run3 cls s'
    | _ => false
    end
  | [] => false
  end.

(** Neither the first nor the last character is whitespace. *)
Definition stripped (s : pystr) : Prop :=
  (forall c, head s = Some c -> isspace c = false)
  /\ (forall c, last s = Some c -> isspace c = false).

(** The characters of a string that are not whitespace, in order. *)
Definition ink (s : pystr) : pystr := List.filter (fun c => negb (isspace c)) s.

(** A printable ASCII character ([\x20] to [\x7E]). *)
Definition printable (c : N) : bool := ((32 <=? c) && (c <=? 126))%N.

(** The exceptions that reading a response body can end in. *)
Definition lookup_error (e : pyexc) : Prop :=
  e = KeyError \/ e = TypeError \/ e = IndexError \/ e = UnboundLocalError.

(** A page whose [extract_text] raises. *)
Definition page_raises (page : ExtractPdf.page_result) : Prop :=
  exists e, page = Raise e.

(** A character that ends a delimiter of the mixed pattern once the
    sentence is stripped. *)
Definition is_mixed_terminator (c : N) : bool :=
  ExtractPdf.is_cjk_terminator c || (c =? 46)%N || ExtractPdf.is_ascii_terminator c.

(** A sentence as [split_chinese_sentences] returns it: a body that is not
    empty and has no terminator, then one terminator. *)
Definition chinese_sentence (s : pystr) : Prop :=
  exists (body : pystr) (d : N),
    s = body ++ [d]
    /\ body ≠ []
    /\ ExtractPdf.is_cjk_terminator d = true
    /\ Forall (fun c => ExtractPdf.is_cjk_terminator c = false) body.

(** A full stop with a whitespace character after it: the two-character
    delimiter of the mixed pattern. *)
Fixpoint has_dot_space (s : pystr) : bool :=
  match s with
  | a :: s' =>
    match s' with
    | b :: _ => ((a =? 46)%N && isspace b) || has_dot_space s'
    | [] => false
    end
  | [] => false
  end.

(** A sentence as [split_mixed_sentences] returns it: at least two
    characters, no whitespace at either end, a terminator at the end. *)
Definition mixed_sentence (s : pystr) : Prop :=
  (1 < length s)%nat
  /\ stripped s
  /\ exists d, last s = Some d /\ is_mixed_terminator d = true.

(** The characters of a text that are neither whitespace nor a full stop. *)
Definition letters (s : pystr) : pystr :=
  List.filter (fun c => negb (isspace c) && negb (c =? 46)%N) s.

(** The text of a page, empty when the page has none. *)
Definition page_text_of (page : ExtractPdf.page_result) : pystr :=
  match page with
  | Ret (Some t) => t
  | _ => []
  end.

(** Two different key literals. *)
Ltac keys_differ := vm_compute; discriminate.

(** Lookups in the two record shapes. *)
Ltac record_lookup :=
  unfold error_record, paper_record;
  repeat (rewrite lookup_insert_ne by keys_differ);
  first [ apply lookup_insert_eq | apply lookup_empty ].

End Vocabulary.

(** ** Sample data for the closed instances below *)

Module Samples.
Import CitationAnalyzer.

(** A decoder that knows four JSON documents. *)
Definition empty_object_text : pystr := lit "{}".
Definition citation_array_text : pystr :=
  concat [ lit "[{"; dquote; lit "quote"; dquote; lit ": "; dquote; lit "as in [3]"; dquote; lit "}]" ].
Definition title_only_text : pystr :=
  concat [ lit "{"; dquote; lit "title"; dquote; lit ": "; dquote; lit "A survey"; dquote; lit "}" ].
Definition full_text : pystr :=
  concat [ lit "{"; dquote; lit "title"; dquote; lit ": "; dquote; lit "A survey"; dquote; lit ", ";
           dquote; lit "authors"; dquote; lit ": ["; dquote; lit "Li, Y."; dquote; lit "], ";
           dquote; lit "citations"; dquote; lit ": [{"; dquote; lit "quote"; dquote; lit ": ";
           dquote; lit "as in [3]"; dquote; lit "}, {}]}" ].

Definition citation_array : json :=
  JList [ JDict [ (lit "quote", JStr (lit "as in [3]")) ] ].
Definition title_only : list (pystr * json) :=
  [ (lit "title", JStr (lit "A survey")) ].
Definition full : list (pystr * json) :=
  [ (lit "title", JStr (lit "A survey"));
    (lit "authors", JList [ JStr (lit "Li, Y.") ]);
    (lit "citations", JList [ JDict [ (lit "quote", JStr (lit "as in [3]")) ]; JDict [] ]) ].

Definition sample_loads (s : pystr) : option json :=
  if str_eqb s empty_object_text then Some (JDict [])
  else if str_eqb s citation_array_text then Some citation_array
  else if str_eqb s title_only_text then Some (JDict title_only)
  else if str_eqb s full_text then Some (JDict full)
  else None.

(** The body of a chat-completion response whose completion is [content]. *)
Definition completion_body (content : pystr) : json :=
  JDict [ (lit "choices",
           JList [ JDict [ (lit "message",
                            JDict [ (lit "role", JStr (lit "assistant"));
                                    (lit "content", JStr content) ]) ] ]) ].

Definition ok_response (content : pystr) : response :=
  {| status_code := 200; json_body := Some (completion_body content); text := [] |}.
Definition status_response (code : Z) : response :=
  {| status_code := code; json_body := None; text := lit "error" |}.

(** Two rate-limit responses, then a success. *)
Definition limited_twice (content : pystr) (n : nat) : pyres response :=
  match n with
  | 0%nat | 1%nat => Ret (status_response 429)
  | _ => Ret (ok_response content)
  end.

Definition always (r : response) (n : nat) : pyres response := Ret r.

(** Three transient failures in a row. *)
Definition flaky (n : nat) : pyres response :=
  match n with
  | 0%nat => Ret (status_response 503)
  | 1%nat => Raise RequestsTimeout
  | _ => Ret (status_response 429)
  end.

(** A one-page document with one text box, an empty document, and a file
    pdfminer cannot parse. *)
Definition one_page (path : pystr) : pyres (list (list ExtractPdf.layout_element)) :=
  Ret [ [ ExtractPdf.LTTextContainer (lit "We build on [3].  It works.") ] ].
Definition no_text (path : pystr) : pyres (list (list ExtractPdf.layout_element)) :=
  Ret [ [ ExtractPdf.LTOtherElement ] ].
Definition corrupt (path : pystr) : pyres (list (list ExtractPdf.layout_element)) :=
  Raise (LibraryError "PDFSyntaxError").
Definition no_plumber (path : pystr) : pyres (list ExtractPdf.page_result) :=
  Raise (LibraryError "FileNotFoundError").
Definition unreadable (path : pystr) : pyres (list ExtractPdf.page_result) :=
  Raise (LibraryError "PdfReadError").

Definition sample_path : pystr := lit "./papers/a.pdf".

(** A text one character longer than the prompt announces. *)
Definition long_text : pystr := repeat 97%N (N.to_nat 30001).

(** A record with one author and a citation whose quote has 250 characters. *)
Definition long_quote : pystr := repeat 113%N 250.
Definition long_quote_record : gmap pystr json :=
  paper_record (lit "a.pdf") (JStr (lit "A survey")) (JStr [])
               (JList [ JStr (lit "Li, Y.") ])
               (JList [ JDict [ (lit "quote", JStr long_quote) ] ]).

(** Two records in completion order: a failed extraction, and a paper with
    two citations. *)
Definition sample_results : list (gmap pystr json) :=
  [ error_record (lit "b.pdf") (lit "TEXT_EXTRACTION_FAILED");
    paper_record (lit "a.pdf") (JStr (lit "A survey")) (JStr [])
                 (JList (map JStr [ lit "Li, Y." ]))
                 (JList [ JDict [ (lit "quote", JStr (lit "as in [3]")) ]; JDict [] ]) ].

(** A page whose only text box holds blanks and a line break. *)
Definition blank_page (path : pystr) : pyres (list (list ExtractPdf.layout_element)) :=
  Ret [ [ ExtractPdf.LTTextContainer (lit "  " ++ newline ++ lit " ");
          ExtractPdf.LTOtherElement ] ].

(** Three pdfplumber pages, the second without text. *)
Definition gap_pages (path : pystr) : pyres (list ExtractPdf.page_result) :=
  Ret [ Ret (Some (lit "Introduction")); Ret None; Ret (Some (lit "References")) ].

(** A PyPDF2 reader over two pages, the second a scan without text. *)
Definition two_pages (path : pystr) : pyres (list ExtractPdf.page_result) :=
  Ret [ Ret (Some (lit " Abstract – we ")); Ret None ].

(** A reader whose second page cannot be decoded. *)
Definition broken_page (path : pystr) : pyres (list ExtractPdf.page_result) :=
  Ret [ Ret (Some (lit "Abstract")); Raise (LibraryError "PdfReadError") ].

(** pdfplumber over an English paper: a page of two lines, and a scan. *)
Definition english_pages (tolerance : Z) (path : pystr)
  : pyres (list ExtractPdf.page_result) :=
  Ret [ Ret (Some (lit "We build on [3]. It works." ++ newline ++ lit "See Table 2."));
        Ret None ].

(** A language detector that takes everything for English. *)
Definition all_english (para : pystr) : pystr := lit "en".

(** A folder with two papers and a note, the ASCII lower-casing of its
    names, and tasks that complete in reverse order. *)
Definition sample_listdir (folder : pystr) : pyres (list pystr) :=
  Ret [ lit "a.pdf"; lit "notes.txt"; lit "B.PDF" ].

Definition ascii_lower (s : pystr) : pystr :=
  map (fun c => if ((65 <=? c) && (c <=? 90))%N then (c + 32)%N else c) s.

Definition reversed (files : list pystr) : list pystr := rev files.

(** A paper with three citations; the quote of the second holds the lone
    surrogate U+D800, which [json.loads] returns for the escape [\ud800]. *)
Definition surrogate_record : gmap pystr json :=
  paper_record (lit "a.pdf") (JStr (lit "A survey")) (JStr [])
               (JList (map JStr [ lit "Li, Y." ]))
               (JList [ JDict [ (lit "quote", JStr (lit "as in [3]")) ];
                        JDict [ (lit "quote", JStr [ 0xD800%N ]) ];
                        JDict [] ]).

Definition surrogate_results : list (gmap pystr json) := [ surrogate_record ].

(** The record of a paper whose authors came back as a number, with one
    citation. *)
Definition untyped_record : gmap pystr json :=
  paper_record (lit "c.pdf") (JStr []) (JStr []) (JInt 5) (JList [ JDict [] ]).

(** An output file that can be opened, and one that cannot. *)
Definition writable (path : pystr) : option pyexc := None.
Definition read_only (path : pystr) : option pyexc :=
  Some (LibraryError "PermissionError").

(** A record whose citations are a number, between two well-formed ones. *)
Definition bad_record : gmap pystr json :=
  paper_record (lit "c.pdf") (JStr []) (JStr []) (JList []) (JInt 5).

End Samples.

(** ** The retry loop of [call_llm_api] *)

Module RetryFacts.
Import CitationAnalyzer.

Section Facts.
Variable cfg : config.
Variable json_loads : pystr -> option json.
Variable transport : nat -> pyres response.

Lemma attempt_once_status r :
  status_code r ≠ 200 ->
  attempt_once json_loads (Ret r) =
    if status_code r =? 429 then Retry RateLimited
    else if status_code r =? 503 then Retry Unavailable
    else Return (JDict []).
Proof.
  intros Hne. unfold attempt_once, on_response. cbn.
  destruct (Z.eqb_spec (status_code r) 200) as [|_]; [contradiction|].
  destruct (status_code r =? 429); [reflexivity|].
  destruct (status_code r =? 503); reflexivity.
Qed.

Lemma attempt_once_rate_limited r :
  status_code r = 429 -> attempt_once json_loads (Ret r) = Retry RateLimited.
Proof.
  intros H. rewrite attempt_once_status by lia. rewrite H. reflexivity.
Qed.

Lemma attempt_once_unavailable r :
  status_code r = 503 -> attempt_once json_loads (Ret r) = Retry Unavailable.
Proof.
  intros H. rewrite attempt_once_status by lia. rewrite H. reflexivity.
Qed.

Lemma attempt_once_other_status r :
  status_code r ≠ 200 -> status_code r ≠ 429 -> status_code r ≠ 503 ->
  attempt_once json_loads (Ret r) = Return (JDict []).
Proof.
  intros H2 H4 H5. rewrite attempt_once_status by assumption.
  destruct (Z.eqb_spec (status_code r) 429); [contradiction|].
  destruct (Z.eqb_spec (status_code r) 503); [contradiction|]. reflexivity.
Qed.

(** A 200 response whose completion text decodes: the decoded value. *)
Lemma attempt_once_success r data content v :
  status_code r = 200 ->
  json_body r = Some data ->
  completion_content data = Ret (JStr content) ->
  json_loads content = Some v ->
  attempt_once json_loads (Ret r) = Return v.
Proof.
  intros Hs Hb Hc Hl. unfold attempt_once, on_response. cbn.
  rewrite Hs, Hb. cbn. unfold read_completion. rewrite Hc. cbn.
  rewrite Hl. reflexivity.
Qed.

(** Whatever an iteration meets, it ends in a return or a retry; when it
    returns without a decoded completion, it returns the empty dict. *)
Lemma attempt_once_network e :
  e = RequestsTimeout \/ e = RequestsConnectionError ->
  attempt_once json_loads (Raise e) = Retry NetworkError.
Proof. intros [-> | ->]; reflexivity. Qed.

(** Every event of the loop's trace that is a request is the one
    request built before the loop. *)
Lemma retry_loop_posts req remaining attempt wait_time :
  Forall (fun e => is_post e = true -> e = EvPost req)
         (snd (retry_loop json_loads transport req remaining attempt wait_time)).
Proof.
  revert attempt wait_time.
  induction remaining as [|k IH]; intros attempt wait_time; cbn.
  - constructor.
  - destruct (attempt_once json_loads (transport attempt)).
    + cbn. repeat constructor.
    + specialize (IH (S attempt) (wait_time * 2)).
      destruct (retry_loop json_loads transport req k (S attempt) (wait_time * 2))
        as [v tr]. cbn in *.
      constructor; [reflexivity|]. constructor; [discriminate|]. exact IH.
Qed.

(** The loop makes at most [remaining] requests. *)
Lemma retry_loop_bound req remaining attempt wait_time :
  (requests_made (snd (retry_loop json_loads transport req remaining attempt wait_time))
   <= remaining)%nat.
Proof.
  revert attempt wait_time.
  induction remaining as [|k IH]; intros attempt wait_time; cbn.
  - reflexivity.
  - destruct (attempt_once json_loads (transport attempt)).
    + unfold requests_made. cbn. lia.
    + specialize (IH (S attempt) (wait_time * 2)).
      destruct (retry_loop json_loads transport req k (S attempt) (wait_time * 2))
        as [v tr]. cbn in *. unfold requests_made in *. cbn. lia.
Qed.

(** The first thing [call_llm_api] does is the request. *)
Lemma call_llm_api_first_event pdf_text :
  exists tr, snd (call_llm_api cfg json_loads transport pdf_text)
             = EvPost (build_request cfg pdf_text) :: tr.
Proof.
  unfold call_llm_api, max_retries. cbn.
  destruct (attempt_once json_loads (transport 0)).
  - eexists. reflexivity.
  - destruct (match attempt_once json_loads (transport 1) with
              | Return _ => _ | Retry _ => _ end) as [v tr].
    eexists. reflexivity.
Qed.

End Facts.
End RetryFacts.

(** ** Properties of the classifier, [call_llm_api] *)

Module Classifier.
Import CitationAnalyzer RetryFacts.

(** C1. When the first two requests meet a rate-limit response (429) and
    the third a 200 response whose completion text is valid JSON,
    [call_llm_api] makes exactly three requests, sleeps the base delay
    (5) before the first retry and twice that (10) before the second, and
    returns the decoded completion. *)
Theorem call_llm_api_retries_rate_limit
    (cfg : config) (json_loads : pystr -> option json)
    (transport : nat -> pyres response) (pdf_text : pystr)
    (r0 r1 r2 : response) (data : json) (content : pystr) (v : json) :
  transport 0%nat = Ret r0 -> status_code r0 = 429 ->
  transport 1%nat = Ret r1 -> status_code r1 = 429 ->
  transport 2%nat = Ret r2 -> status_code r2 = 200 ->
  json_body r2 = Some data ->
  completion_content data = Ret (JStr content) ->
  json_loads content = Some v ->
  let req := build_request cfg pdf_text in
  let '(result, tr) := call_llm_api cfg json_loads transport pdf_text in
  result = v
  /\ tr = [ EvPost req; EvSleep initial_wait_time;
            EvPost req; EvSleep (initial_wait_time * 2);
            EvPost req ]
  /\ requests_made tr = 3%nat
  /\ sleeps tr = [5; 10].
Proof.
  intros H0 S0 H1 S1 H2 S2 Hb Hc Hl req.
  unfold call_llm_api, max_retries. cbn [retry_loop].
  rewrite H0, H1, H2.
  rewrite (attempt_once_rate_limited _ _ S0).
  rewrite (attempt_once_rate_limited _ _ S1).
  rewrite (attempt_once_success _ _ _ _ _ S2 Hb Hc Hl).
  repeat split.
Qed.

Lemma call_llm_api_retries_rate_limit_witness :
  let '(result, tr) :=
    call_llm_api shipped_config Samples.sample_loads
                 (Samples.limited_twice Samples.full_text) (lit "We build on [3].") in
  result = JDict Samples.full
  /\ tr = [ EvPost (build_request shipped_config (lit "We build on [3]."));
            EvSleep initial_wait_time;
            EvPost (build_request shipped_config (lit "We build on [3]."));
            EvSleep (initial_wait_time * 2);
            EvPost (build_request shipped_config (lit "We build on [3].")) ]
  /\ requests_made tr = 3%nat
  /\ sleeps tr = [5; 10].
Proof.
  apply (call_llm_api_retries_rate_limit
           shipped_config Samples.sample_loads
           (Samples.limited_twice Samples.full_text) (lit "We build on [3].")
           (Samples.status_response 429) (Samples.status_response 429)
           (Samples.ok_response Samples.full_text)
           (Samples.completion_body Samples.full_text) Samples.full_text
           (JDict Samples.full));
    reflexivity.
Defined.

(** C4. When the first request meets a response whose status is not a
    2xx status and is neither 429 nor 503, [call_llm_api] returns the
    empty dict after exactly one request, without any sleep. *)
Theorem call_llm_api_permanent_error
    (cfg : config) (json_loads : pystr -> option json)
    (transport : nat -> pyres response) (pdf_text : pystr) (r : response) :
  transport 0%nat = Ret r ->
  ~ (200 <= status_code r <= 299) ->
  status_code r ≠ 429 ->
  status_code r ≠ 503 ->
  let '(result, tr) := call_llm_api cfg json_loads transport pdf_text in
  result = JDict []
  /\ tr = [ EvPost (build_request cfg pdf_text) ]
  /\ requests_made tr = 1%nat
  /\ sleeps tr = [].
Proof.
  intros H0 H2xx H429 H503.
  unfold call_llm_api, max_retries. cbn [retry_loop].
  rewrite H0, attempt_once_other_status by (assumption || lia).
  repeat split.
Qed.

Lemma call_llm_api_permanent_error_witness :
  let '(result, tr) :=
    call_llm_api shipped_config Samples.sample_loads
                 (Samples.always (Samples.status_response 401)) (lit "text") in
  result = JDict []
  /\ tr = [ EvPost (build_request shipped_config (lit "text")) ]
  /\ requests_made tr = 1%nat
  /\ sleeps tr = [].
Proof.
  apply (call_llm_api_permanent_error
           shipped_config Samples.sample_loads
           (Samples.always (Samples.status_response 401)) (lit "text")
           (Samples.status_response 401)).
  - reflexivity.
  - cbn. lia.
  - cbn. lia.
  - cbn. lia.
Defined.

End Classifier.

(** ** The retry policy *)

Module Policy.
Import CitationAnalyzer Vocabulary RetryFacts.

Lemma transient_retries (json_loads : pystr -> option json) (posted : pyres response) :
  transient posted -> exists why, attempt_once json_loads posted = Retry why.
Proof.
  intros [(r & -> & [H|H]) | [-> | ->]].
  - exists RateLimited. apply attempt_once_rate_limited, H.
  - exists Unavailable. apply attempt_once_unavailable, H.
  - exists NetworkError. reflexivity.
  - exists NetworkError. reflexivity.
Qed.

(** What an iteration returns is the empty dict or the decoded completion
    of the response it met. *)
Lemma attempt_once_returns (json_loads : pystr -> option json)
    (posted : pyres response) (v : json) :
  attempt_once json_loads posted = Return v ->
  v = JDict []
  \/ exists (r : response) (data : json) (content : pystr),
       posted = Ret r
       /\ status_code r = 200
       /\ json_body r = Some data
       /\ completion_content data = Ret (JStr content)
       /\ json_loads content = Some v.
Proof.
  unfold attempt_once. destruct posted as [r|e]; cbn.
  - unfold on_response.
    destruct (Z.eqb_spec (status_code r) 200) as [Hs|_].
    + destruct (json_body r) as [data|] eqn:Hb; cbn.
      * unfold read_completion.
        destruct (completion_content data) as [content|e] eqn:Hc; cbn.
        -- destruct content as [| | | |c| |]; cbn;
             try (intros [= <-]; left; reflexivity).
           destruct (json_loads c) as [w|] eqn:Hl; cbn.
           ++ intros [= <-]. right. exists r, data, c. auto.
           ++ intros [= <-]. left. reflexivity.
        -- destruct e; cbn; intros [= <-]; left; reflexivity.
      * intros [= <-]. left. reflexivity.
    + destruct (status_code r =? 429); [discriminate|].
      destruct (status_code r =? 503); [discriminate|].
      intros [= <-]. left. reflexivity.
  - destruct e; cbn; try discriminate; intros [= <-]; left; reflexivity.
Qed.

(** What the loop returns is the empty dict or the decoded completion of
    the response to its last request. *)
Lemma retry_loop_result (json_loads : pystr -> option json)
    (transport : nat -> pyres response) (req : request)
    (remaining attempt : nat) (wait_time : Z) :
  let '(result, tr) := retry_loop json_loads transport req remaining attempt wait_time in
  result = JDict []
  \/ exists n : nat,
       requests_made tr = S n
       /\ decoded_completion json_loads transport (attempt + n) result.
Proof.
  revert attempt wait_time.
  induction remaining as [|k IH]; intros attempt wait_time; cbn [retry_loop].
  - left. reflexivity.
  - destruct (attempt_once json_loads (transport attempt)) as [v|why] eqn:Ha.
    + destruct (attempt_once_returns _ _ _ Ha) as [->|Hdec]; [left; reflexivity|].
      right. exists 0%nat. split; [reflexivity|].
      rewrite Nat.add_0_r. exact Hdec.
    + specialize (IH (S attempt) (wait_time * 2)).
      destruct (retry_loop json_loads transport req k (S attempt) (wait_time * 2))
        as [v tr].
      destruct IH as [->|(n & Hn & Hdec)]; [left; reflexivity|].
      right. exists (S n). split.
      * unfold requests_made in Hn |- *. cbn. rewrite Hn. reflexivity.
      * rewrite Nat.add_succ_r. exact Hdec.
Qed.

(** X1. When each of the three requests meets a transient failure,
    [call_llm_api] gives up with the empty dict after three requests,
    having slept 5, 10 and 20 seconds. *)
Theorem call_llm_api_gives_up
    (cfg : config) (json_loads : pystr -> option json)
    (transport : nat -> pyres response) (pdf_text : pystr) :
  transient (transport 0%nat) ->
  transient (transport 1%nat) ->
  transient (transport 2%nat) ->
  let req := build_request cfg pdf_text in
  call_llm_api cfg json_loads transport pdf_text
  = (JDict [],
     [ EvPost req; EvSleep 5; EvPost req; EvSleep 10; EvPost req; EvSleep 20 ]).
Proof.
  intros H0 H1 H2 req.
  destruct (transient_retries json_loads _ H0) as [w0 E0].
  destruct (transient_retries json_loads _ H1) as [w1 E1].
  destruct (transient_retries json_loads _ H2) as [w2 E2].
  unfold call_llm_api, max_retries. cbn [retry_loop].
  rewrite E0, E1, E2. reflexivity.
Qed.

Lemma call_llm_api_gives_up_witness :
  call_llm_api shipped_config Samples.sample_loads Samples.flaky (lit "text")
  = (JDict [],
     [ EvPost (build_request shipped_config (lit "text")); EvSleep 5;
       EvPost (build_request shipped_config (lit "text")); EvSleep 10;
       EvPost (build_request shipped_config (lit "text")); EvSleep 20 ]).
Proof.
  apply (call_llm_api_gives_up shipped_config Samples.sample_loads
                               Samples.flaky (lit "text")).
  - left. exists (Samples.status_response 503). split; [reflexivity|].
    right. reflexivity.
  - right. left. reflexivity.
  - left. exists (Samples.status_response 429). split; [reflexivity|].
    left. reflexivity.
Defined.

(** X2. Whatever the transport does, [call_llm_api] makes at least one and
    at most three requests, all of them the same request, and returns the
    empty dict or the value [json.loads] decoded from the completion of the
    response to its last request, a response with status 200. *)
Theorem call_llm_api_bounds
    (cfg : config) (json_loads : pystr -> option json)
    (transport : nat -> pyres response) (pdf_text : pystr) :
  let '(result, tr) := call_llm_api cfg json_loads transport pdf_text in
  (1 <= requests_made tr <= 3)%nat
  /\ Forall (fun e => is_post e = true -> e = EvPost (build_request cfg pdf_text)) tr
  /\ (result = JDict []
      \/ exists n : nat,
           requests_made tr = S n
           /\ decoded_completion json_loads transport n result).
Proof.
  pose proof (retry_loop_bound json_loads transport (build_request cfg pdf_text)
                               max_retries 0 initial_wait_time) as Hle.
  pose proof (retry_loop_posts json_loads transport (build_request cfg pdf_text)
                               max_retries 0 initial_wait_time) as Hposts.
  destruct (call_llm_api_first_event cfg json_loads transport pdf_text) as [tr' Hfirst].
  pose proof (retry_loop_result json_loads transport (build_request cfg pdf_text)
                                max_retries 0 initial_wait_time) as Hres.
  unfold call_llm_api in *.
  destruct (retry_loop json_loads transport (build_request cfg pdf_text)
                       max_retries 0 initial_wait_time) as [result tr].
  cbn [fst snd plus] in *. subst tr.
  split; [|split; assumption].
  split; [|exact Hle]. unfold requests_made. cbn. lia.
Qed.

(** On the sample of C1 the value is decoded from the third response. *)
Example call_llm_api_decodes_last_response :
  decoded_completion Samples.sample_loads (Samples.limited_twice Samples.full_text)
                     2 (JDict Samples.full)
  /\ fst (call_llm_api shipped_config Samples.sample_loads
                       (Samples.limited_twice Samples.full_text) (lit "We build on [3]."))
     = JDict Samples.full.
Proof.
  split; [|reflexivity].
  exists (Samples.ok_response Samples.full_text),
         (Samples.completion_body Samples.full_text), Samples.full_text.
  repeat split.
Qed.

(** A first response with status 200 and a completion that decodes ends
    the call after one request. *)
Lemma call_llm_api_first_success
    (cfg : config) (json_loads : pystr -> option json)
    (transport : nat -> pyres response) (pdf_text : pystr)
    (r : response) (data : json) (content : pystr) (v : json) :
  transport 0%nat = Ret r -> status_code r = 200 ->
  json_body r = Some data ->
  completion_content data = Ret (JStr content) ->
  json_loads content = Some v ->
  call_llm_api cfg json_loads transport pdf_text
  = (v, [ EvPost (build_request cfg pdf_text) ]).
Proof.
  intros H0 Hs Hb Hc Hl. unfold call_llm_api, max_retries. cbn [retry_loop].
  rewrite H0, (attempt_once_success _ _ _ _ _ Hs Hb Hc Hl). reflexivity.
Qed.

(** X3. A 200 response whose completion text is not JSON ends the call at
    once with the empty dict: one request, no sleep. *)
Theorem call_llm_api_malformed_completion
    (cfg : config) (json_loads : pystr -> option json)
    (transport : nat -> pyres response) (pdf_text : pystr)
    (r : response) (data : json) (content : pystr) :
  transport 0%nat = Ret r -> status_code r = 200 ->
  json_body r = Some data ->
  completion_content data = Ret (JStr content) ->
  json_loads content = None ->
  call_llm_api cfg json_loads transport pdf_text
  = (JDict [], [ EvPost (build_request cfg pdf_text) ]).
Proof.
  intros H0 Hs Hb Hc Hl. unfold call_llm_api, max_retries. cbn [retry_loop].
  rewrite H0. unfold attempt_once, on_response. cbn. rewrite Hs, Hb. cbn.
  unfold read_completion. rewrite Hc. cbn. rewrite Hl. reflexivity.
Qed.

Lemma call_llm_api_malformed_completion_witness :
  call_llm_api shipped_config Samples.sample_loads
               (Samples.always (Samples.ok_response (lit "Sure! Here is the JSON:")))
               (lit "text")
  = (JDict [], [ EvPost (build_request shipped_config (lit "text")) ]).
Proof.
  apply (call_llm_api_malformed_completion
           shipped_config Samples.sample_loads
           (Samples.always (Samples.ok_response (lit "Sure! Here is the JSON:")))
           (lit "text")
           (Samples.ok_response (lit "Sure! Here is the JSON:"))
           (Samples.completion_body (lit "Sure! Here is the JSON:"))
           (lit "Sure! Here is the JSON:"));
    reflexivity.
Defined.

End Policy.

(** ** The prompt and the extracted text *)

Module Prompt.
Import CitationAnalyzer Vocabulary RetryFacts.


(** The prompt embeds the text it is given as it is, whatever its length. *)
Lemma build_prompt_embeds_all (title pdf_text : pystr) :
  embedded_text title (build_prompt title pdf_text) = pdf_text.
Proof. unfold embedded_text, build_prompt. apply drop_app_length. Qed.

Lemma build_prompt_length (title pdf_text : pystr) :
  length (build_prompt title pdf_text)
  = (length (prompt_head title) + length pdf_text)%nat.
Proof. unfold build_prompt. apply length_app. Qed.

(** The head announces a cut at 30000 characters: it ends with the line
    [--- PDF内容(前30000字符) ---]. *)
Lemma prompt_head_announces_cut (title : pystr) :
  exists before,
    prompt_head title
    = before ++ lit "--- PDF内容(前30000字符) ---" ++ newline ++ lit "    ".
Proof.
  unfold prompt_head.
  exists (prompt_part1 ++ title ++ prompt_part2 ++ title
          ++ take (length prompt_part3 - 28) prompt_part3).
  rewrite <- !app_assoc. do 4 f_equal.
Qed.

(** C2, on the code: for a text of 30001 characters the request
    [call_llm_api] sends carries a single user message whose prompt embeds
    all 30001 characters; nothing cuts the text at 30000. *)
Theorem call_llm_api_sends_whole_text
    (cfg : config) (json_loads : pystr -> option json)
    (transport : nat -> pyres response) :
  exists (tr : list event) (content : pystr),
    snd (call_llm_api cfg json_loads transport Samples.long_text)
    = EvPost (build_request cfg Samples.long_text) :: tr
    /\ messages (body (build_request cfg Samples.long_text)) = [ (lit "user", content) ]
    /\ embedded_text (YOUR_PAPER_TITLE cfg) content = Samples.long_text
    /\ Z.of_nat (length (embedded_text (YOUR_PAPER_TITLE cfg) content)) = 30001.
Proof.
  destruct (call_llm_api_first_event cfg json_loads transport Samples.long_text)
    as [tr Htr].
  exists tr, (build_prompt (YOUR_PAPER_TITLE cfg) Samples.long_text).
  split; [exact Htr|]. split; [reflexivity|].
  rewrite build_prompt_embeds_all. split; [reflexivity|].
  unfold Samples.long_text. rewrite repeat_length. reflexivity.
Qed.

End Prompt.

(** ** The extractor *)

Module Extractor.
Import ExtractPdf CitationAnalyzer.

Section Facts.
Variable pypdf2_pages : pystr -> pyres (list page_result).
Variable pdfplumber_pages : pystr -> pyres (list page_result).
Variable extract_pages : pystr -> pyres (list (list layout_element)).

(** The default engine is the pdfminer branch. *)
Lemma extract_pdf_default (pdf_path : pystr) :
  extract_pdf pdfplumber_pages extract_pages pdf_path default_engine
  = layouts ← extract_pages pdf_path;
    Ret (extract_pdf_clean_text (flat_map layout_text layouts)).
Proof. reflexivity. Qed.

(** An exception of pdfminer leaves [extract_pdf] as it is. *)
Lemma extract_pdf_propagates (pdf_path : pystr) (e : pyexc) :
  extract_pages pdf_path = Raise e ->
  extract_pdf pdfplumber_pages extract_pages pdf_path default_engine = Raise e.
Proof. intros H. rewrite extract_pdf_default, H. reflexivity. Qed.

(** The sibling [extract_text] turns the same failure into the empty
    string. *)
Lemma extract_text_catches (pdf_path : pystr) (e : pyexc) :
  pypdf2_pages pdf_path = Raise e -> extract_text pypdf2_pages pdf_path = [].
Proof. intros H. unfold extract_text. rewrite H. reflexivity. Qed.

(** [process_single_pdf] has no handler either. *)
Lemma process_single_pdf_propagates
    (cfg : config) (json_loads : pystr -> option json)
    (transport : nat -> pyres response) (pdf_path : pystr) (e : pyexc) :
  extract_pages pdf_path = Raise e ->
  process_single_pdf cfg json_loads transport pdfplumber_pages extract_pages pdf_path
  = (Raise e, []).
Proof.
  intros H. unfold process_single_pdf.
  rewrite (extract_pdf_propagates _ _ H). reflexivity.
Qed.
End Facts.

(** C3, on the code: on a file pdfminer cannot parse, the default-engine
    [extract_pdf] raises instead of returning a failure value, the
    exception passes through [process_single_pdf], and [main] is left
    with no record for the document, so that no error is recorded on any
    Paper Record. The sibling [extract_text] returns the empty string on
    the same kind of failure. *)
Theorem extract_pdf_parse_failure_escapes
    (cfg : config) (json_loads : pystr -> option json)
    (transport : nat -> pyres response) (pdf_path : pystr) :
  extract_pdf Samples.no_plumber Samples.corrupt pdf_path default_engine
  = Raise (LibraryError "PDFSyntaxError")
  /\ process_single_pdf cfg json_loads transport
                        Samples.no_plumber Samples.corrupt pdf_path
     = (Raise (LibraryError "PDFSyntaxError"), [])
  /\ collect [ fst (process_single_pdf cfg json_loads transport
                                       Samples.no_plumber Samples.corrupt pdf_path) ]
     = []
  /\ extract_text Samples.unreadable pdf_path = [].
Proof.
  split; [apply extract_pdf_propagates; reflexivity|].
  rewrite (process_single_pdf_propagates
             Samples.no_plumber Samples.corrupt cfg json_loads transport pdf_path
             (LibraryError "PDFSyntaxError") eq_refl).
  split; [reflexivity|]. split; [reflexivity|].
  apply (extract_text_catches Samples.unreadable pdf_path
                              (LibraryError "PdfReadError")). reflexivity.
Qed.

End Extractor.

(** ** The records [process_single_pdf] returns *)

Module Records.
Import ExtractPdf CitationAnalyzer Vocabulary RetryFacts.


Lemma error_record_filename f e : error_record f e !! lit "filename" = Some (JStr f).
Proof. record_lookup. Qed.
Lemma error_record_error f e : error_record f e !! lit "error" = Some (JStr e).
Proof. record_lookup. Qed.
Lemma error_record_citations f e : error_record f e !! lit "citations" = None.
Proof. record_lookup. Qed.
Lemma error_record_title f e : error_record f e !! lit "title" = None.
Proof. record_lookup. Qed.
Lemma error_record_journal f e : error_record f e !! lit "journal" = None.
Proof. record_lookup. Qed.
Lemma error_record_authors f e : error_record f e !! lit "authors" = None.
Proof. record_lookup. Qed.

Lemma paper_record_filename f t j a c :
  paper_record f t j a c !! lit "filename" = Some (JStr f).
Proof. record_lookup. Qed.
Lemma paper_record_title f t j a c : paper_record f t j a c !! lit "title" = Some t.
Proof. record_lookup. Qed.
Lemma paper_record_journal f t j a c : paper_record f t j a c !! lit "journal" = Some j.
Proof. record_lookup. Qed.
Lemma paper_record_authors f t j a c : paper_record f t j a c !! lit "authors" = Some a.
Proof. record_lookup. Qed.
Lemma paper_record_citations f t j a c : paper_record f t j a c !! lit "citations" = Some c.
Proof. record_lookup. Qed.
Lemma paper_record_error f t j a c : paper_record f t j a c !! lit "error" = None.
Proof. record_lookup. Qed.

(** [record_of_result] on a dict, and on anything else that is truthy. *)
Lemma record_of_result_dict (filename : pystr) (d : list (pystr * json)) :
  record_of_result filename (JDict d)
  = Ret (paper_record filename
           (from_option id (JStr []) (assoc (lit "title") d))
           (from_option id (JStr []) (assoc (lit "journal") d))
           (from_option id (JList []) (assoc (lit "authors") d))
           (from_option id (JList []) (assoc (lit "citations") d))).
Proof. reflexivity. Qed.


Lemma record_of_result_not_dict (filename : pystr) (v : json) :
  is_dict v = false -> record_of_result filename v = Raise AttributeError.
Proof. destruct v; cbn; intros H; (reflexivity || discriminate). Qed.

Section Facts.
Variable cfg : config.
Variable json_loads : pystr -> option json.
Variable transport : nat -> pyres response.
Variable pdfplumber_pages : pystr -> pyres (list page_result).
Variable extract_pages : pystr -> pyres (list (list layout_element)).

Abbreviation extract path :=
  (extract_pdf pdfplumber_pages extract_pages path default_engine).
Abbreviation process path :=
  (process_single_pdf cfg json_loads transport pdfplumber_pages extract_pages path).
Abbreviation classify pdf_text :=
  (call_llm_api cfg json_loads transport pdf_text).

(** The three ways through [process_single_pdf] once extraction has
    returned. *)
Lemma process_empty_text (pdf_path : pystr) :
  extract pdf_path = Ret [] ->
  process pdf_path
  = (Ret (error_record (basename pdf_path) (lit "TEXT_EXTRACTION_FAILED")), []).
Proof. intros H. unfold process_single_pdf. rewrite H. reflexivity. Qed.

Lemma process_falsy_result (pdf_path pdf_text : pystr) :
  extract pdf_path = Ret pdf_text -> pdf_text ≠ [] ->
  truthy (fst (classify pdf_text)) = false ->
  process pdf_path
  = (Ret (error_record (basename pdf_path) (lit "API_CALL_FAILED")),
     snd (classify pdf_text)).
Proof.
  intros H Hne Hf. unfold process_single_pdf. rewrite H.
  destruct pdf_text as [|c s]; [contradiction|]. cbn [nonempty negb].
  destruct (call_llm_api cfg json_loads transport (c :: s)) as [result tr].
  cbn [fst snd] in Hf |- *. rewrite Hf. cbn [negb]. reflexivity.
Qed.

Lemma process_truthy_result (pdf_path pdf_text : pystr) :
  extract pdf_path = Ret pdf_text -> pdf_text ≠ [] ->
  truthy (fst (classify pdf_text)) = true ->
  process pdf_path
  = (record_of_result (basename pdf_path) (fst (classify pdf_text)),
     snd (classify pdf_text)).
Proof.
  intros H Hne Hf. unfold process_single_pdf. rewrite H.
  destruct pdf_text as [|c s]; [contradiction|]. cbn [nonempty negb].
  destruct (call_llm_api cfg json_loads transport (c :: s)) as [result tr].
  cbn [fst snd] in Hf |- *. rewrite Hf. cbn [negb]. reflexivity.
Qed.

(** C6. Whatever extraction and classification do, a record that
    [process_single_pdf] returns has a [citations] field or an [error]
    field. The only outcomes without a returned record are the two in
    which the function raises: the extractor raised, or the classifier
    returned a truthy value that is not a dict. *)
Theorem process_single_pdf_citations_or_error (pdf_path : pystr) :
  match fst (process pdf_path) with
  | Ret r => is_Some (r !! lit "citations") \/ is_Some (r !! lit "error")
  | Raise e =>
    extract pdf_path = Raise e
    \/ (e = AttributeError
        /\ exists pdf_text,
             extract pdf_path = Ret pdf_text /\ pdf_text ≠ []
             /\ truthy (fst (classify pdf_text)) = true
             /\ is_dict (fst (classify pdf_text)) = false)
  end.
Proof.
  destruct (extract pdf_path) as [pdf_text|e] eqn:He.
  - destruct pdf_text as [|c s].
    + rewrite (process_empty_text _ He). cbn [fst]. right.
      rewrite error_record_error. eauto.
    + assert (Hne : c :: s ≠ []) by discriminate.
      destruct (truthy (fst (classify (c :: s)))) eqn:Ht.
      * rewrite (process_truthy_result _ _ He Hne Ht). cbn [fst].
        destruct (is_dict (fst (classify (c :: s)))) eqn:Hd.
        -- destruct (fst (classify (c :: s))) as [| | | | | |d]; try discriminate.
           rewrite record_of_result_dict. left.
           rewrite paper_record_citations. eauto.
        -- rewrite (record_of_result_not_dict _ _ Hd). right.
           split; [reflexivity|]. exists (c :: s). auto.
      * rewrite (process_falsy_result _ _ He Hne Ht). cbn [fst]. right.
        rewrite error_record_error. eauto.
  - unfold process_single_pdf. rewrite He. cbn. left. reflexivity.
Qed.

(** X24. When extraction returns the empty string, [process_single_pdf]
    returns a record that names the file, has the error
    [TEXT_EXTRACTION_FAILED] and has no [citations], and it makes no
    request: the classifier is not called. *)
Theorem process_single_pdf_empty_text (pdf_path : pystr) :
  extract pdf_path = Ret [] ->
  exists r : gmap pystr json,
    process pdf_path = (Ret r, [])
    /\ r !! lit "filename" = Some (JStr (basename pdf_path))
    /\ r !! lit "error" = Some (JStr (lit "TEXT_EXTRACTION_FAILED"))
    /\ r !! lit "citations" = None
    /\ requests_made (snd (process pdf_path)) = 0%nat.
Proof.
  intros He. rewrite (process_empty_text _ He).
  exists (error_record (basename pdf_path) (lit "TEXT_EXTRACTION_FAILED")).
  split; [reflexivity|].
  split; [apply error_record_filename|].
  split; [apply error_record_error|].
  split; [apply error_record_citations|reflexivity].
Qed.

(** C10. When classification returns the empty dict on a non-empty
    text, [process_single_pdf] returns the error marker of the file: a
    record whose [filename] is the base name of the path and whose [error]
    is [API_CALL_FAILED], without [citations] and without any of the fields
    a classified paper has. It is not a record with defaulted fields. *)
Theorem process_single_pdf_empty_result (pdf_path pdf_text : pystr) :
  extract pdf_path = Ret pdf_text ->
  pdf_text ≠ [] ->
  fst (classify pdf_text) = JDict [] ->
  let '(result, tr) := process pdf_path in
  result = Ret (error_record (basename pdf_path) (lit "API_CALL_FAILED"))
  /\ tr = snd (classify pdf_text)
  /\ error_record (basename pdf_path) (lit "API_CALL_FAILED") !! lit "citations" = None
  /\ result ≠ Ret (paper_record (basename pdf_path) (JStr []) (JStr []) (JList []) (JList []))
  /\ exists r : gmap pystr json,
       result = Ret r
       /\ r !! lit "filename" = Some (JStr (basename pdf_path))
       /\ r !! lit "error" = Some (JStr (lit "API_CALL_FAILED"))
       /\ r !! lit "citations" = None
       /\ r !! lit "title" = None
       /\ r !! lit "journal" = None
       /\ r !! lit "authors" = None.
Proof.
  intros He Hne Hr.
  rewrite (process_falsy_result _ _ He Hne) by (rewrite Hr; reflexivity).
  split; [reflexivity|]. split; [reflexivity|].
  split; [apply error_record_citations|]. split.
  - intros Heq.
    apply (f_equal (fun r : pyres (gmap pystr json) =>
                      match r with
                      | Ret m => m !! lit "citations"
                      | Raise _ => None
                      end)) in Heq.
    cbv beta iota in Heq.
    rewrite error_record_citations, paper_record_citations in Heq. discriminate.
  - exists (error_record (basename pdf_path) (lit "API_CALL_FAILED")).
    split; [reflexivity|].
    split; [apply error_record_filename|].
    split; [apply error_record_error|].
    split; [apply error_record_citations|].
    split; [apply error_record_title|].
    split; [apply error_record_journal|apply error_record_authors].
Qed.

End Facts.

Lemma process_single_pdf_empty_text_witness :
  exists r : gmap pystr json,
    process_single_pdf shipped_config Samples.sample_loads
      (Samples.always (Samples.ok_response Samples.full_text))
      Samples.no_plumber Samples.no_text Samples.sample_path
    = (Ret r, [])
    /\ r !! lit "filename" = Some (JStr (basename Samples.sample_path))
    /\ r !! lit "error" = Some (JStr (lit "TEXT_EXTRACTION_FAILED"))
    /\ r !! lit "citations" = None
    /\ requests_made
         (snd (process_single_pdf shipped_config Samples.sample_loads
                 (Samples.always (Samples.ok_response Samples.full_text))
                 Samples.no_plumber Samples.no_text Samples.sample_path))
       = 0%nat.
Proof.
  apply (process_single_pdf_empty_text
           shipped_config Samples.sample_loads
           (Samples.always (Samples.ok_response Samples.full_text))
           Samples.no_plumber Samples.no_text Samples.sample_path).
  reflexivity.
Defined.

(** C9, on the code. A document in which pdfminer finds no text gets the
    record of the file with the error [TEXT_EXTRACTION_FAILED], and no
    request is made. A file pdfminer cannot parse gets no record at all:
    [extract_pdf] has no handler, the exception leaves [process_single_pdf],
    and the [results] of [main] hold nothing for the document. So the two
    are told apart at the interface, where the claim has them
    indistinguishable. *)
Theorem process_single_pdf_parse_failure_differs
    (cfg : config) (json_loads : pystr -> option json)
    (transport : nat -> pyres response) (pdf_path : pystr) :
  (exists r : gmap pystr json,
     process_single_pdf cfg json_loads transport
                        Samples.no_plumber Samples.no_text pdf_path
     = (Ret r, [])
     /\ r !! lit "filename" = Some (JStr (basename pdf_path))
     /\ r !! lit "error" = Some (JStr (lit "TEXT_EXTRACTION_FAILED"))
     /\ r !! lit "citations" = None
     /\ collect [ fst (process_single_pdf cfg json_loads transport
                                          Samples.no_plumber Samples.no_text pdf_path) ]
        = [ r ])
  /\ process_single_pdf cfg json_loads transport
                        Samples.no_plumber Samples.corrupt pdf_path
     = (Raise (LibraryError "PDFSyntaxError"), [])
  /\ collect [ fst (process_single_pdf cfg json_loads transport
                                       Samples.no_plumber Samples.corrupt pdf_path) ]
     = [].
Proof.
  split; [|split; reflexivity].
  rewrite (process_empty_text cfg json_loads transport
                              Samples.no_plumber Samples.no_text pdf_path eq_refl).
  exists (error_record (basename pdf_path) (lit "TEXT_EXTRACTION_FAILED")).
  split; [reflexivity|].
  split; [apply error_record_filename|].
  split; [apply error_record_error|].
  split; [apply error_record_citations|reflexivity].
Qed.

Lemma process_single_pdf_empty_result_witness :
  let '(result, tr) :=
    process_single_pdf shipped_config Samples.sample_loads
      (Samples.always (Samples.ok_response Samples.empty_object_text))
      Samples.no_plumber Samples.one_page Samples.sample_path in
  result = Ret (error_record (basename Samples.sample_path) (lit "API_CALL_FAILED"))
  /\ tr = snd (call_llm_api shipped_config Samples.sample_loads
                 (Samples.always (Samples.ok_response Samples.empty_object_text))
                 (lit "We build on [3]. It works."))
  /\ error_record (basename Samples.sample_path) (lit "API_CALL_FAILED") !! lit "citations"
     = None
  /\ result ≠ Ret (paper_record (basename Samples.sample_path)
                     (JStr []) (JStr []) (JList []) (JList []))
  /\ exists r : gmap pystr json,
       result = Ret r
       /\ r !! lit "filename" = Some (JStr (basename Samples.sample_path))
       /\ r !! lit "error" = Some (JStr (lit "API_CALL_FAILED"))
       /\ r !! lit "citations" = None
       /\ r !! lit "title" = None
       /\ r !! lit "journal" = None
       /\ r !! lit "authors" = None.
Proof.
  apply (process_single_pdf_empty_result
           shipped_config Samples.sample_loads
           (Samples.always (Samples.ok_response Samples.empty_object_text))
           Samples.no_plumber Samples.one_page Samples.sample_path
           (lit "We build on [3]. It works.")).
  - reflexivity.
  - discriminate.
  - reflexivity.
Defined.

End Records.

(** ** The output table *)

Module Table.
Import CitationAnalyzer Vocabulary Samples Records.

(** *** The quote column *)

Lemma quote_cell_short (q : pystr) :
  (length q <= 200)%nat -> quote_cell (JStr q) = Ret (JStr q).
Proof.
  intros H. unfold quote_cell. cbn.
  destruct (Z.ltb_spec 200 (Z.of_nat (length q))) as [Hlt|_]; [lia|reflexivity].
Qed.

Lemma quote_cell_long (q : pystr) :
  (200 < length q)%nat ->
  quote_cell (JStr q) = Ret (JStr (take 200 q ++ lit "...")).
Proof.
  intros H. unfold quote_cell. cbn.
  destruct (Z.ltb_spec 200 (Z.of_nat (length q))) as [_|Hge]; [reflexivity|lia].
Qed.

(** On a string the quote column never raises, and the cell is the quote
    or its first 200 characters with the marker. *)
Lemma quote_cell_str (q : pystr) :
  exists cell,
    quote_cell (JStr q) = Ret (JStr cell)
    /\ (length cell <= 203)%nat
    /\ ((length q <= 200)%nat -> cell = q)
    /\ ((200 < length q)%nat ->
        cell = take 200 q ++ lit "..." /\ length cell = 203%nat).
Proof.
  destruct (Nat.le_gt_cases (length q) 200) as [Hle|Hgt].
  - exists q. rewrite (quote_cell_short _ Hle).
    split; [reflexivity|]. split; [lia|]. split; [reflexivity|]. lia.
  - exists (take 200 q ++ lit "..."). rewrite (quote_cell_long _ Hgt).
    assert (Hlen : length (take 200 q ++ lit "...") = 203%nat).
    { rewrite length_app, length_take.
      change (length (lit "...")) with 3%nat. lia. }
    split; [reflexivity|]. split; [lia|]. split; [lia|]. auto.
Qed.

(** *** One row *)

Lemma all_str_names (names : list pystr) : all_str (map JStr names) = Ret names.
Proof.
  induction names as [|n names IH]; [reflexivity|].
  cbn. rewrite IH. reflexivity.
Qed.

Lemma py_join_names (sep : pystr) (names : list pystr) :
  py_join sep (JList (map JStr names)) = Ret (JStr (join sep names)).
Proof. unfold py_join. cbn. rewrite all_str_names. reflexivity. Qed.

(** The row of a citation that is a dict, once the three steps that can
    raise have not raised. *)
Lemma row_of_dict (res : gmap pystr json) (c : list (pystr * json))
    (filename authors quote : json) :
  res !! lit "filename" = Some filename ->
  py_join (lit "; ") (record_get res (lit "authors") (JList [])) = Ret authors ->
  quote_cell (from_option id (JStr []) (assoc (lit "quote") c)) = Ret quote ->
  row_of res (JDict c)
  = Ret [ filename;
          record_get res (lit "title") (JStr []);
          record_get res (lit "journal") (JStr []);
          authors;
          quote;
          from_option id (JStr []) (assoc (lit "sentiment") c);
          from_option id (JStr []) (assoc (lit "page") c) ].
Proof.
  intros Hf Ha Hq. unfold row_of, record_item, py_get.
  rewrite Hf, Ha. cbn [mbind pyres_bind bind]. rewrite Hq. reflexivity.
Qed.

(** A row starts with the record's [filename] and has seven cells. *)
Lemma row_of_inv (res : gmap pystr json) (cite : json) (r : row) :
  row_of res cite = Ret r ->
  exists filename,
    res !! lit "filename" = Some filename
    /\ r !! 0%nat = Some filename
    /\ length r = 7%nat.
Proof.
  unfold row_of, record_item.
  destruct (res !! lit "filename") as [filename|]; [|discriminate].
  cbn [mbind pyres_bind bind].
  destruct (py_join (lit "; ") (record_get res (lit "authors") (JList [])))
    as [authors|]; [|discriminate].
  cbn [mbind pyres_bind bind].
  destruct (py_get cite (lit "quote") (JStr [])) as [q|]; [|discriminate].
  cbn [mbind pyres_bind bind].
  destruct (quote_cell q) as [quote|]; [|discriminate].
  cbn [mbind pyres_bind bind].
  destruct (py_get cite (lit "sentiment") (JStr [])) as [sentiment|]; [|discriminate].
  cbn [mbind pyres_bind bind].
  destruct (py_get cite (lit "page") (JStr [])) as [page|]; [|discriminate].
  cbn [mbind pyres_bind bind].
  intros [= <-]. exists filename. auto.
Qed.

(** C5. In the row written for a citation whose quote is the string [q]
    (the empty string when the field is missing), the quote column is a
    string of at most 203 characters: [q] itself when [q] has at most 200
    characters, and otherwise the first 200 characters of [q] followed by
    the three-character marker. *)
Theorem quote_column_truncated
    (res : gmap pystr json) (c : list (pystr * json))
    (filename authors : json) (q : pystr) :
  res !! lit "filename" = Some filename ->
  py_join (lit "; ") (record_get res (lit "authors") (JList [])) = Ret authors ->
  from_option id (JStr []) (assoc (lit "quote") c) = JStr q ->
  exists (r : row) (cell : pystr),
    row_of res (JDict c) = Ret r
    /\ r !! 4%nat = Some (JStr cell)
    /\ (length cell <= 203)%nat
    /\ ((length q <= 200)%nat -> cell = q)
    /\ ((200 < length q)%nat -> cell = take 200 q ++ lit "...").
Proof.
  intros Hf Ha Hq.
  destruct (quote_cell_str q) as (cell & Hcell & Hlen & Hshort & Hlong).
  exists [ filename;
           record_get res (lit "title") (JStr []);
           record_get res (lit "journal") (JStr []);
           authors;
           JStr cell;
           from_option id (JStr []) (assoc (lit "sentiment") c);
           from_option id (JStr []) (assoc (lit "page") c) ], cell.
  split.
  - apply row_of_dict; [exact Hf|exact Ha|]. rewrite Hq. exact Hcell.
  - split; [reflexivity|]. split; [exact Hlen|]. split; [exact Hshort|].
    intros H. apply Hlong. exact H.
Qed.


Lemma quote_column_truncated_witness :
  exists (r : row) (cell : pystr),
    row_of long_quote_record (JDict [ (lit "quote", JStr long_quote) ]) = Ret r
    /\ r !! 4%nat = Some (JStr cell)
    /\ (length cell <= 203)%nat
    /\ ((length long_quote <= 200)%nat -> cell = long_quote)
    /\ ((200 < length long_quote)%nat -> cell = take 200 long_quote ++ lit "...").
Proof.
  apply (quote_column_truncated
           long_quote_record [ (lit "quote", JStr long_quote) ]
           (JStr (lit "a.pdf")) (JStr (lit "Li, Y.")) long_quote).
  - apply paper_record_filename.
  - unfold record_get, long_quote_record. rewrite paper_record_authors. reflexivity.
  - reflexivity.
Defined.

(** *** Writing one row *)

Lemma header_row_written : writerow header_row = Ret tt.
Proof. vm_compute. reflexivity. Qed.

Lemma writerow_encodable (r : row) : encodable_row r -> writerow r = Ret tt.
Proof. unfold encodable_row, writerow. intros ->. reflexivity. Qed.

Lemma writerow_unencodable (r : row) :
  ~ encodable_row r -> writerow r = Raise UnicodeEncodeError.
Proof.
  unfold encodable_row, writerow. intros H.
  destruct (forallb encodable r); [contradiction H; reflexivity|reflexivity].
Qed.

Lemma encodable_row_dec (r : row) : encodable_row r \/ ~ encodable_row r.
Proof.
  unfold encodable_row. destruct (forallb encodable r); [left|right]; congruence.
Qed.

(** One turn of the inner loop, by what becomes of its row. *)
Lemma write_citations_raise res cite cites e :
  row_of res cite = Raise e -> write_citations res (cite :: cites) = ([], Some e).
Proof. intros H. cbn [write_citations]. rewrite H. reflexivity. Qed.

Lemma write_citations_unencodable res cite cites r :
  row_of res cite = Ret r -> ~ encodable_row r ->
  write_citations res (cite :: cites) = ([], Some UnicodeEncodeError).
Proof.
  intros H Hr. cbn [write_citations]. rewrite H. cbn [mbind pyres_bind bind].
  rewrite (writerow_unencodable _ Hr). reflexivity.
Qed.

Lemma write_citations_written res cite cites r :
  row_of res cite = Ret r -> encodable_row r ->
  write_citations res (cite :: cites)
  = (r :: fst (write_citations res cites), snd (write_citations res cites)).
Proof.
  intros H Hr. cbn [write_citations]. rewrite H. cbn [mbind pyres_bind bind].
  rewrite (writerow_encodable _ Hr). cbn [bind].
  destruct (write_citations res cites). reflexivity.
Qed.

(** *** The rows of a collection of records *)

Lemma written_of_nil : written_of [] [] None.
Proof. left. split; [reflexivity|]. split; [reflexivity|constructor]. Qed.

(** The rows of two writing steps in a row, when the first ends well... *)
Lemma written_of_app rows1 rows2 written err :
  Forall encodable_row rows1 ->
  written_of rows2 written err ->
  written_of (rows1 ++ rows2) (rows1 ++ written) err.
Proof.
  intros H1 [(-> & -> & H2)|(-> & Hw & r & rest & -> & Hr)].
  - left. split; [reflexivity|]. split; [reflexivity|]. apply Forall_app. split; assumption.
  - right. split; [reflexivity|]. split; [apply Forall_app; split; assumption|].
    exists r, rest. split; [|exact Hr]. rewrite <- app_assoc. reflexivity.
Qed.

(** ... and when it does not. *)
Lemma written_of_stop rows1 rows2 written e :
  written_of rows1 written (Some e) ->
  written_of (rows1 ++ rows2) written (Some e).
Proof.
  intros [(Hn & _)|(-> & Hw & r & rest & -> & Hr)]; [discriminate|].
  right. split; [reflexivity|]. split; [exact Hw|].
  exists r, (rest ++ rows2). split; [|exact Hr].
  rewrite <- app_assoc. reflexivity.
Qed.

Lemma write_citations_rows (res : gmap pystr json) (cites : list json) (rows : list row) :
  Forall2 (fun cite r => row_of res cite = Ret r) cites rows ->
  exists written err,
    write_citations res cites = (written, err) /\ written_of rows written err.
Proof.
  induction 1 as [|cite r cites rows Hr _ (written & err & Hw & Hof)].
  - exists [], None. split; [reflexivity|apply written_of_nil].
  - destruct (encodable_row_dec r) as [Henc|Henc].
    + exists (r :: written), err. split.
      * rewrite (write_citations_written _ _ _ _ Hr Henc), Hw. reflexivity.
      * apply (written_of_app [r] rows written err); [|exact Hof].
        constructor; [exact Henc|constructor].
    + exists [], (Some UnicodeEncodeError). split.
      * apply (write_citations_unencodable _ _ _ _ Hr Henc).
      * right. split; [reflexivity|]. split; [constructor|].
        exists r, rows. split; [reflexivity|exact Henc].
Qed.

(** *** Text that can be encoded *)

Lemma utf8_text_app (a b : pystr) : utf8_text (a ++ b) = utf8_text a && utf8_text b.
Proof. apply forallb_app. Qed.

Lemma utf8_text_take (n : nat) (s : pystr) : utf8_text s = true -> utf8_text (take n s) = true.
Proof.
  revert n. induction s as [|c s IH]; intros [|n] H; try reflexivity.
  cbn in H |- *. apply andb_true_iff in H as [Hc Hs].
  rewrite Hc. cbn. apply IH. exact Hs.
Qed.

Lemma utf8_text_join (sep : pystr) (names : list pystr) :
  utf8_text sep = true ->
  forallb utf8_json (map JStr names) = true ->
  utf8_text (join sep names) = true.
Proof.
  intros Hsep. induction names as [|p names IH]; intros H; [reflexivity|].
  cbn [map forallb utf8_json] in H. apply andb_true_iff in H as [Hp Hn].
  destruct names as [|p' names]; [exact Hp|].
  change (join sep (p :: p' :: names)) with (p ++ sep ++ join sep (p' :: names)).
  rewrite !utf8_text_app, Hp, Hsep, (IH Hn). reflexivity.
Qed.

Lemma utf8_json_encodable (v : json) : utf8_json v = true -> encodable v = true.
Proof. destruct v; intros H; try reflexivity. exact H. Qed.

Lemma utf8_json_assoc (key : pystr) (d : list (pystr * json)) (default : json) :
  utf8_json (JDict d) = true -> utf8_json default = true ->
  utf8_json (from_option id default (assoc key d)) = true.
Proof.
  intros Hd Hdef. induction d as [|[k v] d IH]; [exact Hdef|].
  cbn [utf8_json forallb snd] in Hd. apply andb_true_iff in Hd as [Hv Hd].
  cbn [assoc]. destruct (str_eqb k key); [exact Hv|].
  apply IH. exact Hd.
Qed.

Lemma utf8_record_get (res : gmap pystr json) (key : pystr) (default : json) :
  Utf8Record res -> utf8_json default = true ->
  utf8_json (record_get res key default) = true.
Proof.
  intros Hres Hdef. unfold record_get.
  destruct (res !! key) as [v|] eqn:Hv; [|exact Hdef].
  exact (Hres key v Hv).
Qed.

Lemma utf8_json_item (l : list json) (v : json) :
  forallb utf8_json l = true -> In v l -> utf8_json v = true.
Proof. intros H Hin. exact (proj1 (forallb_forall _ _) H v Hin). Qed.

(** *** The rows of one record *)

(** The row of a Citation Record of a classified paper. *)
Lemma row_of_citation_record (res : gmap pystr json)
    (filename : json) (names : list pystr) (cite : json) :
  res !! lit "filename" = Some filename ->
  res !! lit "authors" = Some (JList (map JStr names)) ->
  citation_record cite ->
  exists (d : list (pystr * json)) (q cell : pystr),
    cite = JDict d
    /\ from_option id (JStr []) (assoc (lit "quote") d) = JStr q
    /\ (cell = q \/ cell = take 200 q ++ lit "...")
    /\ row_of res cite
       = Ret [ filename;
               record_get res (lit "title") (JStr []);
               record_get res (lit "journal") (JStr []);
               JStr (join (lit "; ") names);
               JStr cell;
               from_option id (JStr []) (assoc (lit "sentiment") d);
               from_option id (JStr []) (assoc (lit "page") d) ].
Proof.
  intros Hf Ha (d & q & -> & Hq).
  assert (Hcell : exists cell, quote_cell (JStr q) = Ret (JStr cell)
                               /\ (cell = q \/ cell = take 200 q ++ lit "...")).
  { destruct (Nat.le_gt_cases (length q) 200) as [Hle|Hgt].
    - exists q. rewrite (quote_cell_short _ Hle). auto.
    - exists (take 200 q ++ lit "..."). rewrite (quote_cell_long _ Hgt). auto. }
  destruct Hcell as (cell & Hcell & Hshape).
  exists d, q, cell. split; [reflexivity|]. split; [exact Hq|]. split; [exact Hshape|].
  apply row_of_dict.
  - exact Hf.
  - unfold record_get. rewrite Ha. apply py_join_names.
  - rewrite Hq. exact Hcell.
Qed.

(** When the record holds no text that UTF-8 cannot encode, neither does
    the row. *)
Lemma row_of_utf8 (res : gmap pystr json) (cites : list json) (cite : json) (r : row) :
  Utf8Record res ->
  classified_paper res ->
  res !! lit "citations" = Some (JList cites) ->
  In cite cites ->
  row_of res cite = Ret r ->
  encodable_row r.
Proof.
  intros Hres (_ & (names & Ha) & (cites' & Hc' & Hall)) Hc Hin Hr.
  rewrite Hc in Hc'. injection Hc' as <-.
  assert (Hcite : citation_record cite).
  { rewrite List.Forall_forall in Hall. apply Hall. exact Hin. }
  unfold row_of, record_item in Hr.
  destruct (res !! lit "filename") as [filename|] eqn:Hf; [|discriminate].
  destruct (row_of_citation_record res filename names cite Hf Ha Hcite)
    as (d & q & cell & -> & Hq & Hshape & Hrow).
  unfold row_of, record_item in Hrow. rewrite Hf in Hrow.
  rewrite Hrow in Hr. injection Hr as <-.
  assert (Hd : utf8_json (JDict d) = true).
  { apply (utf8_json_item cites); [|exact Hin]. exact (Hres _ _ Hc). }
  assert (Hquote : utf8_text q = true).
  { pose proof (utf8_json_assoc (lit "quote") d (JStr []) Hd eq_refl) as H.
    rewrite Hq in H. exact H. }
  unfold encodable_row. cbn [forallb].
  rewrite (utf8_json_encodable _ (Hres _ _ Hf)).
  rewrite (utf8_json_encodable _ (utf8_record_get res (lit "title") (JStr []) Hres eq_refl)).
  rewrite (utf8_json_encodable _ (utf8_record_get res (lit "journal") (JStr []) Hres eq_refl)).
  rewrite (utf8_json_encodable _ (utf8_json_assoc (lit "sentiment") d (JStr []) Hd eq_refl)).
  rewrite (utf8_json_encodable _ (utf8_json_assoc (lit "page") d (JStr []) Hd eq_refl)).
  assert (Hjoin : encodable (JStr (join (lit "; ") names)) = true).
  { apply utf8_text_join; [reflexivity|]. exact (Hres _ _ Ha). }
  assert (Hcellok : encodable (JStr cell) = true).
  { destruct Hshape as [->| ->]; [exact Hquote|].
    change (utf8_text (take 200 q ++ lit "...") = true).
    rewrite utf8_text_app, (utf8_text_take 200 q Hquote). reflexivity. }
  rewrite Hjoin, Hcellok. reflexivity.
Qed.

Lemma rows_of_utf8 (res : gmap pystr json) (cites part : list json) (rows : list row) :
  Utf8Record res ->
  classified_paper res ->
  res !! lit "citations" = Some (JList cites) ->
  (forall cite, In cite part -> In cite cites) ->
  Forall2 (fun cite r => row_of res cite = Ret r) part rows ->
  Forall encodable_row rows.
Proof.
  intros Hres Hp Hc Hsub H.
  induction H as [|cite r part rows Hr _ IH]; constructor.
  - apply (row_of_utf8 res cites cite r Hres Hp Hc); [|exact Hr].
    apply Hsub. left. reflexivity.
  - apply IH. intros c Hin. apply Hsub. right. exact Hin.
Qed.

(** The rows of the Citation Records of a Paper Record, and what the
    writer makes of them. *)
Lemma write_record_rows (res : gmap pystr json) :
  PaperRecord res ->
  exists rows,
    Forall2 (fun cite r => row_of res cite = Ret r) (citation_records res) rows
    /\ (Utf8Record res -> Forall encodable_row rows)
    /\ exists written err,
         write_record res = (written, err) /\ written_of rows written err.
Proof.
  intros [[filename Hf] [[_ Hnone]|Hpaper]].
  - exists []. unfold citation_records, write_record, record_get. rewrite Hnone.
    split; [constructor|]. split; [constructor|].
    exists [], None. split; [reflexivity|apply written_of_nil].
  - pose proof Hpaper as (_ & (names & Ha) & (cites & Hc & Hall)).
    assert (Hrows : exists rows,
              Forall2 (fun cite r => row_of res cite = Ret r) cites rows).
    { clear Hc. induction Hall as [|cite cites Hcite _ [rows IH]].
      - exists []. constructor.
      - destruct (row_of_citation_record res filename names cite Hf Ha Hcite)
          as (d & q & cell & _ & _ & _ & Hrow).
        eexists (_ :: rows). constructor; [exact Hrow|exact IH]. }
    destruct Hrows as [rows Hrows].
    exists rows. unfold citation_records, write_record, record_get. rewrite Hc.
    split; [exact Hrows|]. split.
    + intros Hutf.
      apply (rows_of_utf8 res cites cites rows Hutf Hpaper Hc); [auto|exact Hrows].
    + cbn [from_option id py_iter]. apply write_citations_rows. exact Hrows.
Qed.

(** The rows of the pairs of a collection of Paper Records, record after
    record, and what the writer makes of them. *)
Lemma write_records_rows (results : list (gmap pystr json)) :
  Forall PaperRecord results ->
  exists rowss : list (list row),
    Forall2 (fun res rows =>
               Forall2 (fun cite r => row_of res cite = Ret r) (citation_records res) rows)
            results rowss
    /\ (Forall Utf8Record results -> Forall encodable_row (concat rowss))
    /\ exists written err,
         write_records results = (written, err)
         /\ written_of (concat rowss) written err.
Proof.
  induction 1 as [|res results Hres _ (rowss & Hrowss & Hutf & written' & err' & Hw' & Hof')].
  - exists []. split; [constructor|]. split; [constructor|].
    exists [], None. split; [reflexivity|apply written_of_nil].
  - destruct (write_record_rows res Hres)
      as (rows & Hrows & Hutf1 & written & err & Hw & Hof).
    exists (rows :: rowss). split; [constructor; assumption|]. split.
    + intros Hall. apply Forall_cons in Hall as [H1 H2].
      cbn [concat]. apply Forall_app. split; [apply Hutf1; exact H1|apply Hutf; exact H2].
    + cbn [write_records concat]. rewrite Hw.
      destruct err as [e|].
      * exists written, (Some e). split; [reflexivity|].
        apply written_of_stop. exact Hof.
      * destruct Hof as [(_ & -> & Henc)|(Hsome & _)]; [|discriminate].
        rewrite Hw'. exists (rows ++ written'), err'. split; [reflexivity|].
        apply written_of_app; assumption.
Qed.

Lemma citation_records_error (res : gmap pystr json) :
  PaperRecord res -> is_Some (res !! lit "error") -> citation_records res = [].
Proof.
  intros [_ [[_ Hnone]|(Hnone & _)]] Herr.
  - unfold citation_records. rewrite Hnone. reflexivity.
  - rewrite Hnone in Herr. destruct Herr as [v Hv]. discriminate.
Qed.

Lemma write_csv_rows (results : list (gmap pystr json)) :
  write_csv results
  = (header_row :: fst (write_records results), snd (write_records results)).
Proof.
  unfold write_csv. rewrite header_row_written.
  destruct (write_records results). reflexivity.
Qed.

(** C7, as stated, fails on two kinds of records. The paper of [a.pdf]
    has three Citation Records and the quote of the second holds a lone
    surrogate: the first row is written, the second raises
    [UnicodeEncodeError], and no row is written for the second and the
    third pair. The record of [c.pdf] is what [process_single_pdf] returns
    when the authors come back as a number: its one Citation Record gets no
    row, [TypeError] ends the writing, and the two pairs of the record after
    it get no row either. *)
Lemma unencodable_quote_ends_the_table :
  (Forall PaperRecord surrogate_results
   /\ sum_list (map (fun res => length (citation_records res)) surrogate_results) = 3%nat
   /\ write_csv surrogate_results
      = ( [ header_row;
            [ JStr (lit "a.pdf"); JStr (lit "A survey"); JStr []; JStr (lit "Li, Y.");
              JStr (lit "as in [3]"); JStr []; JStr [] ] ],
          Some UnicodeEncodeError )
   /\ ~ (exists rows : list row,
           write_csv surrogate_results = (header_row :: rows, None)
           /\ length rows = 3%nat))
  /\ (sum_list (map (fun res => length (citation_records res))
                    (untyped_record :: sample_results)) = 3%nat
      /\ write_csv (untyped_record :: sample_results) = ([ header_row ], Some TypeError)).
Proof.
  assert (Hw : write_csv surrogate_results
     = ( [ header_row;
           [ JStr (lit "a.pdf"); JStr (lit "A survey"); JStr []; JStr (lit "Li, Y.");
             JStr (lit "as in [3]"); JStr []; JStr [] ] ],
         Some UnicodeEncodeError )).
  { vm_compute. reflexivity. }
  split; [split; [|split; [|split]]|split].
  - constructor; [|constructor]. split.
    + eexists. apply paper_record_filename.
    + right. split; [apply paper_record_error|]. split.
      * exists [ lit "Li, Y." ]. apply paper_record_authors.
      * eexists. split; [apply paper_record_citations|].
        constructor; [|constructor; [|constructor; [|constructor]]].
        -- exists [ (lit "quote", JStr (lit "as in [3]")) ], (lit "as in [3]").
           split; reflexivity.
        -- exists [ (lit "quote", JStr [ 0xD800%N ]) ], [ 0xD800%N ].
           split; reflexivity.
        -- exists [], []. split; reflexivity.
  - unfold surrogate_results, surrogate_record, citation_records. cbn [map].
    rewrite paper_record_citations. reflexivity.
  - exact Hw.
  - intros (rows & Hrows & _). rewrite Hw in Hrows. discriminate.
  - unfold sample_results, untyped_record, citation_records. cbn [map].
    rewrite !paper_record_citations, error_record_citations. reflexivity.
  - vm_compute. reflexivity.
Qed.

(** C7, as amended. Take a collection of Paper Records typed as the data
    model has them. The rows of its (Paper Record, Citation Record) pairs
    are one row of seven cells per Citation Record the record lists, record
    after record, each starting with the [filename] of its record: a record
    with an [error] field has none, and neither has a record whose
    citations are the empty list, so their number is the total number of
    listed Citation Records. When no string of the records holds a
    surrogate code point, the writing step raises nothing and writes the
    header and then exactly these rows. In every case it writes the header
    and then these rows in order, all of them or those before the first row
    that cannot be encoded, where [UnicodeEncodeError] ends the writing. *)
Theorem write_csv_one_row_per_citation (results : list (gmap pystr json)) :
  Forall PaperRecord results ->
  exists rowss : list (list row),
    Forall2 (fun res rows =>
               Forall2 (fun cite r =>
                          row_of res cite = Ret r
                          /\ r !! 0%nat = res !! lit "filename"
                          /\ length r = 7%nat)
                       (citation_records res) rows
               /\ (is_Some (res !! lit "error") -> rows = [])
               /\ (res !! lit "citations" = Some (JList []) -> rows = []))
            results rowss
    /\ length (concat rowss)
       = sum_list (map (fun res => length (citation_records res)) results)
    /\ (Forall Utf8Record results ->
        write_csv results = (header_row :: concat rowss, None))
    /\ exists (written : list row) (err : option pyexc),
         write_csv results = (header_row :: written, err)
         /\ written_of (concat rowss) written err.
Proof.
  intros Hall.
  destruct (write_records_rows results Hall)
    as (rowss & Hrowss & Hutf & written & err & Hw & Hof).
  exists rowss. split; [|split; [|split]].
  - clear Hutf Hw Hof. induction Hrowss as [|res rows results rowss Hrows _ IH].
    + constructor.
    + apply Forall_cons in Hall as [Hres Hall].
      constructor; [|apply IH; exact Hall].
      split; [|split].
      * eapply Forall2_impl; [exact Hrows|]. intros cite r Hr.
        destruct (row_of_inv _ _ _ Hr) as (fn & Hfn & Hhead & Hlen).
        rewrite Hfn. auto.
      * intros Herr. rewrite (citation_records_error res Hres Herr) in Hrows.
        inversion Hrows. reflexivity.
      * intros Hc. unfold citation_records in Hrows. rewrite Hc in Hrows.
        inversion Hrows. reflexivity.
  - clear Hall Hutf Hw Hof. induction Hrowss as [|res rows results rowss Hrows _ IH].
    + reflexivity.
    + cbn [concat map sum_list sum_list_with]. rewrite length_app, IH.
      rewrite (Forall2_length _ _ _ Hrows). reflexivity.
  - intros Hclean. specialize (Hutf Hclean).
    rewrite write_csv_rows, Hw. cbn [fst snd].
    destruct Hof as [(-> & -> & _)|(_ & _ & r & rest & Heq & Hr)]; [reflexivity|].
    exfalso. apply Hr. rewrite Heq in Hutf.
    apply Forall_app in Hutf as [_ Hutf]. apply Forall_cons in Hutf as [Hutf _].
    exact Hutf.
  - exists written, err. split; [|exact Hof].
    rewrite write_csv_rows, Hw. reflexivity.
Qed.

Lemma write_csv_one_row_per_citation_witness :
  exists rowss : list (list row),
    Forall2 (fun res rows =>
               Forall2 (fun cite r =>
                          row_of res cite = Ret r
                          /\ r !! 0%nat = res !! lit "filename"
                          /\ length r = 7%nat)
                       (citation_records res) rows
               /\ (is_Some (res !! lit "error") -> rows = [])
               /\ (res !! lit "citations" = Some (JList []) -> rows = []))
            sample_results rowss
    /\ length (concat rowss)
       = sum_list (map (fun res => length (citation_records res)) sample_results)
    /\ (Forall Utf8Record sample_results ->
        write_csv sample_results = (header_row :: concat rowss, None))
    /\ exists (written : list row) (err : option pyexc),
         write_csv sample_results = (header_row :: written, err)
         /\ written_of (concat rowss) written err.
Proof.
  apply (write_csv_one_row_per_citation sample_results).
  unfold sample_results. constructor; [|constructor; [|constructor]].
  - split.
    + eexists. apply error_record_filename.
    + left. split; [eexists; apply error_record_error|apply error_record_citations].
  - split.
    + eexists. apply paper_record_filename.
    + right. split; [apply paper_record_error|]. split.
      * exists [ lit "Li, Y." ]. apply paper_record_authors.
      * eexists. split; [apply paper_record_citations|].
        constructor; [|constructor; [|constructor]].
        -- exists [ (lit "quote", JStr (lit "as in [3]")) ], (lit "as in [3]").
           split; reflexivity.
        -- exists [], []. split; reflexivity.
Defined.

(** The records of the sample hold no surrogate; the quote of the paper
    with the lone surrogate does. *)
Example sample_results_utf8 :
  Forall Utf8Record sample_results /\ ~ Forall Utf8Record surrogate_results.
Proof.
  split.
  - unfold sample_results, error_record, paper_record.
    repeat constructor;
      repeat (apply map_Forall_insert_2; [reflexivity|]); apply map_Forall_empty.
  - intros H. apply Forall_cons in H as [H _].
    specialize (H (lit "citations") _ (paper_record_citations _ _ _ _ _)).
    vm_compute in H. discriminate.
Qed.

(** On the sample, the table has the header and two data rows, both for
    [a.pdf]. *)
Example sample_table :
  write_csv sample_results
  = ( [ header_row;
        [ JStr (lit "a.pdf"); JStr (lit "A survey"); JStr []; JStr (lit "Li, Y.");
          JStr (lit "as in [3]"); JStr []; JStr [] ];
        [ JStr (lit "a.pdf"); JStr (lit "A survey"); JStr []; JStr (lit "Li, Y.");
          JStr []; JStr []; JStr [] ] ],
      None ).
Proof. vm_compute. reflexivity. Qed.

End Table.


(** ** Missing fields *)

Module Defaults.
Import ExtractPdf CitationAnalyzer Vocabulary Records Table.

(** C8, as stated, fails on three decoded values. When the completion
    decodes to a JSON array (here the list of citations alone), every field
    of the expected shape is missing and [process_single_pdf] raises
    [AttributeError]. When it decodes to the empty object, no field is
    defaulted: the record is the [API_CALL_FAILED] marker, which has no
    [title]. A citation entry that is a string instead of an object
    makes the row raise [AttributeError]. And with fields missing, a field
    that is present with another type than the expected one is fatal all
    the same: authors that are a number, or a quote that is [null], make
    the row raise [TypeError]. *)
Lemma missing_fields_not_always_defaulted :
  process_single_pdf shipped_config Samples.sample_loads
    (Samples.always (Samples.ok_response Samples.citation_array_text))
    Samples.no_plumber Samples.one_page Samples.sample_path
  = (Raise AttributeError,
     [ EvPost (build_request shipped_config (lit "We build on [3]. It works.")) ])
  /\ (exists r,
        fst (process_single_pdf shipped_config Samples.sample_loads
               (Samples.always (Samples.ok_response Samples.empty_object_text))
               Samples.no_plumber Samples.one_page Samples.sample_path)
        = Ret r
        /\ r !! lit "title" = None /\ r !! lit "citations" = None)
  /\ row_of (paper_record (lit "a.pdf") (JStr []) (JStr []) (JList [])
                          (JList [ JStr (lit "as in [3]") ]))
            (JStr (lit "as in [3]"))
     = Raise AttributeError
  /\ row_of (paper_record (lit "a.pdf") (JStr []) (JStr []) (JInt 5)
                          (JList [ JDict [] ]))
            (JDict [])
     = Raise TypeError
  /\ row_of (paper_record (lit "a.pdf") (JStr []) (JStr []) (JList [])
                          (JList [ JDict [ (lit "quote", JNull) ] ]))
            (JDict [ (lit "quote", JNull) ])
     = Raise TypeError.
Proof.
  split; [reflexivity|]. split; [|repeat split; reflexivity].
  exists (error_record (lit "a.pdf") (lit "API_CALL_FAILED")).
  split; [reflexivity|]. split.
  - apply error_record_title.
  - apply error_record_citations.
Qed.

Section Facts.
Variable cfg : config.
Variable json_loads : pystr -> option json.
Variable transport : nat -> pyres response.
Variable pdfplumber_pages : pystr -> pyres (list page_result).
Variable extract_pages : pystr -> pyres (list (list layout_element)).

(** C8, as amended. When the completion decodes to a non-empty JSON
    object [d], [process_single_pdf] raises nothing and returns the record
    in which [title] and [journal] are those of [d], or the empty string
    when [d] has none, and [authors] and [citations] are those of [d], or
    the empty list. For a citation entry that is an object [c] whose quote
    is a string or missing, with the authors a list of strings, the row is
    built without an exception, and [quote], [sentiment] and [page] are the
    empty string where [c] has none. *)
Theorem missing_fields_default
    (pdf_path pdf_text : pystr) (d : list (pystr * json)) :
  extract_pdf pdfplumber_pages extract_pages pdf_path default_engine = Ret pdf_text ->
  pdf_text ≠ [] ->
  fst (call_llm_api cfg json_loads transport pdf_text) = JDict d ->
  d ≠ [] ->
  exists r : gmap pystr json,
    fst (process_single_pdf cfg json_loads transport pdfplumber_pages extract_pages pdf_path)
    = Ret r
    /\ r !! lit "filename" = Some (JStr (basename pdf_path))
    /\ r !! lit "title" = Some (from_option id (JStr []) (assoc (lit "title") d))
    /\ r !! lit "journal" = Some (from_option id (JStr []) (assoc (lit "journal") d))
    /\ r !! lit "authors" = Some (from_option id (JList []) (assoc (lit "authors") d))
    /\ r !! lit "citations" = Some (from_option id (JList []) (assoc (lit "citations") d))
    /\ forall (c : list (pystr * json)) (names : list pystr) (q : pystr),
         r !! lit "authors" = Some (JList (map JStr names)) ->
         from_option id (JStr []) (assoc (lit "quote") c) = JStr q ->
         exists cell : pystr,
           row_of r (JDict c)
           = Ret [ JStr (basename pdf_path);
                   from_option id (JStr []) (assoc (lit "title") d);
                   from_option id (JStr []) (assoc (lit "journal") d);
                   JStr (join (lit "; ") names);
                   JStr cell;
                   from_option id (JStr []) (assoc (lit "sentiment") c);
                   from_option id (JStr []) (assoc (lit "page") c) ]
           /\ (assoc (lit "quote") c = None -> cell = []).
Proof.
  intros He Hne Hr Hd.
  assert (Ht : truthy (fst (call_llm_api cfg json_loads transport pdf_text)) = true).
  { rewrite Hr. destruct d; [contradiction|reflexivity]. }
  rewrite (process_truthy_result _ _ _ _ _ _ _ He Hne Ht). cbn [fst].
  rewrite Hr, record_of_result_dict.
  eexists. split; [reflexivity|].
  split; [apply paper_record_filename|].
  split; [apply paper_record_title|].
  split; [apply paper_record_journal|].
  split; [apply paper_record_authors|].
  split; [apply paper_record_citations|].
  intros c names q Ha Hq.
  destruct (quote_cell_str q) as (cell & Hcell & _ & Hshort & _).
  exists cell. split.
  - rewrite (row_of_dict _ c (JStr (basename pdf_path))
                         (JStr (join (lit "; ") names)) (JStr cell)).
    + unfold record_get. rewrite paper_record_title, paper_record_journal. reflexivity.
    + apply paper_record_filename.
    + unfold record_get. rewrite Ha. apply py_join_names.
    + rewrite Hq. exact Hcell.
  - intros Hnone. rewrite Hnone in Hq. cbn in Hq. injection Hq as <-.
    apply Hshort. cbn. lia.
Qed.

End Facts.

Lemma missing_fields_default_witness :
  exists r : gmap pystr json,
    fst (process_single_pdf shipped_config Samples.sample_loads
           (Samples.always (Samples.ok_response Samples.title_only_text))
           Samples.no_plumber Samples.one_page Samples.sample_path)
    = Ret r
    /\ r !! lit "filename" = Some (JStr (basename Samples.sample_path))
    /\ r !! lit "title"
       = Some (from_option id (JStr []) (assoc (lit "title") Samples.title_only))
    /\ r !! lit "journal"
       = Some (from_option id (JStr []) (assoc (lit "journal") Samples.title_only))
    /\ r !! lit "authors"
       = Some (from_option id (JList []) (assoc (lit "authors") Samples.title_only))
    /\ r !! lit "citations"
       = Some (from_option id (JList []) (assoc (lit "citations") Samples.title_only))
    /\ forall (c : list (pystr * json)) (names : list pystr) (q : pystr),
         r !! lit "authors" = Some (JList (map JStr names)) ->
         from_option id (JStr []) (assoc (lit "quote") c) = JStr q ->
         exists cell : pystr,
           row_of r (JDict c)
           = Ret [ JStr (basename Samples.sample_path);
                   from_option id (JStr []) (assoc (lit "title") Samples.title_only);
                   from_option id (JStr []) (assoc (lit "journal") Samples.title_only);
                   JStr (join (lit "; ") names);
                   JStr cell;
                   from_option id (JStr []) (assoc (lit "sentiment") c);
                   from_option id (JStr []) (assoc (lit "page") c) ]
           /\ (assoc (lit "quote") c = None -> cell = []).
Proof.
  apply (missing_fields_default
           shipped_config Samples.sample_loads
           (Samples.always (Samples.ok_response Samples.title_only_text))
           Samples.no_plumber Samples.one_page Samples.sample_path
           (lit "We build on [3]. It works.") Samples.title_only).
  - reflexivity.
  - discriminate.
  - reflexivity.
  - discriminate.
Defined.

End Defaults.

(** ** Facts about the string operations *)

Module StringFacts.
Import Vocabulary.

Lemma lstrip_split (s : pystr) :
  exists pre, s = pre ++ lstrip s /\ Forall (fun c => isspace c = true) pre.
Proof.
  induction s as [|c s (pre & Hs & Hpre)]; [exists []; split; [reflexivity|constructor]|].
  cbn. destruct (isspace c) eqn:Hc.
  - exists (c :: pre). split; [cbn; congruence|]. constructor; assumption.
  - exists []. split; [reflexivity|constructor].
Qed.

Lemma lstrip_head (s : pystr) (c : N) :
  head (lstrip s) = Some c -> isspace c = false.
Proof.
  induction s as [|a s IH]; cbn; [discriminate|].
  destruct (isspace a) eqn:Ha; [exact IH|]. cbn. intros [= <-]. exact Ha.
Qed.

Lemma lstrip_all_space (s : pystr) :
  Forall (fun c => isspace c = true) s -> lstrip s = [].
Proof.
  induction 1 as [|c s Hc _ IH]; [reflexivity|]. cbn. rewrite Hc. exact IH.
Qed.

Lemma lstrip_fixed (s : pystr) :
  (forall c, head s = Some c -> isspace c = false) -> lstrip s = s.
Proof.
  destruct s as [|c s]; [reflexivity|]. cbn. intros H.
  rewrite (H c eq_refl). reflexivity.
Qed.

Lemma lstrip_idem (s : pystr) : lstrip (lstrip s) = lstrip s.
Proof. apply lstrip_fixed, lstrip_head. Qed.

Lemma last_rev (s : pystr) : last (rev s) = head s.
Proof. destruct s as [|c s]; [reflexivity|]. cbn. apply last_snoc. Qed.

Lemma rstrip_split (s : pystr) :
  exists post, s = rstrip s ++ post /\ Forall (fun c => isspace c = true) post.
Proof.
  unfold rstrip. destruct (lstrip_split (rev s)) as (pre & Hs & Hpre).
  exists (rev pre). split.
  - rewrite <- rev_app_distr, <- Hs, rev_involutive. reflexivity.
  - apply Forall_rev. exact Hpre.
Qed.

Lemma rstrip_last (s : pystr) (c : N) :
  last (rstrip s) = Some c -> isspace c = false.
Proof.
  unfold rstrip. rewrite last_rev. apply lstrip_head.
Qed.

Lemma rstrip_fixed (s : pystr) :
  (forall c, last s = Some c -> isspace c = false) -> rstrip s = s.
Proof.
  intros H. unfold rstrip. rewrite lstrip_fixed; [apply rev_involutive|].
  intros c Hc. apply H. rewrite <- (rev_involutive s), last_rev. exact Hc.
Qed.

(** A prefix of a string keeps its first character. *)
Lemma head_prefix (s post : pystr) (c : N) :
  head s = Some c -> head (s ++ post) = Some c.
Proof. destruct s; cbn; [discriminate|auto]. Qed.

Lemma rstrip_head (s : pystr) (c : N) :
  head (rstrip s) = Some c -> head s = Some c.
Proof.
  destruct (rstrip_split s) as (post & Hs & _). intros H.
  rewrite Hs. apply head_prefix, H.
Qed.

(** [strip] cuts whitespace off both ends and nothing else. *)
Lemma strip_split (s : pystr) :
  exists pre post,
    s = pre ++ strip s ++ post
    /\ Forall (fun c => isspace c = true) pre
    /\ Forall (fun c => isspace c = true) post.
Proof.
  destruct (lstrip_split s) as (pre & Hs & Hpre).
  destruct (rstrip_split (lstrip s)) as (post & Hl & Hpost).
  exists pre, post. unfold strip. rewrite <- Hl. auto.
Qed.

Lemma strip_stripped (s : pystr) : stripped (strip s).
Proof.
  split; intros c Hc.
  - apply (lstrip_head s). apply rstrip_head. exact Hc.
  - apply (rstrip_last (lstrip s)). exact Hc.
Qed.

Lemma strip_fixed (s : pystr) : stripped s -> strip s = s.
Proof.
  intros [Hh Hl]. unfold strip. rewrite (lstrip_fixed _ Hh). apply rstrip_fixed, Hl.
Qed.

Lemma strip_idem (s : pystr) : strip (strip s) = strip s.
Proof. apply strip_fixed, strip_stripped. Qed.

Lemma strip_all_space (s : pystr) :
  Forall (fun c => isspace c = true) s -> strip s = [].
Proof. intros H. unfold strip. rewrite (lstrip_all_space _ H). reflexivity. Qed.

Lemma ink_app (a b : pystr) : ink (a ++ b) = ink a ++ ink b.
Proof. apply List.filter_app. Qed.

Lemma ink_all_space (s : pystr) :
  Forall (fun c => isspace c = true) s -> ink s = [].
Proof.
  induction 1 as [|c s Hc _ IH]; [reflexivity|]. cbn. rewrite Hc. exact IH.
Qed.

Lemma ink_strip (s : pystr) : ink (strip s) = ink s.
Proof.
  destruct (strip_split s) as (pre & post & Hs & Hpre & Hpost).
  rewrite Hs at 2. rewrite !ink_app, (ink_all_space _ Hpre), (ink_all_space _ Hpost).
  rewrite app_nil_r. reflexivity.
Qed.

End StringFacts.

(** ** Runs of characters and [re.sub] *)

Module RunFacts.
Import Vocabulary StringFacts.

Section Runs.
Variable cls : N -> bool.

Lemma has_run2_cons2 (a b : N) (s : pystr) :
  has_run2 cls (a :: b :: s) = (cls a && cls b) || has_run2 cls (b :: s).
Proof. reflexivity. Qed.

Lemma has_run3_cons3 (a b c : N) (s : pystr) :
  has_run3 cls (a :: b :: c :: s)
  = (cls a && cls b && cls c) || has_run3 cls (b :: c :: s).
Proof. reflexivity. Qed.

Lemma has_run2_skip (c : N) (s : pystr) :
  cls c = false -> has_run2 cls (c :: s) = has_run2 cls s.
Proof. intros Hc. destruct s as [|b s]; cbn; [reflexivity|]. rewrite Hc. reflexivity. Qed.

Lemma has_run2_tail (c : N) (s : pystr) :
  has_run2 cls (c :: s) = false -> has_run2 cls s = false.
Proof.
  destruct s as [|b s]; [reflexivity|]. cbn [has_run2].
  intros H. apply orb_false_elim in H. apply H.
Qed.

Lemma has_run2_none (s : pystr) :
  Forall (fun c => cls c = false) s -> has_run2 cls s = false.
Proof.
  induction 1 as [|c s Hc _ IH]; [reflexivity|]. rewrite has_run2_skip; assumption.
Qed.

Lemma has_run2_skip_prefix (pre s : pystr) :
  Forall (fun c => cls c = false) pre ->
  pre ≠ [] ->
  has_run2 cls (pre ++ s) = has_run2 cls s.
Proof.
  induction 1 as [|c pre Hc Hpre IH]; [contradiction|]. intros _.
  cbn [app]. rewrite has_run2_skip by exact Hc.
  destruct pre as [|d pre]; [reflexivity|]. apply IH. discriminate.
Qed.

Lemma has_run2_suffix (pre s : pystr) :
  has_run2 cls (pre ++ s) = false -> has_run2 cls s = false.
Proof.
  induction pre as [|c pre IH]; [auto|]. cbn [app]. intros H.
  apply IH, (has_run2_tail c), H.
Qed.

Lemma has_run2_prefix (s post : pystr) :
  has_run2 cls (s ++ post) = false -> has_run2 cls s = false.
Proof.
  induction s as [|a s IH]; [reflexivity|]. cbn [app]. intros H.
  destruct s as [|b s]; [reflexivity|]. cbn [app has_run2] in *.
  apply orb_false_elim in H as [Hab H]. rewrite Hab. cbn. apply IH, H.
Qed.

Lemma has_run3_skip (c : N) (s : pystr) :
  cls c = false -> has_run3 cls (c :: s) = has_run3 cls s.
Proof.
  intros Hc. destruct s as [|b [|d s]]; cbn; try reflexivity.
  rewrite Hc. reflexivity.
Qed.

Lemma has_run3_skip2 (a c : N) (s : pystr) :
  cls c = false -> has_run3 cls (a :: c :: s) = has_run3 cls s.
Proof.
  intros Hc. destruct s as [|d s].
  - reflexivity.
  - change (has_run3 cls (a :: c :: d :: s))
      with ((cls a && cls c && cls d) || has_run3 cls (c :: d :: s)).
    rewrite Hc, andb_false_r. cbn [andb orb]. apply has_run3_skip, Hc.
Qed.

Lemma has_run3_tail (c : N) (s : pystr) :
  has_run3 cls (c :: s) = false -> has_run3 cls s = false.
Proof.
  destruct s as [|b [|d s]]; try reflexivity.
  change (has_run3 cls (c :: b :: d :: s))
    with ((cls c && cls b && cls d) || has_run3 cls (b :: d :: s)).
  intros H. apply orb_false_elim in H. apply H.
Qed.

Lemma has_run3_suffix (pre s : pystr) :
  has_run3 cls (pre ++ s) = false -> has_run3 cls s = false.
Proof.
  induction pre as [|c pre IH]; [auto|]. cbn [app]. intros H.
  apply IH, (has_run3_tail c), H.
Qed.

Lemma has_run3_prefix (s post : pystr) :
  has_run3 cls (s ++ post) = false -> has_run3 cls s = false.
Proof.
  induction s as [|a s IH]; [reflexivity|]. cbn [app]. intros H.
  destruct s as [|b [|c s]]; try reflexivity.
  change (has_run3 cls (a :: b :: c :: s))
    with ((cls a && cls b && cls c) || has_run3 cls (b :: c :: s)).
  change (has_run3 cls (a :: (b :: c :: s) ++ post))
    with ((cls a && cls b && cls c) || has_run3 cls ((b :: c :: s) ++ post)) in H.
  apply orb_false_elim in H as [Habc H]. rewrite Habc. cbn. apply IH, H.
Qed.

(** What [flush_run] gives. *)
Lemma flush_run_cases (repl run : pystr) :
  (run = [] /\ flush_run repl run = [])
  \/ (exists c, run = [c] /\ flush_run repl run = [c])
  \/ ((2 <= length run)%nat /\ flush_run repl run = repl).
Proof.
  destruct run as [|a [|b run]]; cbn.
  - left. auto.
  - right. left. eauto.
  - right. right. split; [lia|reflexivity].
Qed.

(** [re.sub] with a replacement of one character leaves no two
    neighbours of the class. *)
Lemma sub_runs_no_run2 (r : N) (run s : pystr) :
  has_run2 cls (sub_runs cls [r] run s) = false.
Proof.
  revert run. induction s as [|c s IH]; intros run; cbn [sub_runs].
  - destruct run as [|a [|b run]]; reflexivity.
  - destruct (cls c) eqn:Hc; [apply IH|].
    destruct run as [|a [|b run]]; cbn [flush_run app].
    + rewrite has_run2_skip by exact Hc. apply IH.
    + rewrite has_run2_cons2, Hc, andb_false_r. cbn [orb].
      rewrite has_run2_skip by exact Hc. apply IH.
    + rewrite has_run2_cons2, Hc, andb_false_r. cbn [orb].
      rewrite has_run2_skip by exact Hc. apply IH.
Qed.

(** [re.sub] with a replacement of two characters leaves no three
    neighbours of the class. *)
Lemma sub_runs_no_run3 (r1 r2 : N) (run s : pystr) :
  has_run3 cls (sub_runs cls [r1; r2] run s) = false.
Proof.
  revert run. induction s as [|c s IH]; intros run; cbn [sub_runs].
  - destruct run as [|a [|b run]]; reflexivity.
  - destruct (cls c) eqn:Hc; [apply IH|].
    destruct run as [|a [|b run]]; cbn [flush_run app].
    + rewrite has_run3_skip by exact Hc. apply IH.
    + rewrite has_run3_skip2 by exact Hc. apply IH.
    + rewrite has_run3_cons3, Hc, andb_false_r. cbn [orb].
      rewrite has_run3_skip2 by exact Hc. apply IH.
Qed.

(** Without two neighbours of the class, [re.sub] changes nothing. *)
Lemma sub_runs_fixed2 (repl run s : pystr) :
  Forall (fun c => cls c = true) run ->
  (length run <= 1)%nat ->
  has_run2 cls (run ++ s) = false ->
  sub_runs cls repl run s = run ++ s.
Proof.
  revert run. induction s as [|c s IH]; intros run Hrun Hlen H; cbn [sub_runs].
  - rewrite app_nil_r. destruct run as [|a [|b run]]; cbn in *; (reflexivity || lia).
  - destruct (cls c) eqn:Hc.
    + destruct run as [|a [|b run]]; cbn in Hlen; try lia.
      * apply (IH [c]); [repeat constructor; exact Hc|cbn; lia|exact H].
      * exfalso. cbn [app] in H. rewrite has_run2_cons2, Hc in H.
        inversion Hrun as [|? ? Ha _]; subst. rewrite Ha in H. discriminate.
    + rewrite (IH []); [|constructor|cbn; lia|].
      * destruct run as [|a [|b run]]; cbn in Hlen |- *; (reflexivity || lia).
      * cbn [app]. apply (has_run2_tail c), (has_run2_suffix run), H.
Qed.

(** Without three neighbours of the class, replacing the runs of two or
    more by two of the class's only character changes nothing. *)
Lemma sub_runs_fixed3 (n : N) (run s : pystr) :
  (forall c, cls c = true -> c = n) ->
  Forall (fun c => cls c = true) run ->
  (length run <= 2)%nat ->
  has_run3 cls (run ++ s) = false ->
  sub_runs cls [n; n] run s = run ++ s.
Proof.
  intros Hn. revert run.
  induction s as [|c s IH]; intros run Hrun Hlen H; cbn [sub_runs].
  - rewrite app_nil_r. destruct run as [|a [|b [|d run]]]; cbn in *; try reflexivity; try lia.
    inversion Hrun as [|? ? Ha Hrun']; subst. inversion Hrun' as [|? ? Hb _]; subst.
    rewrite (Hn a Ha), (Hn b Hb). reflexivity.
  - destruct (cls c) eqn:Hc.
    + destruct run as [|a [|b [|d run]]]; cbn in Hlen; try lia.
      * apply (IH [c]); [repeat constructor; exact Hc|cbn; lia|exact H].
      * inversion Hrun as [|? ? Ha _]; subst.
        apply (IH [a; c]); [repeat constructor; assumption|cbn; lia|exact H].
      * exfalso. inversion Hrun as [|? ? Ha Hrun']; subst.
        inversion Hrun' as [|? ? Hb _]; subst.
        cbn [app] in H. rewrite has_run3_cons3, Ha, Hb, Hc in H. discriminate.
    + rewrite (IH []); [|constructor|cbn; lia|].
      * destruct run as [|a [|b [|d run]]]; cbn in Hlen |- *; try reflexivity; try lia.
        inversion Hrun as [|? ? Ha Hrun']; subst. inversion Hrun' as [|? ? Hb _]; subst.
        rewrite (Hn a Ha), (Hn b Hb). reflexivity.
      * cbn [app]. apply (has_run3_tail c), (has_run3_suffix run), H.
Qed.

End Runs.

(** [re.sub] on whitespace classes keeps every character that is not
    whitespace, in order. *)
Lemma sub_runs_ink (cls : N -> bool) (repl run s : pystr) :
  (forall c, cls c = true -> isspace c = true) ->
  Forall (fun c => isspace c = true) repl ->
  Forall (fun c => cls c = true) run ->
  ink (sub_runs cls repl run s) = ink s.
Proof.
  intros Hcls Hrepl. revert run.
  assert (Hflush : forall run, Forall (fun c => cls c = true) run ->
                               ink (flush_run repl run) = []).
  { intros run Hrun. apply ink_all_space.
    destruct run as [|a [|b run]]; cbn; [constructor| |exact Hrepl].
    inversion Hrun; subst. repeat constructor. auto. }
  induction s as [|c s IH]; intros run Hrun; cbn [sub_runs].
  - apply Hflush, Hrun.
  - destruct (cls c) eqn:Hc.
    + rewrite IH by (apply Forall_app; split; [exact Hrun|repeat constructor; exact Hc]).
      unfold ink. cbn. rewrite (Hcls c Hc). reflexivity.
    + rewrite ink_app, (Hflush run Hrun). cbn [app].
      unfold ink in *. cbn. rewrite (IH [] (List.Forall_nil _)). reflexivity.
Qed.

(** [re.sub] on one class, with a replacement that is not empty, brings
    no two characters of another class together. *)
Lemma sub_runs_keeps_apart (cls other : N -> bool) (repl run s : pystr) :
  (forall c, cls c = true -> other c = false) ->
  Forall (fun c => other c = false) repl ->
  repl ≠ [] ->
  Forall (fun c => cls c = true) run ->
  has_run2 other s = false ->
  has_run2 other (sub_runs cls repl run s) = false
  /\ (forall x, head (sub_runs cls repl run s) = Some x -> other x = true ->
                run = [] /\ head s = Some x).
Proof.
  intros Hcls Hrepl Hne. revert run.
  assert (Hflush : forall run, Forall (fun c => cls c = true) run ->
                               Forall (fun c => other c = false) (flush_run repl run)).
  { intros run Hrun. destruct run as [|a [|b run]]; cbn; [constructor| |exact Hrepl].
    inversion Hrun; subst. repeat constructor. auto. }
  induction s as [|c s IH]; intros run Hrun Hs; cbn [sub_runs].
  - split; [apply has_run2_none, Hflush, Hrun|].
    intros x Hx Hox. exfalso.
    pose proof (Hflush run Hrun) as Hf.
    destruct (flush_run repl run) as [|y l]; [discriminate|].
    injection Hx as ->. inversion Hf; subst. congruence.
  - destruct (cls c) eqn:Hc.
    + destruct (IH (run ++ [c])) as [H1 H2].
      { apply Forall_app; split; [exact Hrun|repeat constructor; exact Hc]. }
      { apply (has_run2_tail other c), Hs. }
      split; [exact H1|]. intros x Hx Hox.
      destruct (H2 x Hx Hox) as [Hnil _]. destruct run; discriminate.
    + destruct (IH [] (List.Forall_nil _) (has_run2_tail other c _ Hs)) as [H1 H2].
      assert (Hc_out : has_run2 other (c :: sub_runs cls repl [] s) = false).
      { destruct (sub_runs cls repl [] s) as [|d out] eqn:Hout; [reflexivity|].
        rewrite has_run2_cons2, H1, orb_false_r.
        destruct (other c) eqn:Hoc; [|reflexivity].
        destruct (other d) eqn:Hod; [|reflexivity]. exfalso.
        destruct (H2 d eq_refl Hod) as [_ Hd].
        destruct s as [|d' s']; [discriminate|]. injection Hd as ->.
        rewrite has_run2_cons2, Hoc, Hod in Hs. discriminate. }
      pose proof (Hflush run Hrun) as Hf.
      destruct (flush_run repl run) as [|y l] eqn:Hfl.
      * split; [exact Hc_out|]. intros x Hx Hox. cbn in Hx.
        destruct run as [|a [|b run]]; cbn in Hfl; try discriminate.
        -- auto.
        -- subst repl. contradiction.
      * split.
        -- rewrite has_run2_skip_prefix; [exact Hc_out|exact Hf|discriminate].
        -- intros x Hx Hox. exfalso. cbn in Hx. injection Hx as ->.
           inversion Hf; subst. congruence.
Qed.

End RunFacts.

(** ** The [clean_text] of [extract_pdf] *)

Module Cleaning.
Import ExtractPdf CitationAnalyzer Vocabulary StringFacts RunFacts RetryFacts Records.

Lemma is_blank_space (c : N) : is_blank c = true -> isspace c = true.
Proof.
  unfold is_blank. intros H.
  apply orb_prop in H as [H|H]; [apply orb_prop in H as [H|H]|];
    apply N.eqb_eq in H; subst; reflexivity.
Qed.

Lemma is_newline_10 (c : N) : is_newline c = true -> c = 10%N.
Proof. apply N.eqb_eq. Qed.

Lemma is_newline_space (c : N) : is_newline c = true -> isspace c = true.
Proof. intros H. rewrite (is_newline_10 c H). reflexivity. Qed.

Lemma is_newline_not_blank (c : N) : is_newline c = true -> is_blank c = false.
Proof. intros H. rewrite (is_newline_10 c H). reflexivity. Qed.

Lemma ink_nil_all_space (s : pystr) :
  ink s = [] -> Forall (fun c => isspace c = true) s.
Proof.
  induction s as [|c s IH]; [constructor|]. unfold ink in *. cbn.
  destruct (isspace c) eqn:Hc; cbn; [|discriminate].
  intros H. constructor; auto.
Qed.

(** The cleaning only ever changes whitespace. *)
Lemma clean_ink (text : pystr) : ink (extract_pdf_clean_text text) = ink text.
Proof.
  unfold extract_pdf_clean_text. rewrite ink_strip.
  rewrite sub_runs_ink; [|exact is_newline_space|repeat constructor|constructor].
  apply sub_runs_ink; [exact is_blank_space|repeat constructor|constructor].
Qed.

Lemma clean_normal (text : pystr) :
  has_run2 is_blank (extract_pdf_clean_text text) = false
  /\ has_run3 is_newline (extract_pdf_clean_text text) = false
  /\ stripped (extract_pdf_clean_text text).
Proof.
  unfold extract_pdf_clean_text.
  set (blanked := sub_runs is_blank (lit " ") [] text).
  set (broken := sub_runs is_newline (newline ++ newline) [] blanked).
  destruct (strip_split broken) as (pre & post & Hb & _ & _).
  assert (H2 : has_run2 is_blank broken = false).
  { apply (sub_runs_keeps_apart is_newline is_blank).
    - exact is_newline_not_blank.
    - repeat constructor.
    - discriminate.
    - constructor.
    - exact (sub_runs_no_run2 is_blank 32 [] text). }
  assert (H3 : has_run3 is_newline broken = false).
  { exact (sub_runs_no_run3 is_newline 10 10 [] blanked). }
  rewrite Hb in H2, H3.
  split; [|split].
  - apply (has_run2_prefix _ _ post), (has_run2_suffix _ pre), H2.
  - apply (has_run3_prefix _ _ post), (has_run3_suffix _ pre), H3.
  - apply strip_stripped.
Qed.

(** A text in normal form is left as it is. *)
Lemma clean_fixed (text : pystr) :
  has_run2 is_blank text = false ->
  has_run3 is_newline text = false ->
  stripped text ->
  extract_pdf_clean_text text = text.
Proof.
  intros H2 H3 Hs. unfold extract_pdf_clean_text.
  rewrite (sub_runs_fixed2 is_blank (lit " ") [] text);
    [|constructor|cbn; lia|exact H2].
  cbn [app]. change (newline ++ newline) with [10%N; 10%N].
  rewrite (sub_runs_fixed3 is_newline 10 [] text);
    [|exact is_newline_10|constructor|cbn; lia|exact H3].
  apply strip_fixed, Hs.
Qed.

Lemma clean_idem (text : pystr) :
  extract_pdf_clean_text (extract_pdf_clean_text text) = extract_pdf_clean_text text.
Proof.
  destruct (clean_normal text) as (H2 & H3 & Hs). apply clean_fixed; assumption.
Qed.

(** The cleaned text is empty exactly when the text has no character that
    is not whitespace. *)
Lemma extract_pdf_clean_text_empty (text : pystr) :
  extract_pdf_clean_text text = [] <-> ink text = [].
Proof.
  split; intros H.
  - rewrite <- clean_ink, H. reflexivity.
  - rewrite <- clean_ink in H. rewrite <- clean_idem.
    unfold extract_pdf_clean_text at 1.
    apply strip_all_space, ink_nil_all_space.
    rewrite sub_runs_ink; [|exact is_newline_space|repeat constructor|constructor].
    rewrite sub_runs_ink; [exact H|exact is_blank_space|repeat constructor|constructor].
Qed.

(** X4. The cleaning of [extract_pdf] keeps every character that is not
    whitespace, in the order of the text: it only ever changes whitespace.
    So the cleaned text is empty exactly when the text holds nothing but
    whitespace. *)
Theorem extract_pdf_clean_text_keeps_ink (text : pystr) :
  ink (extract_pdf_clean_text text) = ink text
  /\ (extract_pdf_clean_text text = [] <-> ink text = []).
Proof.
  split.
  - apply clean_ink.
  - apply extract_pdf_clean_text_empty.
Qed.

(** X5. The cleaned text is in normal form: no two blanks (space, tab,
    form feed) are neighbours, no three line breaks are, and the text
    neither starts nor ends with whitespace. Cleaning it again changes
    nothing. *)
Theorem extract_pdf_clean_text_normal_form (text : pystr) :
  has_run2 is_blank (extract_pdf_clean_text text) = false
  /\ has_run3 is_newline (extract_pdf_clean_text text) = false
  /\ stripped (extract_pdf_clean_text text)
  /\ extract_pdf_clean_text (extract_pdf_clean_text text) = extract_pdf_clean_text text.
Proof.
  destruct (clean_normal text) as (H2 & H3 & Hs).
  split; [exact H2|]. split; [exact H3|]. split; [exact Hs|].
  apply clean_fixed; assumption.
Qed.

Section Facts.
Variable cfg : config.
Variable json_loads : pystr -> option json.
Variable transport : nat -> pyres response.
Variable pdfplumber_pages : pystr -> pyres (list page_result).
Variable extract_pages : pystr -> pyres (list (list layout_element)).

(** X6. A document that pdfminer parses is reported as
    [TEXT_EXTRACTION_FAILED], without any request, exactly when its text
    boxes hold nothing but whitespace; as soon as they hold one other
    character, the request with the cleaned text is sent. *)
Theorem process_single_pdf_blank_document
    (pdf_path : pystr) (layouts : list (list layout_element)) :
  extract_pages pdf_path = Ret layouts ->
  (ink (flat_map layout_text layouts) = [] ->
   process_single_pdf cfg json_loads transport pdfplumber_pages extract_pages pdf_path
   = (Ret (error_record (basename pdf_path) (lit "TEXT_EXTRACTION_FAILED")), []))
  /\ (ink (flat_map layout_text layouts) ≠ [] ->
      exists tr,
        snd (process_single_pdf cfg json_loads transport
                                pdfplumber_pages extract_pages pdf_path)
        = EvPost (build_request cfg
                    (extract_pdf_clean_text (flat_map layout_text layouts))) :: tr).
Proof.
  intros Hp.
  assert (He : extract_pdf pdfplumber_pages extract_pages pdf_path default_engine
               = Ret (extract_pdf_clean_text (flat_map layout_text layouts))).
  { change (extract_pdf pdfplumber_pages extract_pages pdf_path default_engine)
      with (layouts' ← extract_pages pdf_path;
            Ret (extract_pdf_clean_text (flat_map layout_text layouts'))).
    rewrite Hp. reflexivity. }
  split; intros Hink.
  - apply extract_pdf_clean_text_empty in Hink. rewrite Hink in He.
    apply process_empty_text, He.
  - assert (Hne : extract_pdf_clean_text (flat_map layout_text layouts) ≠ []).
    { intros H. apply Hink, extract_pdf_clean_text_empty, H. }
    destruct (call_llm_api_first_event cfg json_loads transport
                (extract_pdf_clean_text (flat_map layout_text layouts))) as [tr Htr].
    exists tr. rewrite <- Htr.
    destruct (truthy (fst (call_llm_api cfg json_loads transport
                (extract_pdf_clean_text (flat_map layout_text layouts))))) eqn:Ht.
    + rewrite (process_truthy_result _ _ _ _ _ _ _ He Hne Ht). reflexivity.
    + rewrite (process_falsy_result _ _ _ _ _ _ _ He Hne Ht). reflexivity.
Qed.

(** X7. With the pdfplumber engine, the first page whose [extract_text]
    gives [None] makes [extract_pdf] raise [TypeError], whatever the pages
    before and after it hold. *)
Theorem extract_pdf_pdfplumber_page_without_text
    (pdf_path : pystr) (before after : list page_result) :
  pdfplumber_pages pdf_path = Ret (before ++ Ret None :: after) ->
  Forall (fun page => exists t, page = Ret (Some t)) before ->
  extract_pdf pdfplumber_pages extract_pages pdf_path (lit "pdfplumber")
  = Raise TypeError.
Proof.
  intros Hp Hbefore.
  change (extract_pdf pdfplumber_pages extract_pages pdf_path (lit "pdfplumber"))
    with (pages ← pdfplumber_pages pdf_path;
          text ← pdfplumber_loop pages [];
          Ret (extract_pdf_clean_text text)).
  rewrite Hp. clear Hp. cbn [mbind pyres_bind bind].
  assert (Hloop : forall text, pdfplumber_loop (before ++ Ret None :: after) text
                               = Raise TypeError).
  { induction Hbefore as [|page before [t ->] _ IH]; intros text.
    - reflexivity.
    - cbn. apply IH. }
  rewrite Hloop. reflexivity.
Qed.

End Facts.

Lemma process_single_pdf_blank_document_witness :
  (ink (flat_map layout_text
          [ [ LTTextContainer (lit "  " ++ newline ++ lit " "); LTOtherElement ] ]) = [] ->
   process_single_pdf shipped_config Samples.sample_loads
     (Samples.always (Samples.ok_response Samples.full_text))
     Samples.no_plumber Samples.blank_page Samples.sample_path
   = (Ret (error_record (basename Samples.sample_path) (lit "TEXT_EXTRACTION_FAILED")), []))
  /\ (ink (flat_map layout_text
             [ [ LTTextContainer (lit "  " ++ newline ++ lit " "); LTOtherElement ] ]) ≠ [] ->
      exists tr,
        snd (process_single_pdf shipped_config Samples.sample_loads
               (Samples.always (Samples.ok_response Samples.full_text))
               Samples.no_plumber Samples.blank_page Samples.sample_path)
        = EvPost (build_request shipped_config
                    (extract_pdf_clean_text
                       (flat_map layout_text
                          [ [ LTTextContainer (lit "  " ++ newline ++ lit " ");
                              LTOtherElement ] ]))) :: tr).
Proof.
  apply (process_single_pdf_blank_document
           shipped_config Samples.sample_loads
           (Samples.always (Samples.ok_response Samples.full_text))
           Samples.no_plumber Samples.blank_page Samples.sample_path).
  reflexivity.
Defined.

Lemma extract_pdf_pdfplumber_page_without_text_witness :
  extract_pdf Samples.gap_pages Samples.one_page Samples.sample_path (lit "pdfplumber")
  = Raise TypeError.
Proof.
  apply (extract_pdf_pdfplumber_page_without_text
           Samples.gap_pages Samples.one_page Samples.sample_path
           [ Ret (Some (lit "Introduction")) ] [ Ret (Some (lit "References")) ]).
  - reflexivity.
  - repeat constructor. exists (lit "Introduction"). reflexivity.
Defined.

End Cleaning.

(** ** The PyPDF2 path: [extract_text] and the module's [clean_text] *)

Module PyPdf2.
Import ExtractPdf Vocabulary StringFacts.

Lemma filter_fixed (f : N -> bool) (s : pystr) :
  Forall (fun c => f c = true) s -> List.filter f s = s.
Proof.
  induction 1 as [|c s Hc _ IH]; [reflexivity|]. cbn. rewrite Hc, IH. reflexivity.
Qed.

Lemma filter_all (f : N -> bool) (s : pystr) :
  Forall (fun c => f c = true) (List.filter f s).
Proof.
  induction s as [|c s IH]; [constructor|]. cbn.
  destruct (f c) eqn:Hc; [constructor; assumption|exact IH].
Qed.

Lemma clean_text_printable (text : pystr) :
  Forall (fun c => printable c = true) (clean_text text).
Proof.
  unfold clean_text.
  destruct (strip_split (List.filter (fun c => (32 <=? c)%N && (c <=? 126)%N) text))
    as (pre & post & Hs & _ & _).
  pose proof (filter_all printable text) as H.
  change (List.filter printable text)
    with (List.filter (fun c => (32 <=? c)%N && (c <=? 126)%N) text) in H.
  rewrite Hs in H. apply Forall_app in H as [_ H]. apply Forall_app in H as [H _].
  exact H.
Qed.

(** A text without a printable ASCII character is cleaned to nothing. *)
Lemma clean_text_unprintable (text : pystr) :
  Forall (fun c => printable c = false) text -> clean_text text = [].
Proof.
  intros H. unfold clean_text.
  change (fun c => (32 <=? c)%N && (c <=? 126)%N) with printable.
  replace (List.filter printable text) with (@nil N); [reflexivity|].
  induction H as [|c text Hc _ IH]; [reflexivity|].
  cbn. rewrite Hc. exact IH.
Qed.

(** X8. The module's [clean_text] gives printable ASCII only, without
    whitespace at either end; it keeps the printable characters other than
    spaces in their order, and cleaning twice is cleaning once. *)
Theorem clean_text_ascii (text : pystr) :
  Forall (fun c => printable c = true) (clean_text text)
  /\ stripped (clean_text text)
  /\ ink (clean_text text) = ink (List.filter printable text)
  /\ clean_text (clean_text text) = clean_text text.
Proof.
  split; [apply clean_text_printable|].
  split; [apply strip_stripped|].
  split; [apply ink_strip|].
  unfold clean_text at 1.
  change (fun c => (32 <=? c)%N && (c <=? 126)%N) with printable.
  rewrite (filter_fixed printable _ (clean_text_printable text)).
  unfold clean_text. apply strip_idem.
Qed.

Section Facts.
Variable pypdf2_pages : pystr -> pyres (list page_result).

(** The loop over pages that all return: one cleaned line per page. *)
Lemma extract_text_loop_lines (pages : list page_result) (text : pystr) :
  Forall (fun page => ~ page_raises page) pages ->
  exists lines,
    extract_text_loop pages text
    = Ret (text ++ concat (map (fun l => l ++ newline) lines))
    /\ length lines = length pages
    /\ Forall (Forall (fun c => printable c = true)) lines.
Proof.
  intros H. revert text.
  induction H as [|page pages Hp _ IH]; intros text.
  - exists []. cbn. rewrite app_nil_r. repeat split. constructor.
  - destruct page as [r|e]; [|exfalso; apply Hp; exists e; reflexivity].
    cbn [extract_text_loop mbind pyres_bind bind].
    destruct (IH (text ++ clean_text (from_option id [] r) ++ newline))
      as (lines & Hl & Hlen & Hpr).
    exists (clean_text (from_option id [] r) :: lines).
    split; [|split].
    + rewrite Hl. cbn [map concat]. rewrite <- !app_assoc. reflexivity.
    + cbn. rewrite Hlen. reflexivity.
    + constructor; [apply clean_text_printable|exact Hpr].
Qed.

Lemma extract_text_loop_raises (pages : list page_result) (text : pystr) :
  Exists page_raises pages -> exists e, extract_text_loop pages text = Raise e.
Proof.
  intros H. revert text.
  induction H as [page pages [e ->]|page pages _ IH]; intros text.
  - exists e. reflexivity.
  - destruct page as [r|e]; [|exists e; reflexivity].
    cbn [extract_text_loop mbind pyres_bind bind]. apply IH.
Qed.

Lemma page_raises_dec (page : page_result) : {page_raises page} + {~ page_raises page}.
Proof.
  destruct page as [r|e].
  - right. intros [e He]. discriminate.
  - left. exists e. reflexivity.
Qed.

Lemma pages_raise_or_not (pages : list page_result) :
  Exists page_raises pages \/ Forall (fun page => ~ page_raises page) pages.
Proof.
  induction pages as [|page pages [IH|IH]].
  - right. constructor.
  - left. apply Exists_cons_tl, IH.
  - destruct (page_raises_dec page) as [H|H].
    + left. apply Exists_cons_hd, H.
    + right. constructor; assumption.
Qed.

(** The loop over pages that all return, page by page. *)
Lemma extract_text_loop_pages (pages : list page_result) (text : pystr) :
  Forall (fun page => ~ page_raises page) pages ->
  extract_text_loop pages text
  = Ret (text ++ concat (map (fun page => clean_text (page_text_of page) ++ newline)
                             pages)).
Proof.
  intros H. revert text.
  induction H as [|page pages Hp _ IH]; intros text.
  - cbn. rewrite app_nil_r. reflexivity.
  - destruct page as [r|e]; [|exfalso; apply Hp; exists e; reflexivity].
    cbn [extract_text_loop mbind pyres_bind bind]. rewrite IH.
    cbn [map concat]. rewrite <- !app_assoc.
    destruct r; reflexivity.
Qed.

(** X9. When the reader and every page return, [extract_text] gives one
    line per page, in the order of the pages, each ended by a line break:
    the line of a page is the cleaned text of that page, made of printable
    ASCII only, and a page without text, or whose text holds no printable
    ASCII character, gives an empty line. *)
Theorem extract_text_one_line_per_page (pdf_path : pystr) (pages : list page_result) :
  pypdf2_pages pdf_path = Ret pages ->
  Forall (fun page => ~ page_raises page) pages ->
  exists lines,
    extract_text pypdf2_pages pdf_path = concat (map (fun l => l ++ newline) lines)
    /\ length lines = length pages
    /\ Forall (Forall (fun c => printable c = true)) lines
    /\ Forall2 (fun page line =>
                  line = clean_text (page_text_of page)
                  /\ (page = Ret None -> line = [])
                  /\ (Forall (fun c => printable c = false) (page_text_of page) ->
                      line = []))
               pages lines.
Proof.
  intros Hp Hpages.
  exists (map (fun page => clean_text (page_text_of page)) pages).
  split; [|split; [|split]].
  - unfold extract_text. rewrite Hp. cbn [mbind pyres_bind bind].
    rewrite (extract_text_loop_pages pages [] Hpages). cbn [app].
    rewrite map_map. reflexivity.
  - apply length_map.
  - apply Forall_map. apply Forall_forall. intros page _. apply clean_text_printable.
  - clear Hp Hpages. induction pages as [|page pages IH]; constructor; [|exact IH].
    split; [reflexivity|]. split.
    + intros ->. reflexivity.
    + apply clean_text_unprintable.
Qed.

(** X10. [extract_text] returns the empty string exactly when opening the
    file raised, a page raised, or the file has no page. So a readable
    file with pages never gives the empty string, even when no page has
    text, and a failure on a late page discards the text of the pages
    before it. *)
Theorem extract_text_empty_iff (pdf_path : pystr) :
  extract_text pypdf2_pages pdf_path = []
  <-> (exists e, pypdf2_pages pdf_path = Raise e)
      \/ (exists pages, pypdf2_pages pdf_path = Ret pages
                        /\ (pages = [] \/ Exists page_raises pages)).
Proof.
  unfold extract_text.
  destruct (pypdf2_pages pdf_path) as [pages|e] eqn:Hp; cbn [mbind pyres_bind bind].
  - split.
    + intros H. right. exists pages. split; [reflexivity|].
      destruct (pages_raise_or_not pages) as [Hex|Hall]; [right; exact Hex|].
      left. destruct (extract_text_loop_lines pages [] Hall) as (lines & Hl & Hlen & _).
      rewrite Hl in H. cbn [app] in H.
      destruct lines as [|l lines]; [destruct pages; [reflexivity|discriminate]|].
      exfalso. cbn in H. destruct l; discriminate.
    + intros [[e He]|(pages' & [= <-] & [->|Hex])]; [discriminate|reflexivity|].
      destruct (extract_text_loop_raises pages [] Hex) as [e He]. rewrite He. reflexivity.
  - split; [intros _; left; exists e; reflexivity|reflexivity].
Qed.

End Facts.

Lemma extract_text_one_line_per_page_witness :
  exists lines,
    extract_text Samples.two_pages Samples.sample_path
    = concat (map (fun l => l ++ newline) lines)
    /\ length lines = length [ Ret (Some (lit " Abstract – we ")); @Ret (option pystr) None ]
    /\ Forall (Forall (fun c => printable c = true)) lines
    /\ Forall2 (fun page line =>
                  line = clean_text (page_text_of page)
                  /\ (page = Ret None -> line = [])
                  /\ (Forall (fun c => printable c = false) (page_text_of page) ->
                      line = []))
               [ Ret (Some (lit " Abstract – we ")); @Ret (option pystr) None ] lines.
Proof.
  apply (extract_text_one_line_per_page Samples.two_pages Samples.sample_path).
  - reflexivity.
  - repeat constructor; intros [e He]; discriminate.
Defined.

(** On the sample the dash is dropped and the scan is an empty line. *)
Example extract_text_two_pages :
  extract_text Samples.two_pages Samples.sample_path
  = lit "Abstract  we" ++ newline ++ newline.
Proof. vm_compute. reflexivity. Qed.

End PyPdf2.

(** ** More on the retry loop *)

Module Backoff.
Import CitationAnalyzer Vocabulary RetryFacts Policy.

Lemma getitem_key_raises (v : json) (key : pystr) (e : pyexc) :
  getitem_key v key = Raise e -> lookup_error e.
Proof.
  unfold lookup_error. destruct v; cbn; try (intros [= <-]; auto).
  destruct (assoc key d); intros [= <-]; auto.
Qed.

Lemma getitem_0_raises (v : json) (e : pyexc) :
  getitem_0 v = Raise e -> lookup_error e.
Proof.
  unfold lookup_error.
  destruct v as [| | | |s|l|d]; cbn; try (intros [= <-]; auto).
  - destruct s; intros [= <-]; auto.
  - destruct l; intros [= <-]; auto.
Qed.

Lemma completion_content_raises (data : json) (e : pyexc) :
  completion_content data = Raise e -> lookup_error e.
Proof.
  unfold completion_content.
  destruct (getitem_key data (lit "choices")) as [choices|e1] eqn:H1;
    cbn [mbind pyres_bind bind];
    [|intros [= <-]; exact (getitem_key_raises _ _ _ H1)].
  destruct (getitem_0 choices) as [first|e2] eqn:H2;
    cbn [mbind pyres_bind bind];
    [|intros [= <-]; exact (getitem_0_raises _ _ H2)].
  destruct (getitem_key first (lit "message")) as [message|e3] eqn:H3;
    cbn [mbind pyres_bind bind];
    [|intros [= <-]; exact (getitem_key_raises _ _ _ H3)].
  apply getitem_key_raises.
Qed.

Lemma read_completion_raises (json_loads : pystr -> option json)
    (data : json) (e : pyexc) :
  read_completion json_loads data = Raise e -> lookup_error e.
Proof.
  unfold read_completion.
  destruct (completion_content data) as [content|e1] eqn:Hc.
  - unfold py_json_loads.
    destruct content as [| | | |c| |]; try (intros [= <-]; right; left; reflexivity).
    destruct (json_loads c); discriminate.
  - pose proof (completion_content_raises _ _ Hc) as He. unfold lookup_error in *.
    destruct e1; intros [= <-]; auto.
Qed.

(** A response with status 200 ends the loop, whatever its body. *)
Lemma attempt_once_200 (json_loads : pystr -> option json) (r : response) :
  status_code r = 200 -> exists v, attempt_once json_loads (Ret r) = Return v.
Proof.
  intros Hs. unfold attempt_once, on_response.
  cbn [mbind pyres_bind bind]. rewrite Hs. cbn [Z.eqb Pos.eqb].
  destruct (json_body r) as [data|]; cbn [from_option mbind pyres_bind bind];
    [|eexists; reflexivity].
  destruct (read_completion json_loads data) as [v|e] eqn:Hr;
    cbn [mbind pyres_bind bind]; [eexists; reflexivity|].
  destruct (read_completion_raises _ _ _ Hr) as [-> | [-> | [-> | ->]]];
    eexists; reflexivity.
Qed.

(** Only a transient failure makes an iteration go on to the next one. *)
Lemma retry_is_transient (json_loads : pystr -> option json)
    (posted : pyres response) (why : retry_reason) :
  attempt_once json_loads posted = Retry why -> transient posted.
Proof.
  unfold transient. destruct posted as [r|e]; intros H.
  - left. exists r. split; [reflexivity|].
    destruct (Z.eq_dec (status_code r) 200) as [E|NE].
    + destruct (attempt_once_200 json_loads r E) as [v Hv]. congruence.
    + rewrite attempt_once_status in H by exact NE.
      destruct (Z.eqb_spec (status_code r) 429) as [E|_]; [left; exact E|].
      destruct (Z.eqb_spec (status_code r) 503) as [E|_]; [right; exact E|].
      discriminate.
  - right. destruct e; try discriminate; auto.
Qed.

(** X11. Unless the first request meets a transient failure (a 429 or 503
    response, a timeout, a connection error), [call_llm_api] makes exactly
    one request and never sleeps: a 200 response is final whatever its
    body, and so is any other status (a 201 or 204 included) and any other
    exception. *)
Theorem call_llm_api_final_first_attempt
    (cfg : config) (json_loads : pystr -> option json)
    (transport : nat -> pyres response) (pdf_text : pystr) :
  ~ transient (transport 0%nat) ->
  exists v,
    call_llm_api cfg json_loads transport pdf_text
    = (v, [ EvPost (build_request cfg pdf_text) ]).
Proof.
  intros Hnt. unfold call_llm_api, max_retries. cbn [retry_loop].
  destruct (attempt_once json_loads (transport 0%nat)) as [v|why] eqn:Ha.
  - exists v. reflexivity.
  - exfalso. apply Hnt, (retry_is_transient json_loads _ why), Ha.
Qed.

Lemma call_llm_api_final_first_attempt_witness :
  exists v,
    call_llm_api shipped_config Samples.sample_loads
                 (Samples.always (Samples.status_response 201)) (lit "text")
    = (v, [ EvPost (build_request shipped_config (lit "text")) ]).
Proof.
  apply (call_llm_api_final_first_attempt
           shipped_config Samples.sample_loads
           (Samples.always (Samples.status_response 201)) (lit "text")).
  intros [(r & [= <-] & [H|H]) | [H|H]]; discriminate.
Defined.

(** X12. Whatever the transport does, the delays [call_llm_api] sleeps are
    5, 10, 20 or a beginning of that list, and one more request than sleeps
    is made, except that after the third failure the loop sleeps 20 seconds
    and gives up with the empty dict without a fourth request. *)
Theorem call_llm_api_schedule
    (cfg : config) (json_loads : pystr -> option json)
    (transport : nat -> pyres response) (pdf_text : pystr) :
  let '(result, tr) := call_llm_api cfg json_loads transport pdf_text in
  (sleeps tr = [] /\ requests_made tr = 1%nat)
  \/ (sleeps tr = [5] /\ requests_made tr = 2%nat)
  \/ (sleeps tr = [5; 10] /\ requests_made tr = 3%nat)
  \/ (sleeps tr = [5; 10; 20] /\ requests_made tr = 3%nat /\ result = JDict []).
Proof.
  unfold call_llm_api, max_retries. cbn [retry_loop].
  destruct (attempt_once json_loads (transport 0%nat)); [left; split; reflexivity|].
  destruct (attempt_once json_loads (transport 1%nat));
    [right; left; split; reflexivity|].
  destruct (attempt_once json_loads (transport 2%nat));
    [right; right; left; split; reflexivity|].
  right. right. right. repeat split.
Qed.

End Backoff.

(** ** One document *)

Module Documents.
Import ExtractPdf CitationAnalyzer Vocabulary RetryFacts Records.

Section Facts.
Variable cfg : config.
Variable json_loads : pystr -> option json.
Variable transport : nat -> pyres response.
Variable pdfplumber_pages : pystr -> pyres (list page_result).
Variable extract_pages : pystr -> pyres (list (list layout_element)).

(** The events of [process_single_pdf] are those of one classifier call
    on the extracted text, or none. *)
Lemma process_trace (pdf_path : pystr) :
  snd (process_single_pdf cfg json_loads transport pdfplumber_pages extract_pages pdf_path)
  = []
  \/ exists pdf_text,
       extract_pdf pdfplumber_pages extract_pages pdf_path default_engine = Ret pdf_text
       /\ pdf_text ≠ []
       /\ snd (process_single_pdf cfg json_loads transport
                                  pdfplumber_pages extract_pages pdf_path)
          = snd (call_llm_api cfg json_loads transport pdf_text).
Proof.
  destruct (extract_pdf pdfplumber_pages extract_pages pdf_path default_engine)
    as [pdf_text|e] eqn:He.
  - destruct pdf_text as [|c s].
    + left. rewrite (process_empty_text _ _ _ _ _ _ He). reflexivity.
    + right. exists (c :: s). split; [reflexivity|]. split; [discriminate|].
      destruct (truthy (fst (call_llm_api cfg json_loads transport (c :: s)))) eqn:Ht.
      * rewrite (process_truthy_result _ _ _ _ _ _ (c :: s) He); [reflexivity|discriminate|exact Ht].
      * rewrite (process_falsy_result _ _ _ _ _ _ (c :: s) He); [reflexivity|discriminate|exact Ht].
  - left. unfold process_single_pdf. rewrite He. reflexivity.
Qed.

(** A returned record names the file by the last component of its path. *)
Lemma process_filename (pdf_path : pystr) (r : gmap pystr json) :
  fst (process_single_pdf cfg json_loads transport pdfplumber_pages extract_pages pdf_path)
  = Ret r ->
  r !! lit "filename" = Some (JStr (basename pdf_path)).
Proof.
  destruct (extract_pdf pdfplumber_pages extract_pages pdf_path default_engine)
    as [pdf_text|e] eqn:He.
  - destruct pdf_text as [|c s].
    + rewrite (process_empty_text _ _ _ _ _ _ He). cbn [fst]. intros [= <-].
      apply error_record_filename.
    + destruct (truthy (fst (call_llm_api cfg json_loads transport (c :: s)))) eqn:Ht.
      * rewrite (process_truthy_result _ _ _ _ _ _ (c :: s) He);
          [|discriminate|exact Ht]. cbn [fst].
        destruct (fst (call_llm_api cfg json_loads transport (c :: s)));
          try discriminate.
        rewrite record_of_result_dict. intros [= <-]. apply paper_record_filename.
      * rewrite (process_falsy_result _ _ _ _ _ _ (c :: s) He);
          [|discriminate|exact Ht]. cbn [fst]. intros [= <-].
        apply error_record_filename.
  - unfold process_single_pdf. rewrite He. discriminate.
Qed.

(** X13. Whatever extraction and the transport do, [process_single_pdf]
    makes at most three requests, each of them the classifier's request
    for the text that extraction returned (so none when extraction raised
    or returned the empty string), and every record it returns carries,
    under [filename], the last component of the path it was given. *)
Theorem process_single_pdf_requests_and_filename (pdf_path : pystr) :
  let '(result, tr) :=
    process_single_pdf cfg json_loads transport pdfplumber_pages extract_pages pdf_path in
  (requests_made tr <= 3)%nat
  /\ Forall (fun e =>
               is_post e = true ->
               exists pdf_text,
                 extract_pdf pdfplumber_pages extract_pages pdf_path default_engine
                 = Ret pdf_text
                 /\ pdf_text ≠ []
                 /\ e = EvPost (build_request cfg pdf_text)) tr
  /\ (forall r, result = Ret r -> r !! lit "filename" = Some (JStr (basename pdf_path))).
Proof.
  pose proof (process_trace pdf_path) as Htr.
  pose proof (process_filename pdf_path) as Hfn.
  destruct (process_single_pdf cfg json_loads transport
                               pdfplumber_pages extract_pages pdf_path) as [result tr].
  cbn [fst snd] in *.
  split; [|split; [|exact Hfn]].
  - destruct Htr as [->|(pdf_text & _ & _ & ->)]; [cbn; lia|].
    apply (retry_loop_bound json_loads transport (build_request cfg pdf_text)
                            max_retries 0 initial_wait_time).
  - destruct Htr as [->|(pdf_text & He & Hne & ->)]; [constructor|].
    eapply Forall_impl;
      [exact (retry_loop_posts json_loads transport (build_request cfg pdf_text)
                               max_retries 0 initial_wait_time)|].
    intros e He' Hpost. exists pdf_text. auto.
Qed.

End Facts.
End Documents.

(** ** Sentence segmentation *)

Module Sentences.
Import ExtractPdf Vocabulary StringFacts.

Section Split.
Variable cls : N -> bool.

(** Without a match, [re.split] gives the text in one piece. *)
Lemma re_split_class_plain (cur s : pystr) :
  Forall (fun c => cls c = false) s -> re_split_class cls cur s = [cur ++ s].
Proof.
  intros H. revert cur. induction H as [|c s Hc _ IH]; intros cur; cbn.
  - rewrite app_nil_r. reflexivity.
  - rewrite Hc, IH, <- app_assoc. reflexivity.
Qed.

Lemma pair_up_pieces (cur s : pystr) :
  Forall (fun c => cls c = false) cur ->
  Forall (fun piece => exists (body : pystr) (d : N),
            piece = body ++ [d] /\ cls d = true
            /\ Forall (fun c => cls c = false) body)
         (pair_up (re_split_class cls cur s)).
Proof.
  revert cur. induction s as [|c s IH]; intros cur Hcur; cbn.
  - constructor.
  - destruct (cls c) eqn:Hc.
    + cbn. constructor; [exists cur, c; auto|]. apply IH. constructor.
    + apply IH. apply Forall_app. split; [exact Hcur|repeat constructor; exact Hc].
Qed.

Lemma pair_up_drops_tail (cur s tail : pystr) :
  Forall (fun c => cls c = false) tail ->
  pair_up (re_split_class cls cur (s ++ tail)) = pair_up (re_split_class cls cur s).
Proof.
  intros Ht. revert cur. induction s as [|c s IH]; intros cur.
  - cbn [app]. rewrite (re_split_class_plain cur tail Ht). reflexivity.
  - cbn. destruct (cls c); [cbn; rewrite IH; reflexivity|apply IH].
Qed.

Lemma pair_up_concat (cur s : pystr) :
  exists tail, concat (pair_up (re_split_class cls cur s)) ++ tail = cur ++ s.
Proof.
  revert cur. induction s as [|c s IH]; intros cur.
  - exists cur. cbn. rewrite app_nil_r. reflexivity.
  - cbn [re_split_class]. destruct (cls c).
    + destruct (IH []) as [tail Ht]. exists tail.
      cbn [pair_up concat]. rewrite <- !app_assoc. cbn [app] in *. rewrite Ht.
      reflexivity.
    + destruct (IH (cur ++ [c])) as [tail Ht]. exists tail.
      rewrite Ht, <- app_assoc. reflexivity.
Qed.

End Split.

Lemma concat_filter_sublist (f : pystr -> bool) (l : list pystr) :
  sublist (concat (List.filter f l)) (concat l).
Proof.
  induction l as [|a l IH]; [constructor|]. cbn.
  destruct (f a); cbn.
  - apply sublist_app; [reflexivity|exact IH].
  - apply sublist_inserts_l, IH.
Qed.

(** X14. Every sentence [split_chinese_sentences] returns is a non-empty
    body without 。！？； followed by exactly one of these four
    characters. *)
Theorem split_chinese_sentences_shape (text : pystr) :
  Forall chinese_sentence (split_chinese_sentences text).
Proof.
  unfold split_chinese_sentences.
  pose proof (pair_up_pieces is_cjk_terminator [] text (List.Forall_nil _)) as H.
  induction H as [|piece l (body & d & -> & Hd & Hbody) _ IH]; [constructor|].
  cbn [List.filter].
  destruct (1 <? length (body ++ [d]))%nat eqn:Hlen; [|exact IH].
  constructor; [|exact IH].
  exists body, d. repeat split; try assumption.
  intros ->. cbn in Hlen. discriminate.
Qed.

(** X15. Whatever follows the last 。！？； of a text is dropped: adding
    or removing an unterminated end changes nothing, and a text without
    any of the four characters gives no sentence at all. *)
Theorem split_chinese_sentences_drops_tail (text tail : pystr) :
  Forall (fun c => is_cjk_terminator c = false) tail ->
  split_chinese_sentences (text ++ tail) = split_chinese_sentences text
  /\ split_chinese_sentences tail = [].
Proof.
  intros Ht. unfold split_chinese_sentences. split.
  - rewrite (pair_up_drops_tail is_cjk_terminator [] text tail Ht). reflexivity.
  - rewrite (re_split_class_plain is_cjk_terminator [] tail Ht). reflexivity.
Qed.

Lemma split_chinese_sentences_drops_tail_witness :
  split_chinese_sentences (lit "实验有效。结果见表" ++ lit "3 (Table 3)")
  = split_chinese_sentences (lit "实验有效。结果见表")
  /\ split_chinese_sentences (lit "3 (Table 3)") = [].
Proof.
  apply (split_chinese_sentences_drops_tail (lit "实验有效。结果见表") (lit "3 (Table 3)")).
  vm_compute. repeat constructor.
Defined.

(** X16. The sentences, one after the other, are a subsequence of the
    text: segmentation deletes characters (the unterminated end, and
    terminators that follow nothing) but never adds or moves one. *)
Theorem split_chinese_sentences_sublist (text : pystr) :
  sublist (concat (split_chinese_sentences text)) text.
Proof.
  unfold split_chinese_sentences.
  destruct (pair_up_concat is_cjk_terminator [] text) as [tail Ht].
  cbn [app] in Ht.
  transitivity (concat (pair_up (re_split_class is_cjk_terminator [] text))).
  - apply concat_filter_sublist.
  - rewrite <- Ht at 2. apply sublist_inserts_r. reflexivity.
Qed.

(** *** The mixed splitter *)

Lemma stripped_last_ink (s : pystr) : stripped s -> last s = last (ink s).
Proof.
  intros [_ Hl]. destruct (last s) as [d|] eqn:Hd.
  - apply last_Some in Hd as [s' ->]. rewrite ink_app.
    unfold ink at 2. cbn. rewrite (Hl d eq_refl). cbn.
    symmetry. apply last_snoc.
  - apply last_None in Hd. subst. reflexivity.
Qed.

Lemma strip_last (s : pystr) : last (strip s) = last (ink s).
Proof. rewrite (stripped_last_ink _ (strip_stripped s)), ink_strip. reflexivity. Qed.

Lemma cjk_terminator_cases (c : N) :
  is_cjk_terminator c = true ->
  c = 12290%N \/ c = 65281%N \/ c = 65311%N \/ c = 65307%N.
Proof.
  unfold is_cjk_terminator. change (lit "。！？；") with [12290; 65281; 65311; 65307]%N.
  cbn [existsb]. rewrite !orb_true_iff, !N.eqb_eq. intuition discriminate.
Qed.

Lemma ascii_terminator_cases (c : N) :
  is_ascii_terminator c = true -> c = 33%N \/ c = 63%N \/ c = 59%N.
Proof.
  unfold is_ascii_terminator. change (lit "!?;") with [33; 63; 59]%N.
  cbn [existsb]. rewrite !orb_true_iff, !N.eqb_eq. intuition discriminate.
Qed.

Lemma cjk_terminator_ink (c : N) : is_cjk_terminator c = true -> isspace c = false.
Proof.
  intros H. destruct (cjk_terminator_cases c H) as [-> | [-> | [-> | ->]]]; reflexivity.
Qed.

Lemma ascii_terminator_ink (c : N) : is_ascii_terminator c = true -> isspace c = false.
Proof.
  intros H. destruct (ascii_terminator_cases c H) as [-> | [-> | ->]]; reflexivity.
Qed.

(** One pair of the loop: a piece and a delimiter whose last character
    that is not whitespace is a terminator. *)
Lemma mixed_pairs_step (cur delim : pystr) (rest : list pystr) (d : N) :
  last (ink delim) = Some d ->
  is_mixed_terminator d = true ->
  Forall mixed_sentence (mixed_pairs rest) ->
  Forall mixed_sentence (mixed_pairs (cur :: delim :: rest)).
Proof.
  intros Hd Ht Hrest. cbn [mixed_pairs].
  destruct (1 <? length (strip (cur ++ delim)))%nat eqn:Hlen; [|exact Hrest].
  constructor; [|exact Hrest].
  split; [apply Nat.ltb_lt, Hlen|]. split; [apply strip_stripped|].
  exists d. split; [|exact Ht].
  rewrite strip_last, ink_app, last_app, Hd. reflexivity.
Qed.

Lemma split_mixed_pieces (s : pystr) :
  (forall cur, Forall mixed_sentence (mixed_pairs (re_split_mixed cur s)))
  /\ (forall c cur, Forall mixed_sentence (mixed_pairs (re_split_mixed cur (c :: s)))).
Proof.
  induction s as [|a s [IH1 IH2]].
  - split; [intros cur; constructor|]. intros c cur. cbn [re_split_mixed].
    destruct (is_cjk_terminator c) eqn:Hcjk.
    { apply (mixed_pairs_step _ _ _ c); [|unfold is_mixed_terminator; rewrite Hcjk; reflexivity|constructor].
      unfold ink. cbn. rewrite (cjk_terminator_ink c Hcjk). reflexivity. }
    destruct (c =? 46)%N; [constructor|].
    destruct (is_ascii_terminator c) eqn:Hascii; [|constructor].
    apply (mixed_pairs_step _ _ _ c);
      [|unfold is_mixed_terminator; rewrite Hascii, orb_true_r; reflexivity|constructor].
    unfold ink. cbn. rewrite (ascii_terminator_ink c Hascii). reflexivity.
  - split; [intros cur; apply IH2|]. intros c cur. cbn [re_split_mixed].
    destruct (is_cjk_terminator c) eqn:Hcjk.
    { apply (mixed_pairs_step _ _ _ c); [|unfold is_mixed_terminator; rewrite Hcjk; reflexivity|apply IH2].
      unfold ink. cbn. rewrite (cjk_terminator_ink c Hcjk). reflexivity. }
    destruct (N.eqb_spec c 46) as [->|_].
    { destruct (isspace a) eqn:Ha; [|apply IH2].
      apply (mixed_pairs_step _ _ _ 46%N); [|reflexivity|apply IH1].
      unfold ink. cbn. rewrite Ha. reflexivity. }
    destruct (is_ascii_terminator c) eqn:Hascii; [|apply IH2].
    apply (mixed_pairs_step _ _ _ c);
      [|unfold is_mixed_terminator; rewrite Hascii, orb_true_r; reflexivity|apply IH2].
    unfold ink. cbn. rewrite (ascii_terminator_ink c Hascii). reflexivity.
Qed.

(** X17. Every sentence [split_mixed_sentences] returns has at least two
    characters, no whitespace at either end, and ends with a terminator:
    one of 。！？； ! ? ; or a full stop (the whitespace that made the full
    stop a delimiter is stripped). *)
Theorem split_mixed_sentences_shape (text : pystr) :
  Forall mixed_sentence (split_mixed_sentences text).
Proof. apply (split_mixed_pieces text). Qed.

(** Without a match, [re.split] gives the text in one piece. *)
Lemma re_split_mixed_plain (cur s : pystr) :
  Forall (fun c => is_cjk_terminator c = false /\ is_ascii_terminator c = false) s ->
  has_dot_space s = false ->
  re_split_mixed cur s = [cur ++ s].
Proof.
  intros H. revert cur. induction H as [|c s [Hcjk Hascii] _ IH]; intros cur Hds.
  - cbn. rewrite app_nil_r. reflexivity.
  - cbn [re_split_mixed]. rewrite Hcjk, Hascii.
    assert (Hs : has_dot_space s = false).
    { destruct s as [|b s]; [reflexivity|]. cbn [has_dot_space] in Hds.
      apply orb_false_elim in Hds. apply Hds. }
    assert (Hgo : re_split_mixed (cur ++ [c]) s = [cur ++ c :: s]).
    { rewrite (IH _ Hs), <- app_assoc. reflexivity. }
    destruct (c =? 46)%N eqn:Hc; [|exact Hgo].
    destruct s as [|b s]; [exact Hgo|].
    cbn [has_dot_space] in Hds. rewrite Hc in Hds. cbn [andb] in Hds.
    apply orb_false_elim in Hds as [Hb _]. rewrite Hb. exact Hgo.
Qed.

(** X18. A full stop is a delimiter only with a whitespace character after
    it. So a paragraph without any of 。！？； ! ? ; in which no full stop is
    followed by whitespace gives no sentence at all, even when it ends with
    a full stop. *)
Theorem split_mixed_sentences_final_full_stop (text : pystr) :
  Forall (fun c => is_cjk_terminator c = false /\ is_ascii_terminator c = false) text ->
  has_dot_space text = false ->
  split_mixed_sentences text = [].
Proof.
  intros H Hds. unfold split_mixed_sentences.
  rewrite (re_split_mixed_plain [] text H Hds). reflexivity.
Qed.

Lemma split_mixed_sentences_final_full_stop_witness :
  split_mixed_sentences (lit "Version 3.14 improves on [3].") = [].
Proof.
  apply (split_mixed_sentences_final_full_stop (lit "Version 3.14 improves on [3].")).
  - vm_compute. repeat constructor.
  - reflexivity.
Defined.

End Sentences.

(** ** The alternate extractors *)

Module Variants.
Import ExtractPdf Vocabulary StringFacts Sentences.

Lemma split_on_forall (P : N -> Prop) (sep : N) (cur s : pystr) :
  Forall P cur -> Forall P s -> Forall (Forall P) (split_on sep cur s).
Proof.
  intros Hcur Hs. revert cur Hcur.
  induction Hs as [|c s Hc _ IH]; intros cur Hcur; cbn.
  - repeat constructor. exact Hcur.
  - destruct (c =? sep)%N.
    + constructor; [exact Hcur|]. apply IH. constructor.
    + apply IH. apply Forall_app. split; [exact Hcur|repeat constructor; exact Hc].
Qed.

Lemma split_chinese_plain (text : pystr) :
  Forall (fun c => is_cjk_terminator c = false) text ->
  split_chinese_sentences text = [].
Proof.
  intros H. unfold split_chinese_sentences.
  rewrite (re_split_class_plain is_cjk_terminator [] text H). reflexivity.
Qed.

Lemma chinese_page_text_plain (text : pystr) :
  Forall (fun c => is_cjk_terminator c = false) text ->
  chinese_page_text text = [].
Proof.
  intros H. unfold chinese_page_text.
  pose proof (split_on_forall _ 10 [] text (List.Forall_nil _) H) as Hp.
  induction Hp as [|para paras Hpara _ IH]; [reflexivity|].
  cbn [map concat]. rewrite (split_chinese_plain para Hpara), IH. reflexivity.
Qed.

Lemma letters_app (a b : pystr) : letters (a ++ b) = letters a ++ letters b.
Proof. apply List.filter_app. Qed.

Lemma letters_all_space (s : pystr) :
  Forall (fun c => isspace c = true) s -> letters s = [].
Proof.
  induction 1 as [|c s Hc _ IH]; [reflexivity|].
  unfold letters in *. cbn. rewrite Hc. exact IH.
Qed.

Lemma letters_strip (s : pystr) : letters (strip s) = letters s.
Proof.
  destruct (strip_split s) as (pre & post & Hs & Hpre & Hpost).
  rewrite Hs at 2.
  rewrite !letters_app, (letters_all_space _ Hpre), (letters_all_space _ Hpost).
  rewrite app_nil_r. reflexivity.
Qed.

(** Splitting at a character that is no letter loses no letter. *)
Lemma letters_split_on (sep : N) (cur s : pystr) :
  letters [sep] = [] ->
  letters (concat (split_on sep cur s)) = letters (cur ++ s).
Proof.
  intros Hsep. revert cur. induction s as [|c s IH]; intros cur; cbn [split_on].
  - cbn. rewrite app_nil_r. reflexivity.
  - destruct (N.eqb_spec c sep) as [->|_].
    + cbn [concat]. rewrite letters_app, (IH []).
      rewrite (letters_app cur (sep :: s)).
      change (sep :: s) with ([sep] ++ s). rewrite (letters_app [sep] s), Hsep.
      reflexivity.
    + rewrite IH, <- app_assoc. reflexivity.
Qed.

Lemma letters_join (sep : pystr) (l : list pystr) :
  letters sep = [] -> letters (join sep l) = letters (concat l).
Proof.
  intros Hsep. induction l as [|a l IH]; [reflexivity|].
  destruct l as [|b l].
  - cbn. rewrite app_nil_r. reflexivity.
  - change (join sep (a :: b :: l)) with (a ++ sep ++ join sep (b :: l)).
    change (concat (a :: b :: l)) with (a ++ concat (b :: l)).
    rewrite !letters_app, Hsep, IH. reflexivity.
Qed.

Lemma letters_pieces (l : list pystr) :
  letters (concat (map strip (List.filter nonempty l))) = letters (concat l).
Proof.
  induction l as [|a l IH]; [reflexivity|]. cbn [List.filter].
  destruct a as [|c a]; cbn [nonempty]; [exact IH|].
  cbn [map concat]. rewrite !letters_app, letters_strip, IH. reflexivity.
Qed.

(** The English branch loses no letter of the paragraph. *)
Lemma english_paragraph_letters (para : pystr) :
  letters (english_paragraph para) = letters para.
Proof.
  unfold english_paragraph.
  rewrite letters_app, (letters_join (lit "." ++ newline) _ eq_refl), letters_pieces.
  rewrite (letters_split_on 46 [] para eq_refl).
  change (letters newline) with (@nil N). apply app_nil_r.
Qed.

Section Facts.
Variable pdfplumber_text : Z -> pystr -> pyres (list page_result).
Variable langid_classify : pystr -> pystr.

Lemma extract_chinese_loop_plain (pages : list page_result) (full_text : pystr) :
  Forall (fun page => ~ page_raises page
                      /\ Forall (fun c => is_cjk_terminator c = false)
                                (page_text_of page)) pages ->
  extract_chinese_loop pages full_text = Ret full_text.
Proof.
  intros H. revert full_text.
  induction H as [|page pages [Hp Ht] _ IH]; intros full_text; [reflexivity|].
  destruct page as [[[|c t]|]|e]; cbn [extract_chinese_loop mbind pyres_bind bind].
  - apply IH.
  - cbn [page_text_of] in Ht. rewrite (chinese_page_text_plain _ Ht), app_nil_r.
    apply IH.
  - apply IH.
  - exfalso. apply Hp. exists e. reflexivity.
Qed.

(** X19. [extract_chinese_pdf] returns the empty string for every
    document whose pages hold none of 。！？；, whatever else they hold: a
    text with Latin punctuation only is lost as a whole. *)
Theorem extract_chinese_pdf_without_terminators
    (pdf_path : pystr) (pages : list page_result) :
  pdfplumber_text 1 pdf_path = Ret pages ->
  Forall (fun page => ~ page_raises page
                      /\ Forall (fun c => is_cjk_terminator c = false)
                                (page_text_of page)) pages ->
  extract_chinese_pdf pdfplumber_text pdf_path = Ret [].
Proof.
  intros Hp H. unfold extract_chinese_pdf. rewrite Hp.
  cbn [mbind pyres_bind bind]. apply extract_chinese_loop_plain, H.
Qed.

Lemma mixed_page_text_letters (text : pystr) :
  (forall para, langid_classify para = lit "en") ->
  letters (mixed_page_text langid_classify text) = letters text.
Proof.
  intros Hen. unfold mixed_page_text.
  pose proof (letters_split_on 10 [] text eq_refl) as Hs. cbn [app] in Hs.
  rewrite <- Hs. clear Hs.
  induction (split_on 10 [] text) as [|para paras IH]; [reflexivity|].
  cbn [map concat]. rewrite !letters_app, IH. f_equal.
  unfold mixed_paragraph. rewrite Hen. apply english_paragraph_letters.
Qed.

Lemma extract_mixed_loop_letters (pages : list page_result) (full_text : pystr) :
  (forall para, langid_classify para = lit "en") ->
  Forall (fun page => ~ page_raises page) pages ->
  exists out,
    extract_mixed_loop langid_classify pages full_text = Ret out
    /\ letters out = letters (full_text ++ concat (map page_text_of pages)).
Proof.
  intros Hen H. revert full_text.
  induction H as [|page pages Hp _ IH]; intros full_text.
  - exists full_text. cbn. rewrite app_nil_r. auto.
  - destruct page as [[[|c t]|]|e]; cbn [extract_mixed_loop mbind pyres_bind bind].
    + apply IH.
    + destruct (IH (full_text ++ mixed_page_text langid_classify (c :: t)))
        as (out & Ho & Hl).
      exists out. split; [exact Ho|]. rewrite Hl. cbn [map concat page_text_of].
      rewrite !letters_app, (mixed_page_text_letters _ Hen), app_assoc. reflexivity.
    + apply IH.
    + exfalso. apply Hp. exists e. reflexivity.
Qed.

(** X20. When [langid] takes every paragraph for English and no page
    raises, [extract_mixed_pdf] returns a text with the same characters
    other than whitespace and full stops as the pages, in the same order:
    the English branch only moves line breaks and full stops. *)
Theorem extract_mixed_pdf_english_letters
    (pdf_path : pystr) (pages : list page_result) :
  (forall para, langid_classify para = lit "en") ->
  pdfplumber_text 3 pdf_path = Ret pages ->
  Forall (fun page => ~ page_raises page) pages ->
  exists out,
    extract_mixed_pdf pdfplumber_text langid_classify pdf_path = Ret out
    /\ letters out = letters (concat (map page_text_of pages)).
Proof.
  intros Hen Hp H. unfold extract_mixed_pdf. rewrite Hp.
  cbn [mbind pyres_bind bind].
  destruct (extract_mixed_loop_letters pages [] Hen H) as (out & Ho & Hl).
  exists out. split; assumption.
Qed.

End Facts.

Lemma extract_chinese_pdf_without_terminators_witness :
  extract_chinese_pdf Samples.english_pages Samples.sample_path = Ret [].
Proof.
  apply (extract_chinese_pdf_without_terminators
           Samples.english_pages Samples.sample_path
           [ Ret (Some (lit "We build on [3]. It works." ++ newline ++ lit "See Table 2."));
             Ret None ]).
  - reflexivity.
  - constructor; [|constructor; [|constructor]].
    + split; [intros [e He]; discriminate|]. vm_compute. repeat constructor.
    + split; [intros [e He]; discriminate|]. constructor.
Defined.

Lemma extract_mixed_pdf_english_letters_witness :
  exists out,
    extract_mixed_pdf Samples.english_pages Samples.all_english Samples.sample_path = Ret out
    /\ letters out
       = letters (concat (map page_text_of
           [ Ret (Some (lit "We build on [3]. It works." ++ newline ++ lit "See Table 2."));
             Ret None ])).
Proof.
  apply (extract_mixed_pdf_english_letters
           Samples.english_pages Samples.all_english Samples.sample_path).
  - reflexivity.
  - reflexivity.
  - repeat constructor; intros [e He]; discriminate.
Defined.

(** On the sample: one sentence per line, the last full stop of each
    paragraph gone. *)
Example extract_mixed_pdf_sample :
  extract_mixed_pdf Samples.english_pages Samples.all_english Samples.sample_path
  = Ret (lit "We build on [3]." ++ newline ++ lit "It works" ++ newline
         ++ lit "See Table 2" ++ newline).
Proof. vm_compute. reflexivity. Qed.

End Variants.

(** ** From the folder to the table *)

Module Pipeline.
Import ExtractPdf CitationAnalyzer Vocabulary Records Table Documents.

(** *** Paths *)

Lemma basename_aux_plain (cur f : pystr) :
  Forall (fun c => c ≠ 47%N) f -> basename_aux cur f = cur ++ f.
Proof.
  intros H. revert cur. induction H as [|c f Hc _ IH]; intros cur; cbn.
  - rewrite app_nil_r. reflexivity.
  - destruct (N.eqb_spec c 47); [contradiction|].
    rewrite IH, <- app_assoc. reflexivity.
Qed.

Lemma basename_aux_slash (cur p f : pystr) :
  basename_aux cur (p ++ 47%N :: f) = basename_aux [] f.
Proof.
  revert cur. induction p as [|c p IH]; intros cur; cbn.
  - reflexivity.
  - destruct (c =? 47)%N; apply IH.
Qed.

Lemma endswith_slash (a : pystr) :
  endswith a [47%N] = true -> exists a', a = a' ++ [47%N].
Proof.
  unfold endswith, str_eqb. intros H. apply andb_prop in H as [_ H].
  apply bool_decide_eq_true in H.
  set (n := (length a - length [47%N])%nat) in *.
  exists (take n a). rewrite <- H. symmetry. apply take_drop.
Qed.

Lemma path_join_relative (folder f : pystr) :
  head f ≠ Some 47%N ->
  path_join folder f
  = match folder with
    | [] => f
    | _ :: _ => if endswith folder [47%N] then folder ++ f else folder ++ 47%N :: f
    end.
Proof.
  unfold path_join. destruct f as [|c f']; [reflexivity|]. intros H.
  destruct c as [|p]; [reflexivity|].
  do 6 (destruct p as [p|p|]; try reflexivity).
  exfalso. apply H. reflexivity.
Qed.

Lemma basename_join_name (folder f : pystr) :
  Forall (fun c => c ≠ 47%N) f -> basename (path_join folder f) = f.
Proof.
  intros Hf. rewrite path_join_relative.
  - unfold basename. destruct folder as [|a folder'].
    + apply (basename_aux_plain [] f Hf).
    + destruct (endswith (a :: folder') [47%N]) eqn:He.
      * destruct (endswith_slash _ He) as [a' ->]. rewrite <- app_assoc.
        cbn [app]. rewrite basename_aux_slash. apply (basename_aux_plain [] f Hf).
      * rewrite basename_aux_slash. apply (basename_aux_plain [] f Hf).
  - destruct Hf as [|c f' Hc _]; [discriminate|]. cbn. congruence.
Qed.

(** *** Rows *)

Lemma write_citations_inv (res : gmap pystr json) (cites : list json) :
  Forall (fun r => exists cite, row_of res cite = Ret r)
         (fst (write_citations res cites)).
Proof.
  induction cites as [|cite cites IH]; [constructor|].
  destruct (row_of res cite) as [r|e] eqn:Hr.
  - destruct (encodable_row_dec r) as [Henc|Henc].
    + rewrite (write_citations_written _ _ _ _ Hr Henc). cbn [fst].
      constructor; [exists cite; exact Hr|exact IH].
    + rewrite (write_citations_unencodable _ _ _ _ Hr Henc). constructor.
  - rewrite (write_citations_raise _ _ _ _ Hr). constructor.
Qed.

Lemma write_record_inv (res : gmap pystr json) :
  Forall (fun r => exists cite, row_of res cite = Ret r) (fst (write_record res)).
Proof.
  unfold write_record.
  destruct (py_iter (record_get res (lit "citations") (JList []))); [|constructor].
  apply write_citations_inv.
Qed.

Lemma write_records_inv (results : list (gmap pystr json)) :
  Forall (fun r => exists res cite, In res results /\ row_of res cite = Ret r)
         (fst (write_records results)).
Proof.
  induction results as [|res results IH]; cbn [write_records]; [constructor|].
  pose proof (write_record_inv res) as Hres.
  assert (Hhere : Forall (fun r => exists res' cite,
                            In res' (res :: results) /\ row_of res' cite = Ret r)
                         (fst (write_record res))).
  { eapply Forall_impl; [exact Hres|]. intros r [cite Hc].
    exists res, cite. split; [left; reflexivity|exact Hc]. }
  destruct (write_record res) as [rows [e|]]; [exact Hhere|].
  destruct (write_records results) as [rows' err]. cbn [fst] in *.
  apply Forall_app. split; [exact Hhere|].
  eapply Forall_impl; [exact IH|]. intros r (res' & cite & Hin & Hc).
  exists res', cite. split; [right; exact Hin|exact Hc].
Qed.

Lemma collect_In (outcomes : list (pyres (gmap pystr json))) (res : gmap pystr json) :
  In res (collect outcomes) -> In (Ret res) outcomes.
Proof.
  induction outcomes as [|[r|e] outcomes IH]; cbn; [auto| |auto].
  intros [->|H]; auto.
Qed.

(** X21. Every row of the table, the header included, has seven cells,
    whatever the records hold and whether or not the writing is cut short
    by an exception. *)
Theorem write_csv_seven_columns (results : list (gmap pystr json)) :
  Forall (fun r => length r = 7%nat) (fst (write_csv results)).
Proof.
  rewrite write_csv_rows. pose proof (write_records_inv results) as H.
  destruct (write_records results) as [rows err]. cbn [fst] in *.
  constructor; [reflexivity|].
  eapply Forall_impl; [exact H|]. intros r (res & cite & _ & Hr).
  destruct (row_of_inv _ _ _ Hr) as (fn & _ & _ & Hlen). exact Hlen.
Qed.

(** X22. The first record whose rows cannot all be written ends the
    table, whether a row cannot be built or cannot be encoded: the header,
    the rows of the records before it and its own rows up to the failing
    one are written, nothing of the records after it is, and the exception
    leaves [main]. *)
Theorem write_records_stops_at_exception
    (before after : list (gmap pystr json)) (bad : gmap pystr json)
    (rows_before rows_bad : list row) (e : pyexc) :
  write_records before = (rows_before, None) ->
  write_record bad = (rows_bad, Some e) ->
  write_records (before ++ bad :: after) = (rows_before ++ rows_bad, Some e)
  /\ write_csv (before ++ bad :: after)
     = (header_row :: rows_before ++ rows_bad, Some e).
Proof.
  intros Hb Hbad.
  assert (Hw : write_records (before ++ bad :: after)
               = (rows_before ++ rows_bad, Some e)).
  { revert rows_before Hb.
    induction before as [|res before IH]; intros rows_before Hb.
    - cbn in Hb. injection Hb as <-. cbn [app write_records]. rewrite Hbad. reflexivity.
    - cbn [app write_records] in Hb |- *.
      destruct (write_record res) as [rows [e'|]]; [discriminate|].
      destruct (write_records before) as [rows' err] eqn:Hw.
      injection Hb as <- ->.
      rewrite (IH rows' eq_refl), <- app_assoc. reflexivity. }
  split; [exact Hw|]. rewrite write_csv_rows, Hw. reflexivity.
Qed.

Lemma write_records_stops_at_exception_witness :
  write_records (Samples.sample_results
                 ++ Samples.surrogate_record :: [ Samples.bad_record ])
  = ( [ [ JStr (lit "a.pdf"); JStr (lit "A survey"); JStr []; JStr (lit "Li, Y.");
          JStr (lit "as in [3]"); JStr []; JStr [] ];
        [ JStr (lit "a.pdf"); JStr (lit "A survey"); JStr []; JStr (lit "Li, Y.");
          JStr []; JStr []; JStr [] ] ]
      ++ [ [ JStr (lit "a.pdf"); JStr (lit "A survey"); JStr []; JStr (lit "Li, Y.");
             JStr (lit "as in [3]"); JStr []; JStr [] ] ],
      Some UnicodeEncodeError )
  /\ write_csv (Samples.sample_results
                ++ Samples.surrogate_record :: [ Samples.bad_record ])
     = ( header_row
         :: [ [ JStr (lit "a.pdf"); JStr (lit "A survey"); JStr []; JStr (lit "Li, Y.");
                JStr (lit "as in [3]"); JStr []; JStr [] ];
              [ JStr (lit "a.pdf"); JStr (lit "A survey"); JStr []; JStr (lit "Li, Y.");
                JStr []; JStr []; JStr [] ] ]
         ++ [ [ JStr (lit "a.pdf"); JStr (lit "A survey"); JStr []; JStr (lit "Li, Y.");
                JStr (lit "as in [3]"); JStr []; JStr [] ] ],
         Some UnicodeEncodeError ).
Proof.
  apply (write_records_stops_at_exception
           Samples.sample_results [ Samples.bad_record ] Samples.surrogate_record).
  - vm_compute. reflexivity.
  - vm_compute. reflexivity.
Defined.

(** A record whose citations are not iterable ends the table in the same
    way, with the [TypeError] of the loop. *)
Example write_records_not_iterable :
  write_records (Samples.sample_results ++ Samples.bad_record :: Samples.sample_results)
  = ( [ [ JStr (lit "a.pdf"); JStr (lit "A survey"); JStr []; JStr (lit "Li, Y.");
          JStr (lit "as in [3]"); JStr []; JStr [] ];
        [ JStr (lit "a.pdf"); JStr (lit "A survey"); JStr []; JStr (lit "Li, Y.");
          JStr []; JStr []; JStr [] ] ],
      Some TypeError ).
Proof. vm_compute. reflexivity. Qed.

(** *** [main] *)

Section Facts.
Variable cfg : config.
Variable json_loads : pystr -> option json.
Variable transport_of : pystr -> nat -> pyres response.
Variable pdfplumber_pages : pystr -> pyres (list page_result).
Variable extract_pages : pystr -> pyres (list (list layout_element)).
Variable listdir : pystr -> pyres (list pystr).
Variable lower : pystr -> pystr.
Variable completion_order : list pystr -> list pystr.
Variable open_w : pystr -> option pyexc.

Abbreviation run :=
  (main cfg json_loads transport_of pdfplumber_pages extract_pages
        listdir lower completion_order open_w).

(** Nothing is written when the folder cannot be listed, when the pool is
    refused, or when the output file cannot be opened. *)
Lemma main_folder_unreadable (e : pyexc) :
  listdir (PDF_FOLDER cfg) = Raise e -> run = Raise e.
Proof. intros H. unfold main, pdf_files. rewrite H. reflexivity. Qed.

Lemma main_without_workers (names : list pystr) :
  listdir (PDF_FOLDER cfg) = Ret names ->
  MAX_CONCURRENT cfg <= 0 ->
  run = Raise ValueError.
Proof.
  intros H Hn. unfold main, pdf_files, thread_pool. rewrite H.
  cbn [mbind pyres_bind bind].
  destruct (Z.leb_spec (MAX_CONCURRENT cfg) 0) as [_|Hlt]; [reflexivity|lia].
Qed.

Lemma main_output_refused (names : list pystr) (e : pyexc) :
  listdir (PDF_FOLDER cfg) = Ret names ->
  0 < MAX_CONCURRENT cfg ->
  open_w (OUTPUT_CSV cfg) = Some e ->
  run = Raise e.
Proof.
  intros H Hn Ho. unfold main, pdf_files, thread_pool. rewrite H.
  cbn [mbind pyres_bind bind].
  destruct (Z.leb_spec (MAX_CONCURRENT cfg) 0) as [Hle|_]; [lia|].
  cbn [bind]. rewrite Ho. reflexivity.
Qed.

(** Otherwise the table is written from the records of the tasks, in the
    order in which they complete. *)
Lemma main_writes (names : list pystr) :
  listdir (PDF_FOLDER cfg) = Ret names ->
  0 < MAX_CONCURRENT cfg ->
  open_w (OUTPUT_CSV cfg) = None ->
  run
  = Ret (write_csv
           (collect
              (map (run_task cfg json_loads transport_of pdfplumber_pages extract_pages)
                   (completion_order
                      (map (path_join (PDF_FOLDER cfg))
                           (List.filter (fun f => endswith (lower f) (lit ".pdf"))
                                        names)))))).
Proof.
  intros H Hn Ho. unfold main, pdf_files, thread_pool. rewrite H.
  cbn [mbind pyres_bind bind].
  destruct (Z.leb_spec (MAX_CONCURRENT cfg) 0) as [Hle|_]; [lia|].
  cbn [bind]. rewrite Ho. reflexivity.
Qed.

(** X23. When the folder can be listed, the pool has at least one worker
    and the output file can be opened, [main] writes the header first, and
    every data row starts with the name of an entry of the folder whose
    lower-cased name ends in [.pdf]: no row is attributed to another file,
    in whatever order the tasks complete. *)
Theorem main_rows_name_listed_files (names : list pystr) :
  listdir (PDF_FOLDER cfg) = Ret names ->
  Forall (Forall (fun c => c ≠ 47%N)) names ->
  (forall files, Permutation (completion_order files) files) ->
  0 < MAX_CONCURRENT cfg ->
  open_w (OUTPUT_CSV cfg) = None ->
  exists rows err,
    run = Ret (header_row :: rows, err)
    /\ Forall (fun r => exists f,
                  r !! 0%nat = Some (JStr f)
                  /\ In f names
                  /\ endswith (lower f) (lit ".pdf") = true) rows.
Proof.
  intros Hl Hnames Hperm Hn Ho. rewrite (main_writes names Hl Hn Ho).
  set (files := map (path_join (PDF_FOLDER cfg))
                    (List.filter (fun f => endswith (lower f) (lit ".pdf")) names)).
  set (results := collect (map (run_task cfg json_loads transport_of
                                         pdfplumber_pages extract_pages)
                               (completion_order files))).
  rewrite write_csv_rows. pose proof (write_records_inv results) as Hrows.
  destruct (write_records results) as [rows err]. cbn [fst snd] in Hrows |- *.
  exists rows, err. split; [reflexivity|].
  eapply Forall_impl; [exact Hrows|]. intros r (res & cite & Hin & Hr).
  destruct (row_of_inv _ _ _ Hr) as (fn & Hfn & Hhead & _).
  apply collect_In, in_map_iff in Hin as (pdf & Htask & Hpdf).
  apply (Permutation_in _ (Hperm files)), in_map_iff in Hpdf as (f & <- & Hf).
  apply filter_In in Hf as [Hf Hends].
  exists f. split; [|split; assumption].
  rewrite Hhead. f_equal.
  apply (process_filename cfg json_loads _ pdfplumber_pages extract_pages) in Htask.
  rewrite Htask in Hfn. injection Hfn as <-.
  rewrite basename_join_name; [reflexivity|].
  rewrite Forall_forall in Hnames. apply Hnames. apply list_elem_of_In, Hf.
Qed.

End Facts.

Lemma main_rows_name_listed_files_witness :
  exists rows err,
    main shipped_config Samples.sample_loads
         (fun pdf => Samples.always (Samples.ok_response Samples.full_text))
         Samples.no_plumber Samples.one_page
         Samples.sample_listdir Samples.ascii_lower Samples.reversed Samples.writable
    = Ret (header_row :: rows, err)
    /\ Forall (fun r => exists f,
                  r !! 0%nat = Some (JStr f)
                  /\ In f [ lit "a.pdf"; lit "notes.txt"; lit "B.PDF" ]
                  /\ endswith (Samples.ascii_lower f) (lit ".pdf") = true) rows.
Proof.
  apply (main_rows_name_listed_files
           shipped_config Samples.sample_loads
           (fun pdf => Samples.always (Samples.ok_response Samples.full_text))
           Samples.no_plumber Samples.one_page
           Samples.sample_listdir Samples.ascii_lower Samples.reversed Samples.writable).
  - reflexivity.
  - vm_compute. repeat constructor; discriminate.
  - intros files. unfold Samples.reversed. symmetry. apply Permutation_rev.
  - reflexivity.
  - reflexivity.
Defined.

(** On the sample folder the two papers give two rows each, [B.PDF]
    first. *)
Example main_sample :
  main shipped_config Samples.sample_loads
       (fun pdf => Samples.always (Samples.ok_response Samples.full_text))
       Samples.no_plumber Samples.one_page
       Samples.sample_listdir Samples.ascii_lower Samples.reversed Samples.writable
  = Ret ( [ header_row;
            [ JStr (lit "B.PDF"); JStr (lit "A survey"); JStr []; JStr (lit "Li, Y.");
              JStr (lit "as in [3]"); JStr []; JStr [] ];
            [ JStr (lit "B.PDF"); JStr (lit "A survey"); JStr []; JStr (lit "Li, Y.");
              JStr []; JStr []; JStr [] ];
            [ JStr (lit "a.pdf"); JStr (lit "A survey"); JStr []; JStr (lit "Li, Y.");
              JStr (lit "as in [3]"); JStr []; JStr [] ];
            [ JStr (lit "a.pdf"); JStr (lit "A survey"); JStr []; JStr (lit "Li, Y.");
              JStr []; JStr []; JStr [] ] ],
          None ).
Proof. vm_compute. reflexivity. Qed.

(** With a pool of no worker the same run writes nothing, and neither does
    it when the output file cannot be opened. *)
Example main_sample_refused :
  main (Config (API_ENDPOINT shipped_config) (API_KEY shipped_config)
               (PDF_FOLDER shipped_config) (OUTPUT_CSV shipped_config) 0
               (YOUR_PAPER_TITLE shipped_config))
       Samples.sample_loads
       (fun pdf => Samples.always (Samples.ok_response Samples.full_text))
       Samples.no_plumber Samples.one_page
       Samples.sample_listdir Samples.ascii_lower Samples.reversed Samples.writable
  = Raise ValueError
  /\ main shipped_config Samples.sample_loads
          (fun pdf => Samples.always (Samples.ok_response Samples.full_text))
          Samples.no_plumber Samples.one_page
          Samples.sample_listdir Samples.ascii_lower Samples.reversed Samples.read_only
     = Raise (LibraryError "PermissionError").
Proof. split; vm_compute; reflexivity. Qed.

End Pipeline.
